(** * clean-up-box: the Box cleanup and recovery scripts

    A shallow embedding of [clean_box_folders.py] (class [BoxCleanup]) and
    [recover_box_files.py] (class [BoxRecovery]).

    - Python [str] values are Rocq strings whose characters stand for the
      code points 0..255; [PyStr] gives the library functions the scripts
      call on them ([lower], [strip], [in], [startswith], [endswith],
      [replace], [os.path.splitext], [int], [str]) on that range.
    - Python [int] is [Z].
    - The storage service, the issue tracker, the helper process and the
      terminal are an explicit environment record; every call the scripts
      make to them is appended to a trace kept next to the statistics
      counters, and exceptions and [sys.exit] are outcomes of a small
      state-and-exception monad.
    - A listing comes back whole or raises the storage service's
      exception; authentication has happened
      before [run] starts; an interrupt from the keyboard is not part of
      the model.  Logging has no effect on results and is left out.
    - [Unicode] has [find_case_folders] once more on names of any
      characters; [CleanupCli.main_from_argv] and [RecoveryCli.main] are
      the two [main] functions from their first line, with [parse_args],
      the opening of the log file and the logins. *)

From Stdlib Require Import String Ascii List ZArith Lia Bool DecimalString.
From Stdlib Require Import Sorting.Sorted Sorting.Permutation.
From Stdlib Require Import Floats.SpecFloat.
Import ListNotations.

Set Warnings "-register-all".

Open Scope string_scope.
Open Scope Z_scope.

(* ================================================================== *)
(** ** Python string library *)

Module PyStr.

(** Line feed, the only character [$] treats specially. *)
Definition LF : string := String "010"%char "".

(** [str.lower] on one code point below 256: [A]-[Z], and the Latin-1
    capitals U+00C0..U+00DE apart from the multiplication sign U+00D7. *)
Definition lower_char (c : ascii) : ascii :=
  let n := N_of_ascii c in
  if (((65 <=? n) && (n <=? 90))
      || ((192 <=? n) && (n <=? 222) && negb (n =? 215)))%N
  then ascii_of_N (n + 32) else c.

Fixpoint lower (s : string) : string :=
  match s with
  | EmptyString => EmptyString
  | String c r => String (lower_char c) (lower r)
  end.

(** [str.isspace] on one code point below 256. *)
Definition isspace (c : ascii) : bool :=
  let n := N_of_ascii c in
  (((9 <=? n) && (n <=? 13)) || ((28 <=? n) && (n <=? 32))
   || (n =? 133) || (n =? 160))%N.

Fixpoint lstrip (s : string) : string :=
  match s with
  | EmptyString => EmptyString
  | String c r => if isspace c then lstrip r else s
  end.

Fixpoint rstrip (s : string) : string :=
  match s with
  | EmptyString => EmptyString
  | String c r =>
      let r' := rstrip r in
      if isspace c && (r' =? "")%string then EmptyString else String c r'
  end.

(** [s.strip()] *)
Definition strip (s : string) : string := rstrip (lstrip s).

(** [s.startswith(p)] *)
Definition startswith (p s : string) : bool := prefix p s.

(** [needle in hay] *)
Fixpoint str_in (needle hay : string) : bool :=
  prefix needle hay
  || match hay with
     | EmptyString => false
     | String _ r => str_in needle r
     end.

(** [s.endswith(suf)] *)
Fixpoint endswith (suf s : string) : bool :=
  (s =? suf)%string
  || match s with
     | EmptyString => false
     | String _ r => endswith suf r
     end.

(** [s[:-2]] for a string of at least two characters. *)
Definition drop_last2 (s : string) : string :=
  substring 0 (String.length s - 2) s.

(** [s.replace(old, new)] for a non-empty [old]: occurrences are found
    left to right and do not overlap.  [skip] counts the characters of an
    occurrence still to be passed over. *)
Fixpoint replace_from (old new s : string) (skip : nat) : string :=
  match s with
  | EmptyString => EmptyString
  | String c r =>
      match skip with
      | S k => replace_from old new r k
      | O =>
          if prefix old s
          then new ++ replace_from old new r (String.length old - 1)
          else String c (replace_from old new r 0)
      end
  end.

Definition replace (old new s : string) : string := replace_from old new s 0.

(** [s.rfind(c)] for a single character, [-1] when absent. *)
Fixpoint rfind_from (c : ascii) (s : string) (i : Z) (found : Z) : Z :=
  match s with
  | EmptyString => found
  | String a r => rfind_from c r (i + 1) (if Ascii.eqb a c then i else found)
  end.

Definition rfind (c : ascii) (s : string) : Z := rfind_from c s 0 (-1).

Fixpoint all_chars (p : ascii -> bool) (s : string) : bool :=
  match s with
  | EmptyString => true
  | String c r => p c && all_chars p r
  end.

(** [os.path.splitext] of [posixpath]: the extension starts at the last
    dot, provided that dot comes after the last slash and some character
    between the slash and the dot is not a dot. *)
Definition splitext (p : string) : string * string :=
  let sepIndex := rfind "/"%char p in
  let dotIndex := rfind "."%char p in
  if (sepIndex <? dotIndex)
     && negb (all_chars (Ascii.eqb "."%char)
                (substring (Z.to_nat (sepIndex + 1))
                           (Z.to_nat (dotIndex - (sepIndex + 1))) p))
  then (substring 0 (Z.to_nat dotIndex) p,
        substring (Z.to_nat dotIndex)
                  (String.length p - Z.to_nat dotIndex) p)
  else (p, EmptyString).

(** [\d] on code points below 256 *)
Definition is_digit (c : ascii) : bool :=
  let n := N_of_ascii c in ((48 <=? n) && (n <=? 57))%N.

(** [int(s)] for a string of decimal digits *)
Fixpoint int_from (acc : Z) (s : string) : Z :=
  match s with
  | EmptyString => acc
  | String c r => int_from (acc * 10 + (Z.of_N (N_of_ascii c) - 48)) r
  end.

Definition int_of_digits (s : string) : Z := int_from 0 s.

(** [str(n)] for an [int] *)
Definition str_of_int (z : Z) : string := NilZero.string_of_int (Z.to_int z).

(** Truthiness of a string: non-empty. *)
Definition truthy (s : string) : bool := negb (s =? "")%string.

(** Truthiness of an optional string: neither [None] nor empty. *)
Definition truthy_opt (o : option string) : bool :=
  match o with
  | Some s => truthy s
  | None => false
  end.

End PyStr.

(* ================================================================== *)
(** ** Results, exceptions and [sys.exit] *)

Module Eff.

Inductive outcome (A : Type) :=
| Ret (a : A)
| Raise (msg : string)     (* an exception no handler nearby catches *)
| Exit (code : Z).         (* [sys.exit(code)] *)
Arguments Ret {A} a.
Arguments Raise {A} msg.
Arguments Exit {A} code.

(** The state of a run: the statistics counters, and the calls that left
    the process so far, oldest first. *)
Record run_state (St C : Type) := mkState {
  st_stats : St;
  st_calls : list C
}.
Arguments mkState {St C} st_stats st_calls.
Arguments st_stats {St C} r.
Arguments st_calls {St C} r.

(** A computation over the run state. *)
Definition M (St C A : Type) : Type :=
  run_state St C -> outcome A * run_state St C.

Definition ret {St C A} (a : A) : M St C A := fun s => (Ret a, s).

Definition bind {St C A B} (m : M St C A) (k : A -> M St C B) : M St C B :=
  fun s =>
    match m s with
    | (Ret a, s') => k a s'
    | (Raise msg, s') => (Raise msg, s')
    | (Exit c, s') => (Exit c, s')
    end.

Definition raise {St C A} (msg : string) : M St C A := fun s => (Raise msg, s).
Definition sys_exit {St C A} (code : Z) : M St C A := fun s => (Exit code, s).

Definition emit {St C} (c : C) : M St C unit :=
  fun s => (Ret tt, mkState (st_stats s) (st_calls s ++ [c])).

Definition emit_all {St C} (cs : list C) : M St C unit :=
  fun s => (Ret tt, mkState (st_stats s) (st_calls s ++ cs)).

Definition update_stats {St C} (f : St -> St) : M St C unit :=
  fun s => (Ret tt, mkState (f (st_stats s)) (st_calls s)).

(** The calls a computation adds to the trace of [s]. *)
Definition new_calls {St C A} (m : M St C A) (s : run_state St C) : list C :=
  skipn (List.length (st_calls s)) (st_calls (snd (m s))).

(** Every call the computation makes satisfies [P]. *)
Definition emits {St C A} (P : C -> bool) (m : M St C A) : Prop :=
  forall s, exists cs,
    st_calls (snd (m s)) = (st_calls s ++ cs)%list /\ forallb P cs = true.

Notation "x <- m ;; k" := (bind m (fun x => k))
  (at level 61, m at next level, right associativity).
Notation "m ;; k" := (bind m (fun _ => k))
  (at level 61, right associativity).

End Eff.

(* ================================================================== *)
(** ** What the storage service answers *)

Module Box.

Inductive api_result (A : Type) :=
| ApiOk (a : A)
| BoxAPIException (msg : string)     (* [msg] is [str(e)] *)
| OtherException (msg : string).
Arguments ApiOk {A} a.
Arguments BoxAPIException {A} msg.
Arguments OtherException {A} msg.

(** An entry of a folder listing.  A folder carries the listing of its
    own contents, [None] when [get_items] on it raises [BoxAPIException];
    the hierarchy is a tree.  [BoxOther] is an entry whose [type] is
    neither ['file'] nor ['folder'] (a web link). *)
Inductive box_item :=
| BoxFile (id name : string) (size : Z)
| BoxFolder (id name : string) (contents : option (list box_item))
| BoxOther (id name : string).

Definition item_id (item : box_item) : string :=
  match item with
  | BoxFile id _ _ | BoxFolder id _ _ | BoxOther id _ => id
  end.

(** [item.type == 'folder' and item.name == '1Completed'] *)
Definition is_completed_folder (item : box_item) : bool :=
  match item with
  | BoxFolder _ name _ => (name =? "1Completed")%string
  | _ => false
  end.

End Box.

(* ================================================================== *)
(** ** [clean_box_folders.py] *)

Module Cleanup.
Import PyStr Eff Box.

Definition JIRA_PURGE_QUERY_PATH : string :=
  "/home/vilhuber/bin/aea-scripts/jira_purge_query.py".

(** *** File classification *)

Definition DATA_FILE_EXTENSIONS : list string :=
  [ ".csv"; ".dta"; ".zip"; ".gz"; ".tar"; ".7z"; ".rar";
    ".sas7bdat"; ".sas7bcat"; ".sd2"; ".xpt";
    ".rds"; ".rdata"; ".rda";
    ".mat";
    ".pkl"; ".pickle";
    ".parquet"; ".feather";
    ".db"; ".sqlite"; ".sql";
    ".json"; ".jsonl"; ".ndjson";
    ".xml";
    ".hdf5"; ".h5";
    ".nc"; ".nc4";
    ".sav"; ".por";
    ".xlsx"; ".xls" ].

Definition DOCUMENT_EXTENSIONS : list string :=
  [ ".pdf"; ".docx"; ".doc"; ".txt"; ".md"; ".rtf";
    ".tex"; ".bib"; ".log"; ".aux";
    ".odt"; ".ods";
    ".pptx"; ".ppt" ].

(** [x in l] for a set of strings *)
Definition mem (x : string) (l : list string) : bool :=
  existsb (String.eqb x) l.

Inductive file_class := DataFile | DocumentFile.

(** [_, ext = os.path.splitext(item.name.lower())] *)
Definition extension (name : string) : string := snd (splitext (lower name)).

(** The three-way test of [recurse_folder]; the last two branches both
    append to [document_files]. *)
Definition classify_ext (ext : string) : file_class :=
  if mem ext DATA_FILE_EXTENSIONS then DataFile
  else if mem ext DOCUMENT_EXTENSIONS then DocumentFile
  else DocumentFile.

Definition classify_name (name : string) : file_class :=
  classify_ext (extension name).

(** *** The case-folder pattern [^aearep-(\d+)$] with [re.IGNORECASE] *)

(** A lowercase literal matched without regard to case; what is left of
    the subject is returned. *)
Fixpoint match_literal_ic (lit s : string) : option string :=
  match lit with
  | EmptyString => Some s
  | String a lit' =>
      match s with
      | EmptyString => None
      | String c s' =>
          if Ascii.eqb (lower_char c) a then match_literal_ic lit' s' else None
      end
  end.

(** The longest run of digits at the front of [s], and what follows. *)
Fixpoint span_digits (s : string) : string * string :=
  match s with
  | EmptyString => (EmptyString, EmptyString)
  | String c r =>
      if is_digit c
      then let (ds, tl) := span_digits r in (String c ds, tl)
      else (EmptyString, s)
  end.

(** [$] without [re.MULTILINE]: the end of the subject, or just before a
    line feed that ends it. *)
Definition at_end (s : string) : bool := (s =? "")%string || (s =? LF)%string.

(** [case_pattern.match(name)], giving [match.group(1)]. *)
Definition case_pattern_match (name : string) : option string :=
  match match_literal_ic "aearep-" name with
  | None => None
  | Some rest =>
      let (ds, tl) := span_digits rest in
      if truthy ds && at_end tl then Some ds else None
  end.

(** The form the specification gives: the prefix [aearep-] in any case,
    then one or more digits and nothing else. *)
Definition is_case_name (name digits : string) : Prop :=
  exists p, lower p = "aearep-" /\ name = p ++ digits
            /\ digits <> "" /\ all_chars is_digit digits = true.

(** *** Run state *)

Record stats := mkStats {
  folders_found : Z;
  folders_checked : Z;
  folders_ready : Z;
  folders_moved : Z;
  files_deleted : Z;
  bytes_deleted : Z;
  errors : Z
}.

Definition initial_stats : stats := mkStats 0 0 0 0 0 0 0.

Definition set_folders_found (n : Z) (s : stats) : stats :=
  mkStats n (folders_checked s) (folders_ready s) (folders_moved s)
          (files_deleted s) (bytes_deleted s) (errors s).
Definition add_folders_checked (n : Z) (s : stats) : stats :=
  mkStats (folders_found s) (folders_checked s + n) (folders_ready s)
          (folders_moved s) (files_deleted s) (bytes_deleted s) (errors s).
Definition add_folders_ready (n : Z) (s : stats) : stats :=
  mkStats (folders_found s) (folders_checked s) (folders_ready s + n)
          (folders_moved s) (files_deleted s) (bytes_deleted s) (errors s).
Definition add_folders_moved (n : Z) (s : stats) : stats :=
  mkStats (folders_found s) (folders_checked s) (folders_ready s)
          (folders_moved s + n) (files_deleted s) (bytes_deleted s) (errors s).
Definition add_files_deleted (n : Z) (s : stats) : stats :=
  mkStats (folders_found s) (folders_checked s) (folders_ready s)
          (folders_moved s) (files_deleted s + n) (bytes_deleted s) (errors s).
Definition add_bytes_deleted (n : Z) (s : stats) : stats :=
  mkStats (folders_found s) (folders_checked s) (folders_ready s)
          (folders_moved s) (files_deleted s) (bytes_deleted s + n) (errors s).
Definition add_errors (n : Z) (s : stats) : stats :=
  mkStats (folders_found s) (folders_checked s) (folders_ready s)
          (folders_moved s) (files_deleted s) (bytes_deleted s) (errors s + n).

(** Calls that leave the process, in the order they are made. *)
Inductive call :=
| RunHelper (args : list string)
| GetItems (folder_id : string)
| CreateSubfolder (parent_id name : string)
| MoveFolder (folder_id dest_id : string)
| DeleteFile (file_id : string)
| Input (prompt : string).

(** The calls that change the storage service. *)
Definition is_mutation (c : call) : bool :=
  match c with
  | CreateSubfolder _ _ | MoveFolder _ _ | DeleteFile _ => true
  | _ => false
  end.

Definition is_delete (c : call) : bool :=
  match c with
  | DeleteFile _ => true
  | _ => false
  end.

Definition is_input (c : call) : bool :=
  match c with
  | Input _ => true
  | _ => false
  end.

Definition state : Type := run_state stats call.

Definition initial_state : state := mkState initial_stats [].

Definition M (A : Type) : Type := Eff.M stats call A.

(** [try: m  except Exception: self.stats['errors'] += 1]; [SystemExit]
    is not an [Exception] and passes through. *)
Definition try_count_error (m : M unit) : M unit :=
  fun s =>
    match m s with
    | (Raise _, s') =>
        (Ret tt, mkState (add_errors 1 (st_stats s')) (st_calls s'))
    | r => r
    end.

(** *** The world outside *)

(** What [subprocess.run(args, capture_output=True, text=True, timeout=30)]
    does. *)
Inductive helper_result :=
| Completed (returncode : Z) (stdout stderr : string)
| TimeoutExpired
| HelperError (msg : string).

Record env := mkEnv {
  root_folder_id : string;                       (* BOX_FOLDER_PRIVATE *)
  helper_exists : bool;       (* os.path.exists(JIRA_PURGE_QUERY_PATH) *)
  run_helper : list string -> helper_result;
  get_items : string -> option (list box_item);
  create_subfolder : string -> string -> api_result string;
  move : string -> string -> api_result unit;
  delete : string -> api_result unit;
  input : string -> string
}.

(** *** [find_case_folders] *)

(** [(folder_id, folder_name, case_number)] *)
Definition case_ref : Type := string * string * string.

Definition case_number_of (c : case_ref) : string := snd c.

(** The sort key [int(x[2])]. *)
Definition case_key (c : case_ref) : Z := int_of_digits (case_number_of c).

(** [specific_case and case_number != specific_case]: the entry is
    passed over. *)
Definition other_case (specific_case : option string) (case_number : string)
  : bool :=
  match specific_case with
  | Some sc => truthy sc && negb (case_number =? sc)%string
  | None => false
  end.

(** The body of the loop over the listing of the root folder. *)
Fixpoint select_case_folders (specific_case : option string)
         (items : list box_item) : list case_ref :=
  match items with
  | [] => []
  | BoxFolder id name _ :: rest =>
      match case_pattern_match name with
      | Some case_number =>
          if other_case specific_case case_number
          then select_case_folders specific_case rest
          else (id, name, case_number) :: select_case_folders specific_case rest
      | None => select_case_folders specific_case rest
      end
  | _ :: rest => select_case_folders specific_case rest
  end.

(** [list.sort(key=...)] is stable; insertion from the right gives the one
    stable ordering of the list. *)
Fixpoint insert_by_key (x : case_ref) (l : list case_ref) : list case_ref :=
  match l with
  | [] => [x]
  | y :: r =>
      if case_key x <=? case_key y then x :: y :: r
      else y :: insert_by_key x r
  end.

Definition sort_by_key (l : list case_ref) : list case_ref :=
  fold_right insert_by_key [] l.

(** Ascending order of the numeric case id. *)
Definition key_le (a b : case_ref) : Prop := case_key a <= case_key b.

Definition find_case_folders (e : env) (specific_case : option string)
  : M (list case_ref) :=
  emit (GetItems (root_folder_id e)) ;;
  match get_items e (root_folder_id e) with
  | None => sys_exit 1
  | Some items =>
      let case_folders := select_case_folders specific_case items in
      update_stats (set_folders_found (Z.of_nat (List.length case_folders))) ;;
      ret (sort_by_key case_folders)
  end.

(** *** [check_jira_purge_status] *)

Definition helper_args (case_number : string) (verbose : bool) : list string :=
  [JIRA_PURGE_QUERY_PATH] ++ (if verbose then [] else ["-q"])
    ++ ["aearep-" ++ case_number].

(** [result.stdout.strip() if result.stdout else result.stderr.strip()] *)
Definition helper_output (stdout stderr : string) : string :=
  if truthy stdout then strip stdout else strip stderr.

Definition check_jira_purge_status (e : env) (skip_jira : bool)
           (case_number : string) (verbose : bool) : M (bool * string) :=
  if skip_jira then ret (true, "Skipped (--skip-jira-check)")
  else if negb (helper_exists e) then sys_exit 1
  else
    let args := helper_args case_number verbose in
    emit (RunHelper args) ;;
    match run_helper e args with
    | Completed returncode stdout stderr =>
        ret (returncode =? 0, helper_output stdout stderr)
    | TimeoutExpired => ret (false, "Timeout")
    | HelperError msg => ret (false, msg)
    end.

(** *** [classify_files_recursive] *)

Record file_info := mkFile {
  fi_id : string;
  fi_name : string;
  fi_size : Z;
  fi_path : string
}.

(** What the walk has gathered: the two result lists, and the folders
    whose listing was asked for so far. *)
Record walk := mkWalk {
  data_files : list file_info;
  document_files : list file_info;
  listed : list string
}.

Definition add_file (name : string) (f : file_info) (w : walk) : walk :=
  match classify_name name with
  | DataFile => mkWalk (data_files w ++ [f]) (document_files w) (listed w)
  | DocumentFile => mkWalk (data_files w) (document_files w ++ [f]) (listed w)
  end.

(** [folder.get_items(...)] is called on the folder [id]. *)
Definition add_listing (id : string) (w : walk) : walk :=
  mkWalk (data_files w) (document_files w) (listed w ++ [id]).

(** One turn of the loop of [recurse_folder]; for a subfolder the inner
    loop is the call [recurse_folder(subfolder, item_path)], whose own
    handler swallows a failed listing. *)
Fixpoint visit_item (path_prefix : string) (item : box_item) (w : walk)
  {struct item} : walk :=
  match item with
  | BoxFile id name size =>
      add_file name (mkFile id name size (path_prefix ++ "/" ++ name)) w
  | BoxFolder id name contents =>
      let item_path := path_prefix ++ "/" ++ name in
      let w1 := add_listing id w in
      match contents with
      | None => w1
      | Some items =>
          (fix visit_all (l : list box_item) (a : walk) {struct l} : walk :=
             match l with
             | [] => a
             | x :: r => visit_all r (visit_item item_path x a)
             end) items w1
      end
  | BoxOther _ _ => w
  end.

Definition recurse_folder (path_prefix : string) (items : list box_item)
           (w : walk) : walk :=
  fold_left (fun a x => visit_item path_prefix x a) items w.

(** The case folder is listed through the environment; a subfolder met
    on the way has the listing its entry carries. *)
Definition classify_files_recursive (e : env) (folder_id : string)
  : M (list file_info * list file_info) :=
  let w0 := add_listing folder_id (mkWalk [] [] []) in
  let w := match get_items e folder_id with
           | None => w0
           | Some items => recurse_folder "" items w0
           end in
  emit_all (map GetItems (listed w)) ;;
  ret (data_files w, document_files w).

(** *** [delete_data_files] *)

Fixpoint delete_loop (e : env) (test_mode : bool) (files : list file_info)
         (deleted_count deleted_bytes : Z) : M (Z * Z) :=
  match files with
  | [] => ret (deleted_count, deleted_bytes)
  | f :: rest =>
      if test_mode
      then delete_loop e test_mode rest
                       (deleted_count + 1) (deleted_bytes + fi_size f)
      else
        emit (DeleteFile (fi_id f)) ;;
        match delete e (fi_id f) with
        | ApiOk _ =>
            delete_loop e test_mode rest
                        (deleted_count + 1) (deleted_bytes + fi_size f)
        | BoxAPIException _ =>
            update_stats (add_errors 1) ;;
            delete_loop e test_mode rest deleted_count deleted_bytes
        | OtherException msg => raise msg
        end
  end.

Definition delete_data_files (e : env) (test_mode : bool)
           (files : list file_info) : M Z :=
  r <- delete_loop e test_mode files 0 0 ;;
  update_stats (add_files_deleted (fst r)) ;;
  update_stats (add_bytes_deleted (snd r)) ;;
  ret (fst r).

(** *** [get_or_create_completed_folder] *)

Definition get_or_create_completed_folder (e : env) (test_mode : bool)
  : M (option string) :=
  emit (GetItems (root_folder_id e)) ;;
  match get_items e (root_folder_id e) with
  | None => if negb test_mode then sys_exit 1 else ret None
  | Some items =>
      match find is_completed_folder items with
      | Some item => ret (Some (item_id item))
      | None =>
          if test_mode then ret None
          else
            emit (CreateSubfolder (root_folder_id e) "1Completed") ;;
            match create_subfolder e (root_folder_id e) "1Completed" with
            | ApiOk id => ret (Some id)
            | BoxAPIException _ => sys_exit 1
            | OtherException msg => raise msg
            end
      end
  end.

(** *** [move_folder_to_completed] *)

Definition move_folder_to_completed (e : env) (test_mode : bool)
           (folder_id folder_name : string) (completed_folder_id : option string)
  : M bool :=
  if test_mode then ret true
  else
    match completed_folder_id with
    | None => ret false
    | Some cid =>
        if negb (truthy cid) then ret false
        else
          emit (MoveFolder folder_id cid) ;;
          match move e folder_id cid with
          | ApiOk _ => ret true
          | BoxAPIException msg =>
              if str_in "item_name_in_use" (lower msg) then ret false
              else update_stats (add_errors 1) ;; ret false
          | OtherException msg => raise msg
          end
    end.

(** *** [process_case_folder] *)

Definition process_case_folder (e : env) (test_mode skip_jira : bool)
           (folder_id folder_name case_number : string)
           (completed_folder_id : option string) : M bool :=
  update_stats (add_folders_checked 1) ;;
  status <- check_jira_purge_status e skip_jira case_number false ;;
  if negb (fst status) then ret false
  else
    update_stats (add_folders_ready 1) ;;
    files <- classify_files_recursive e folder_id ;;
    move_success <- move_folder_to_completed e test_mode folder_id folder_name
                                             completed_folder_id ;;
    if negb move_success then ret false
    else
      update_stats (add_folders_moved 1) ;;
      match fst files with
      | [] => ret true
      | _ :: _ => delete_data_files e test_mode (fst files) ;; ret true
      end.

(** *** [run] *)

Definition confirm_prompt (n : nat) : string :=
  if (10 <? Z.of_nat n)
  then "Process " ++ str_of_int (Z.of_nat n)
         ++ " folders? This may take a while. [y/N]: "
  else "Continue? [y/N]: ".

(** The confirmation step; [true] when the run goes on. *)
Definition confirm (e : env) (test_mode auto_confirm : bool) (n : nat) : M bool :=
  if negb auto_confirm && negb test_mode && (1 <? Z.of_nat n)
  then
    emit (Input (confirm_prompt n)) ;;
    ret (mem (lower (input e (confirm_prompt n))) ["y"; "yes"])
  else ret true.

Fixpoint process_all (e : env) (test_mode skip_jira : bool)
         (completed_folder_id : option string) (cases : list case_ref) : M unit :=
  match cases with
  | [] => ret tt
  | (folder_id, folder_name, case_number) :: rest =>
      try_count_error
        (process_case_folder e test_mode skip_jira folder_id folder_name
                             case_number completed_folder_id ;; ret tt) ;;
      process_all e test_mode skip_jira completed_folder_id rest
  end.

(** [run], from the point where [authenticate_box] has returned. *)
Definition run (e : env) (test_mode skip_jira : bool)
           (specific_case : option string) (auto_confirm : bool) : M unit :=
  if negb skip_jira && negb (helper_exists e) then sys_exit 1
  else
    case_folders <- find_case_folders e specific_case ;;
    match case_folders with
    | [] => ret tt
    | _ :: _ =>
        go <- confirm e test_mode auto_confirm (List.length case_folders) ;;
        if negb go then ret tt
        else
          completed_folder_id <- get_or_create_completed_folder e test_mode ;;
          process_all e test_mode skip_jira completed_folder_id case_folders
    end.

(** *** Properties of runs *)

Definition not_delete (c : call) : bool := negb (is_delete c).
Definition not_input (c : call) : bool := negb (is_input c).

(** The computation deletes nothing: no deletion call, and the two
    deletion counters stay as they are. *)
Definition deletes_nothing {A} (m : M A) : Prop :=
  forall s,
    files_deleted (st_stats (snd (m s))) = files_deleted (st_stats s)
    /\ bytes_deleted (st_stats (snd (m s))) = bytes_deleted (st_stats s)
    /\ exists cs, st_calls (snd (m s)) = (st_calls s ++ cs)%list
                  /\ forallb not_delete cs = true.

(** Within [cs], a deletion comes only after the call that moved the
    folder into the archive folder, and that call succeeded. *)
Definition move_first (e : env) (folder_id : string)
           (completed_folder_id : option string) (cs : list call) : Prop :=
  forall pre file_id post,
    cs = (pre ++ DeleteFile file_id :: post)%list ->
    exists cid,
      completed_folder_id = Some cid
      /\ move e folder_id cid = ApiOk tt
      /\ In (MoveFolder folder_id cid) pre.

Definition moves_first {A} (e : env) (folder_id : string)
           (completed_folder_id : option string) (m : M A) : Prop :=
  forall s, exists cs,
    st_calls (snd (m s)) = (st_calls s ++ cs)%list
    /\ move_first e folder_id completed_folder_id cs.

(** A call a dry run and a live run have in common: it neither changes
    the storage service nor asks the user. *)
Definition shared (c : call) : bool := negb (is_mutation c) && negb (is_input c).

(** The state of a dry run next to the state of a live run: the same
    counters, and the same calls but for those only a live run makes. *)
Definition mirrors (dry live : state) : Prop :=
  st_stats dry = st_stats live
  /\ st_calls dry = filter shared (st_calls live).

(** [dry] and [live] end alike from states that mirror each other. *)
Definition sim {A} (dry live : M A) : Prop :=
  forall sd sl,
    mirrors sd sl ->
    fst (dry sd) = fst (live sl) /\ mirrors (snd (dry sd)) (snd (live sl)).

(** No call that changes the storage service fails. *)
Definition mutations_succeed (e : env) : Prop :=
  (forall parent name, exists id,
      create_subfolder e parent name = ApiOk id /\ truthy id = true)
  /\ (forall folder_id dest_id, move e folder_id dest_id = ApiOk tt)
  /\ (forall file_id, delete e file_id = ApiOk tt).

(** The run from [s] asks the user to confirm. *)
Definition prompts {A} (m : M A) (s : state) : bool :=
  existsb is_input (new_calls m s).

(** The user answers yes to whatever is asked. *)
Definition answers_yes (e : env) : Prop :=
  forall prompt, mem (lower (input e prompt)) ["y"; "yes"] = true.

(** The archive folder, when the root folder lists it, has an id. *)
Definition archive_id_nonempty (e : env) : Prop :=
  forall items item,
    get_items e (root_folder_id e) = Some items ->
    find is_completed_folder items = Some item ->
    truthy (item_id item) = true.

(** *** A sample world

    The root folder ["0"] holds the case folders of 4322 and 4321 (in that
    order), a folder that is no case folder, and a loose file; the helper
    declares 4321 ready and nothing else; [move_answer] is what the
    storage service answers to a move. *)

Definition sample_root : list box_item :=
  [ BoxFolder "104322" "AEAREP-4322"
      (Some [BoxFile "f3" "raw.dta" 4096]);
    BoxFolder "104321" "aearep-4321"
      (Some [BoxFile "f1" "panel.csv" 2048;
             BoxFolder "d1" "docs" (Some [BoxFile "f2" "README.pdf" 512])]);
    BoxFolder "100012" "aearep-12a" (Some []);
    BoxFile "f0" "aearep-7.txt" 10 ].

Definition sample_listing (folder_id : string) : option (list box_item) :=
  if (folder_id =? "0")%string then Some sample_root
  else
    match find (fun item => (item_id item =? folder_id)%string) sample_root with
    | Some (BoxFolder _ _ contents) => contents
    | _ => None
    end.

Definition sample_helper (args : list string) : helper_result :=
  if mem "aearep-4321" args then Completed 0 ("READY" ++ LF) ""
  else Completed 1 "" ("not ready" ++ LF).

Definition sample_env (move_answer : api_result unit) : env :=
  mkEnv "0" true sample_helper sample_listing
        (fun _ _ => ApiOk "777")
        (fun _ _ => move_answer)
        (fun _ => ApiOk tt)
        (fun _ => "y").

End Cleanup.

(* ================================================================== *)
(** ** [recover_box_files.py] *)

Module Recovery.
Import PyStr Eff Box.

(** *** [_clean_jira_numeric_field] *)

(** A field value as the issue tracker's client hands it over. *)
Inductive jira_value :=
| JNone
| JFloat (f : spec_float)
| JInt (n : Z)
| JStr (s : string).

(** [int(f)] for a float: the value cut towards zero; an infinity raises
    [OverflowError] and a NaN [ValueError]. *)
Definition int_of_float (f : spec_float) : option Z :=
  match f with
  | S754_zero _ => Some 0
  | S754_finite sign m e =>
      let magnitude := Z.shiftl (Z.pos m) e in
      Some (if sign then - magnitude else magnitude)
  | S754_infinity _ => None
  | S754_nan => None
  end.

(** The binary64 value [1234.0]: mantissa [1234 * 2^42], exponent [-42]. *)
Definition float_1234 : spec_float := S754_finite false 5427189394702336 (-42).

(** The result is [Ret (Some s)], [Ret None], or the exception of [int]. *)
Definition _clean_jira_numeric_field (value : jira_value)
  : outcome (option string) :=
  match value with
  | JNone => Ret None
  | JFloat f =>
      match int_of_float f with
      | Some n => Ret (Some (str_of_int n))
      | None => Raise "cannot convert float to integer"
      end
  | JInt n =>
      let value_str := str_of_int n in
      if endswith ".0" value_str then Ret (Some (drop_last2 value_str))
      else Ret (Some value_str)
  | JStr value_str =>
      if endswith ".0" value_str then Ret (Some (drop_last2 value_str))
      else Ret (Some value_str)
  end.

(** Truthiness of a field value. *)
Definition jira_truthy (v : jira_value) : bool :=
  match v with
  | JNone => false
  | JFloat (S754_zero _) => false
  | JFloat _ => true
  | JInt n => negb (n =? 0)
  | JStr s => truthy s
  end.

(** *** [_matches_folder_name] *)

Definition _matches_folder_name (item_name expected_name : string) : bool :=
  let item_lower := lower item_name in
  let expected_lower := lower expected_name in
  if (item_lower =? expected_lower)%string then true
  else if str_in expected_lower item_lower then true
  else if (item_lower =? "aearep-" ++ expected_lower)%string
          || str_in ("aearep-" ++ expected_lower) item_lower then true
  else if startswith "aearep-" expected_lower then
    let bare_expected := replace "aearep-" "" expected_lower in
    if (item_lower =? bare_expected)%string || str_in bare_expected item_lower
    then true else false
  else false.

(** *** Dates *)

(** A [datetime]: its date and time fields as one count of microseconds,
    and the offset from UTC of its [tzinfo], [None] for a naive value. *)
Record datetime := mkDatetime {
  wall : Z;
  tzinfo : option Z
}.

(** [d.replace(tzinfo=tz)]: the fields stay as they are. *)
Definition replace_tzinfo (d : datetime) (tz : option Z) : datetime :=
  mkDatetime (wall d) tz.

(** The moment an aware value denotes, on the UTC clock. *)
Definition utc_instant (d : datetime) (offset : Z) : Z := wall d - offset.

(** [a < b]: two naive values by their fields, two aware values by the
    moments they denote; one of each raises [TypeError]. *)
Definition datetime_lt (a b : datetime) : option bool :=
  match tzinfo a, tzinfo b with
  | None, None => Some (wall a <? wall b)
  | Some oa, Some ob => Some (utc_instant a oa <? utc_instant b ob)
  | _, _ => None
  end.

(** *** Trashed items *)

(** The [trashed_by] entry of an item. *)
Inductive trashed_by_field :=
| NoUser                             (* [None], or another falsy value *)
| UserDict (login : option string)   (* a non-empty dict and its ['login'],
                                        [None] for a dict without one *)
| UserObject.                        (* a truthy value that is no dict *)

Record trashed_item := mkItem {
  it_id : string;
  it_name : string;
  it_type : string;
  it_size : Z;
  it_trashed_at : option string;
  it_trashed_by : trashed_by_field;
  (* the ['id'] of each entry of a non-empty dict ['path_collection'] *)
  it_path_collection : option (list (option string));
  it_parent_id : option string
}.

Section Filter.

(** [datetime.fromisoformat], [None] when it raises. *)
Variable fromisoformat : string -> option datetime.

(** [self.cutoff_date], the fields of [datetime.utcnow() - timedelta(days)]:
    a naive value on the UTC clock. *)
Variable cutoff_date : Z.

(** The date test: [true] when the loop moves on to the next item. *)
Definition date_skips (item : trashed_item) : bool :=
  match it_trashed_at item with
  | None => false
  | Some trashed_at_str =>
      if negb (truthy trashed_at_str) then false
      else
        match fromisoformat (replace "Z" "+00:00" trashed_at_str) with
        | None => false
        | Some trashed_at =>
            let cmp :=
              match tzinfo trashed_at with
              | Some tz =>
                  let cutoff := replace_tzinfo (mkDatetime cutoff_date None)
                                               (Some tz) in
                  datetime_lt trashed_at cutoff
              | None =>
                  let cutoff := mkDatetime cutoff_date None in
                  datetime_lt (replace_tzinfo trashed_at None) cutoff
              end in
            match cmp with
            | Some before => before
            | None => false
            end
        end
  end.

(** The user test: [true] when the loop moves on to the next item. *)
Definition user_skips (user_filter : string) (item : trashed_item) : bool :=
  if truthy user_filter then
    match it_trashed_by item with
    | NoUser => false
    | UserDict login =>
        let user_login := match login with Some l => l | None => "" end in
        negb (str_in (lower user_filter) (lower user_login))
    | UserObject => negb (str_in (lower user_filter) (lower ""))
    end
  else false.

(** Checks 1 to 3, which need a folder id. *)
Definition id_match (fid : string) (item : trashed_item) : bool :=
  (it_id item =? fid)%string.

Definition parent_match (fid : string) (item : trashed_item) : bool :=
  match it_parent_id item with
  | Some parent_id => truthy parent_id && (parent_id =? fid)%string
  | None => false
  end.

Definition path_match (fid : string) (item : trashed_item) : bool :=
  match it_path_collection item with
  | Some entries =>
      existsb (fun entry => match entry with
                            | Some id => (id =? fid)%string
                            | None => false
                            end) entries
  | None => false
  end.

(** The value of [item_matches] when the folder test is reached. *)
Definition folder_matches (folder_id folder_name : option string)
           (item : trashed_item) : bool :=
  let by_id :=
    match folder_id with
    | Some fid =>
        truthy fid
        && (id_match fid item || parent_match fid item || path_match fid item)
    | None => false
    end in
  let by_name :=
    match folder_name with
    | Some fname => truthy fname && _matches_folder_name (it_name item) fname
    | None => false
    end in
  let item_matches := by_id || (negb by_id && by_name) in
  if negb (truthy_opt folder_id) && negb (truthy_opt folder_name) then true
  else item_matches.

Fixpoint filter_trashed_items (items : list trashed_item)
         (folder_id folder_name : option string) (user_filter : string)
  : list trashed_item :=
  match items with
  | [] => []
  | item :: rest =>
      let filtered := filter_trashed_items rest folder_id folder_name
                                           user_filter in
      if date_skips item then filtered
      else if user_skips user_filter item then filtered
      else if negb (folder_matches folder_id folder_name item) then filtered
      else item :: filtered
  end.

End Filter.

(** *** Run state and the world outside *)

Record stats := mkStats {
  items_found : Z;
  items_restored : Z;
  errors : Z
}.

Definition initial_stats : stats := mkStats 0 0 0.

Definition set_items_found (n : Z) (s : stats) : stats :=
  mkStats n (items_restored s) (errors s).
Definition add_items_restored (n : Z) (s : stats) : stats :=
  mkStats (items_found s) (items_restored s + n) (errors s).
Definition add_errors (n : Z) (s : stats) : stats :=
  mkStats (items_found s) (items_restored s) (errors s + n).

Inductive call :=
| JiraIssue (issue_key : string)
| JiraFields
| ListTrash
| GetItems (folder_id : string)
| CreateSubfolder (parent_id name : string)
| Restore (item_type item_id target_folder_id : string)
| Input (prompt : string).

Definition is_input (c : call) : bool :=
  match c with
  | Input _ => true
  | _ => false
  end.

Definition state : Type := run_state stats call.

Definition initial_state : state := mkState initial_stats [].

Definition M (A : Type) : Type := Eff.M stats call A.

Record env := mkEnv {
  root_folder_id : string;                       (* BOX_FOLDER_PRIVATE *)
  (* [jira_client.issue(key)]: the value of each attribute of
     [issue.fields], [JNone] for an attribute that is not there;
     [None] when the call raises *)
  jira_issue : string -> option (string -> jira_value);
  (* [jira_client.fields()]: the [(name, id)] of every field *)
  jira_fields : option (list (string * string));
  (* what [get_trashed_items] returns once its fallbacks are through *)
  trash : list trashed_item;
  get_items : string -> option (list box_item);
  create_subfolder : string -> string -> api_result string;
  restore : string -> string -> string -> api_result unit;
  input : string -> string;
  iso_parser : string -> option datetime         (* datetime.fromisoformat *)
}.

(** *** [get_box_info_from_jira] *)

(** [field_map.get(name)] on the dict filled from [fields] in order: a
    later entry of the same name replaces an earlier one. *)
Definition field_map_get (name : string) (fields : list (string * string))
  : option string :=
  fold_left
    (fun found f => if (fst f =? name)%string then Some (snd f) else found)
    fields None.

(** The short folder name of the issue; an exception of the cleaner
    reaches the handler of the whole function. *)
Definition folder_name_of (fields : list (string * string))
           (values : string -> jira_value) : outcome (option string) :=
  match field_map_get "Bitbucket short name" fields with
  | Some folder_name_field_id =>
      if truthy folder_name_field_id then
        let folder_name_raw := values folder_name_field_id in
        if jira_truthy folder_name_raw
        then _clean_jira_numeric_field folder_name_raw
        else Ret None
      else Ret None
  | None => Ret None
  end.

Definition box_info (fields : list (string * string))
           (values : string -> jira_value) : option string * option string :=
  match field_map_get "Restricted data Box ID" fields with
  | None => (None, None)
  | Some box_id_field_id =>
      if negb (truthy box_id_field_id) then (None, None)
      else
        let box_folder_id_raw := values box_id_field_id in
        if negb (jira_truthy box_folder_id_raw) then (None, None)
        else
          match _clean_jira_numeric_field box_folder_id_raw with
          | Ret box_folder_id =>
              if negb (truthy_opt box_folder_id) then (None, None)
              else
                match folder_name_of fields values with
                | Ret folder_name => (box_folder_id, folder_name)
                | _ => (None, None)
                end
          | _ => (None, None)
          end
  end.

Definition get_box_info_from_jira (e : env) (case_number : string)
  : M (option string * option string) :=
  let issue_key := "aearep-" ++ case_number in
  emit (JiraIssue issue_key) ;;
  match jira_issue e issue_key with
  | None => ret (None, None)
  | Some values =>
      emit JiraFields ;;
      match jira_fields e with
      | None => ret (None, None)
      | Some fields => ret (box_info fields values)
      end
  end.

Definition get_trashed_items (e : env) : M (list trashed_item) :=
  emit ListTrash ;; ret (trash e).

(** *** The archive folder and the restore *)

Definition get_or_create_completed_folder (e : env) (test_mode : bool)
  : M (option string) :=
  emit (GetItems (root_folder_id e)) ;;
  match get_items e (root_folder_id e) with
  | None => if negb test_mode then sys_exit 1 else ret None
  | Some items =>
      match find is_completed_folder items with
      | Some item => ret (Some (item_id item))
      | None =>
          if test_mode then ret None
          else
            emit (CreateSubfolder (root_folder_id e) "1Completed") ;;
            match create_subfolder e (root_folder_id e) "1Completed" with
            | ApiOk id => ret (Some id)
            | BoxAPIException _ => sys_exit 1
            | OtherException msg => raise msg
            end
      end
  end.

(** [item.type == 'folder' and self._matches_folder_name(item.name, folder_name)] *)
Definition is_case_folder (folder_name : string) (item : box_item) : bool :=
  match item with
  | BoxFolder _ name _ => _matches_folder_name name folder_name
  | _ => false
  end.

Definition find_case_folder_in_completed (e : env) (test_mode : bool)
           (folder_name : string) : M (option string) :=
  completed_folder_id <- get_or_create_completed_folder e test_mode ;;
  match completed_folder_id with
  | None => ret None
  | Some cid =>
      if negb (truthy cid) then ret None
      else
        emit (GetItems cid) ;;
        match get_items e cid with
        | None => ret None
        | Some items =>
            match find (is_case_folder folder_name) items with
            | Some item => ret (Some (item_id item))
            | None => ret None
            end
        end
  end.

Definition restore_item (e : env) (test_mode : bool) (item : trashed_item)
           (target_folder_id : option string) : M bool :=
  if test_mode then ret true
  else
    match target_folder_id with
    | None => ret false
    | Some target =>
        if negb (truthy target) then ret false
        else
          emit (Restore (it_type item) (it_id item) target) ;;
          match restore e (it_type item) (it_id item) target with
          | ApiOk _ => update_stats (add_items_restored 1) ;; ret true
          | BoxAPIException msg =>
              if str_in "item_name_in_use" (lower msg) then ret false
              else update_stats (add_errors 1) ;; ret false
          | OtherException _ => update_stats (add_errors 1) ;; ret false
          end
    end.

Fixpoint restore_all (e : env) (test_mode : bool) (items : list trashed_item)
         (target_folder_id : option string) : M unit :=
  match items with
  | [] => ret tt
  | item :: rest =>
      restore_item e test_mode item target_folder_id ;;
      restore_all e test_mode rest target_folder_id
  end.

(** *** [run] *)

Definition restore_prompt (n : nat) : string :=
  LF ++ "Restore " ++ str_of_int (Z.of_nat n)
     ++ " item(s) to their folder? [y/N]: ".

(** The confirmation step; [true] when the run goes on. *)
Definition confirm (e : env) (test_mode auto_confirm : bool) (n : nat) : M bool :=
  if negb auto_confirm && negb test_mode
  then
    emit (Input (restore_prompt n)) ;;
    ret (existsb (String.eqb (lower (input e (restore_prompt n)))) ["y"; "yes"])
  else ret true.

Definition find_target_folder (e : env) (test_mode : bool)
           (box_folder_name : option string) : M (option string) :=
  match box_folder_name with
  | Some name =>
      if truthy name then
        target_folder_id <- find_case_folder_in_completed e test_mode name ;;
        if negb (truthy_opt target_folder_id)
        then get_or_create_completed_folder e test_mode
        else ret target_folder_id
      else get_or_create_completed_folder e test_mode
  | None => get_or_create_completed_folder e test_mode
  end.

(** [run], from the point where [authenticate_box] and [authenticate_jira]
    have returned; [cutoff_date] is the value [__init__] stored. *)
Definition run (e : env) (test_mode : bool) (cutoff_date : Z)
           (case_number : string) (list_only auto_confirm : bool) : M unit :=
  info <- get_box_info_from_jira e case_number ;;
  let box_folder_id := fst info in
  let box_folder_name := snd info in
  if negb (truthy_opt box_folder_id) then sys_exit 1
  else
    trashed_items <- get_trashed_items e ;;
    let filtered_items :=
      filter_trashed_items (iso_parser e) cutoff_date trashed_items
                           box_folder_id box_folder_name "aeadata" in
    update_stats (set_items_found (Z.of_nat (List.length filtered_items))) ;;
    if list_only then ret tt
    else
      match filtered_items with
      | [] => ret tt
      | _ :: _ =>
          go <- confirm e test_mode auto_confirm (List.length filtered_items) ;;
          if negb go then ret tt
          else
            target_folder_id <- find_target_folder e test_mode box_folder_name ;;
            if negb (truthy_opt target_folder_id) then ret tt
            else restore_all e test_mode filtered_items target_folder_id
      end.

(** *** A reader for the layout the storage service sends *)

(** [YYYY-MM-DDTHH:MM:SS], alone or followed by [+HH:MM] or [-HH:MM]: the
    part of [datetime.fromisoformat] the examples below run on.  It is
    not the whole of it: days a month does not have and offsets of a day
    or more, which [fromisoformat] turns down, and fractions of a second,
    which it reads, are not told apart here. *)

Definition digits_at (start len : nat) (s : string) : option Z :=
  let d := substring start len s in
  if (String.length d =? len)%nat && all_chars is_digit d
  then Some (int_of_digits d) else None.

Definition char_at (i : nat) (s : string) : option ascii := String.get i s.

(** Days since 1970-01-01 of a date of the proleptic Gregorian calendar. *)
Definition days_from_civil (y m d : Z) : Z :=
  let y' := if m <=? 2 then y - 1 else y in
  let era := y' / 400 in
  let yoe := y' - era * 400 in
  let doy := (153 * (if 2 <? m then m - 3 else m + 9) + 2) / 5 + d - 1 in
  let doe := yoe * 365 + yoe / 4 - yoe / 100 + doy in
  era * 146097 + doe - 719468.

Definition is_char (c : ascii) (o : option ascii) : bool :=
  match o with
  | Some a => Ascii.eqb a c
  | None => false
  end.

Definition read_offset (s : string) : option (option Z) :=
  if (String.length s =? 19)%nat then Some None
  else if (String.length s =? 25)%nat && is_char ":"%char (char_at 22 s) then
    match digits_at 20 2 s, digits_at 23 2 s with
    | Some h, Some m =>
        let off := (h * 3600 + m * 60) * 1000000 in
        if is_char "+"%char (char_at 19 s) then Some (Some off)
        else if is_char "-"%char (char_at 19 s) then Some (Some (- off))
        else None
    | _, _ => None
    end
  else None.

Definition read_iso (s : string) : option datetime :=
  match digits_at 0 4 s, digits_at 5 2 s, digits_at 8 2 s,
        digits_at 11 2 s, digits_at 14 2 s, digits_at 17 2 s,
        read_offset s with
  | Some y, Some mo, Some d, Some h, Some mi, Some sec, Some tz =>
      if is_char "-"%char (char_at 4 s) && is_char "-"%char (char_at 7 s)
         && is_char "T"%char (char_at 10 s)
         && is_char ":"%char (char_at 13 s) && is_char ":"%char (char_at 16 s)
         && (1 <=? y) && (1 <=? mo) && (mo <=? 12) && (1 <=? d) && (d <=? 31)
         && (h <? 24) && (mi <? 60) && (sec <? 60)
      then Some (mkDatetime
                   ((((days_from_civil y mo d * 24 + h) * 60 + mi) * 60 + sec)
                    * 1000000) tz)
      else None
  | _, _, _, _, _, _, _ => None
  end.

(** *** Properties of runs *)

(** The run from [s] asks the user to confirm. *)
Definition prompts {A} (m : M A) (s : state) : bool :=
  existsb is_input (new_calls m s).

Definition not_input (c : call) : bool := negb (is_input c).

(** The items [run] offers to restore. *)
Definition items_to_restore (e : env) (cutoff_date : Z) (case_number : string)
  : list trashed_item :=
  match jira_issue e ("aearep-" ++ case_number), jira_fields e with
  | Some values, Some fields =>
      filter_trashed_items (iso_parser e) cutoff_date (trash e)
                           (fst (box_info fields values))
                           (snd (box_info fields values)) "aeadata"
  | _, _ => []
  end.

(** The issue gives a storage folder id. *)
Definition folder_resolved (e : env) (case_number : string) : bool :=
  match jira_issue e ("aearep-" ++ case_number), jira_fields e with
  | Some values, Some fields => truthy_opt (fst (box_info fields values))
  | _, _ => false
  end.

(** *** A sample world

    Issue 8040 names the storage folder 555 (as the float [555.0]) and the
    folder name [aearep-7712]; the trash holds two files of that folder,
    one deleted by the automation account and one by somebody else, and a
    file deleted by the automation account three hours before the cutoff
    as the clock of UTC has it, in a zone five hours ahead. *)

Definition float_555 : spec_float :=
  Eval vm_compute in binary_normalize 53 1024 555 0 false.

Definition sample_fields : list (string * string) :=
  [ ("Summary", "summary");
    ("Restricted data Box ID", "customfield_10100");
    ("Bitbucket short name", "customfield_10101") ].

Definition sample_values (id : string) : jira_value :=
  if (id =? "customfield_10100")%string then JFloat float_555
  else if (id =? "customfield_10101")%string then JStr "aearep-7712"
  else JNone.

(** The cutoff: seven days before 2024-01-17 00:00:00 on the UTC clock. *)
Definition sample_cutoff : Z :=
  match read_iso "2024-01-10T00:00:00" with
  | Some d => wall d
  | None => 0
  end.

Definition item_by_automation : trashed_item :=
  mkItem "9001" "panel.csv" "file" 2048
         (Some "2024-01-15T10:00:00-05:00")
         (UserDict (Some "AEAData@cornell.edu")) None (Some "555").

Definition item_by_other_user : trashed_item :=
  mkItem "9002" "notes.csv" "file" 100
         (Some "2024-01-15T11:00:00-05:00")
         (UserDict (Some "someone@cornell.edu")) None (Some "555").

Definition item_before_cutoff : trashed_item :=
  mkItem "9003" "early.csv" "file" 300
         (Some "2024-01-10T02:00:00+05:00")
         (UserDict (Some "aeadata@cornell.edu")) None (Some "555").

Definition item_without_metadata : trashed_item :=
  mkItem "9004" "old.csv" "file" 10 None NoUser None (Some "555").

Definition sample_listing (folder_id : string) : option (list box_item) :=
  if (folder_id =? "0")%string
  then Some [BoxFolder "777" "1Completed" None]
  else if (folder_id =? "777")%string
  then Some [BoxFolder "555" "aearep-7712" None]
  else None.

Definition sample_env (trashed : list trashed_item) : env :=
  mkEnv "0"
        (fun key => if (key =? "aearep-8040")%string
                    then Some sample_values else None)
        (Some sample_fields)
        trashed
        sample_listing
        (fun _ _ => ApiOk "778")
        (fun _ _ _ => ApiOk tt)
        (fun _ => "n")
        read_iso.

End Recovery.

(* ================================================================== *)
(** ** Logging in: [authenticate_box] and [authenticate_jira] *)

Module Auth.
Import PyStr Eff.

(** [os.path.join(a, b)] of [posixpath]. *)
Definition path_join (a b : string) : string :=
  if startswith "/" b then b
  else if negb (truthy a) || endswith "/" a then a ++ b
  else a ++ "/" ++ b.

(** What the process finds around it when it logs in. *)
Record os_env := mkOs {
  environ : string -> option string;                 (* os.environ.get *)
  path_exists : string -> bool;                      (* os.path.exists *)
  (* the block from [base64.b64decode] to [client.user().get()] raises
     nothing *)
  login_with_json : string -> bool;
  (* the block from [JWTAuth.from_settings_file] to [client.user().get()]
     raises nothing *)
  login_with_file : string -> bool;
  (* [JIRA(server, basic_auth)] and [myself()] raise nothing *)
  jira_login : string -> string -> string -> bool
}.

(** Where the credentials of the storage service came from. *)
Inductive box_login :=
| WithJson (blob : string)
| WithFile (config_file : string).

Definition config_file_of (box_config_path box_key_id box_enterprise_id : string)
  : string :=
  path_join box_config_path
            (box_enterprise_id ++ "_" ++ box_key_id ++ "_config.json").

(** The second way in, through a file of settings. *)
Definition authenticate_with_file (o : os_env) (root_folder_id : string)
  : outcome (string * box_login) :=
  match environ o "BOX_CONFIG_PATH",
        environ o "BOX_PRIVATE_KEY_ID",
        environ o "BOX_ENTERPRISE_ID" with
  | Some box_config_path, Some box_key_id, Some box_enterprise_id =>
      if truthy box_config_path && truthy box_key_id
         && truthy box_enterprise_id
      then
        let config_file :=
          config_file_of box_config_path box_key_id box_enterprise_id in
        if negb (path_exists o config_file) then Exit 1
        else if login_with_file o config_file
             then Ret (root_folder_id, WithFile config_file)
             else Exit 1
      else Exit 1
  | _, _, _ => Exit 1
  end.

(** The root folder id and the credentials used, or [sys.exit(1)]. *)
Definition authenticate_box (o : os_env) : outcome (string * box_login) :=
  match environ o "BOX_FOLDER_PRIVATE" with
  | None => Exit 1
  | Some root_folder_id =>
      if negb (truthy root_folder_id) then Exit 1
      else
        match environ o "BOX_PRIVATE_JSON" with
        | Some box_private_json =>
            if truthy box_private_json then
              if login_with_json o box_private_json
              then Ret (root_folder_id, WithJson box_private_json)
              else Exit 1
            else authenticate_with_file o root_folder_id
        | None => authenticate_with_file o root_folder_id
        end
  end.

Definition JIRA_DEFAULT_SERVER : string := "https://aeadataeditors.atlassian.net".

(** [os.environ.get('JIRA_SERVER', default)]: the default stands in for a
    variable that is not set, not for one that is set and empty. *)
Definition jira_server (o : os_env) : string :=
  match environ o "JIRA_SERVER" with
  | Some server => server
  | None => JIRA_DEFAULT_SERVER
  end.

(** The server and the user name logged in with, or [sys.exit(1)]. *)
Definition authenticate_jira (o : os_env) : outcome (string * string) :=
  match environ o "JIRA_USERNAME", environ o "JIRA_API_KEY" with
  | Some jira_username, Some jira_api_key =>
      if truthy jira_username && truthy jira_api_key then
        if jira_login o (jira_server o) jira_username jira_api_key
        then Ret (jira_server o, jira_username)
        else Exit 1
      else Exit 1
  | _, _ => Exit 1
  end.

(** A sample: only the variables of the file-based login are set. *)
Definition sample_environ (name : string) : option string :=
  if (name =? "BOX_FOLDER_PRIVATE")%string then Some "0"
  else if (name =? "BOX_CONFIG_PATH")%string then Some "/etc/box"
  else if (name =? "BOX_PRIVATE_KEY_ID")%string then Some "k1"
  else if (name =? "BOX_ENTERPRISE_ID")%string then Some "e9"
  else if (name =? "JIRA_USERNAME")%string then Some "me@example.org"
  else if (name =? "JIRA_API_KEY")%string then Some "token"
  else None.

Definition sample_os : os_env :=
  mkOs sample_environ
       (fun path => (path =? "/etc/box/e9_k1_config.json")%string)
       (fun _ => false) (fun _ => true) (fun _ _ _ => true).

(** The same, with a blob of settings that does not log in. *)
Definition sample_os_json : os_env :=
  mkOs (fun name => if (name =? "BOX_PRIVATE_JSON")%string then Some "e30="
                    else sample_environ name)
       (fun path => (path =? "/etc/box/e9_k1_config.json")%string)
       (fun _ => false) (fun _ => true) (fun _ _ _ => true).

End Auth.

(* ================================================================== *)
(** ** The command lines *)

Module Cli.
Import PyStr.

(** [str.isdigit] on one code point below 256: the decimal digits and the
    superscripts one, two and three. *)
Definition isdigit_char (c : ascii) : bool :=
  let n := N_of_ascii c in
  (((48 <=? n) && (n <=? 57)) || (n =? 178) || (n =? 179) || (n =? 185))%N.

(** [s.isdigit()]: at least one character, and digits only. *)
Definition isdigit (s : string) : bool := truthy s && all_chars isdigit_char s.

Fixpoint repeat_string (s : string) (n : nat) : string :=
  match n with
  | O => EmptyString
  | S k => s ++ repeat_string s k
  end.

(** How many elements of [l] satisfy [p]. *)
Definition count {A} (p : A -> bool) (l : list A) : Z :=
  Z.of_nat (List.length (filter p l)).

(** What [parser.parse_args()] does with the command line: it gives the
    arguments, or prints the help and leaves with status 0, or prints
    what is wrong with the command line and leaves with status 2. *)
Inductive parse_result (A : Type) :=
| Parsed (a : A)
| HelpShown
| UsageError.

Arguments Parsed {A} a.
Arguments HelpShown {A}.
Arguments UsageError {A}.

End Cli.

Module CleanupCli.
Import PyStr Eff Box Cleanup Cli.

(** *** [list_cases] *)

Definition summary_line (ready_count total : Z) : string :=
  "Summary: " ++ str_of_int ready_count ++ "/" ++ str_of_int total
    ++ " case(s) ready for purge".

(** The loop of [list_cases]: the count of ready cases, and what was
    handed to [print], in order. *)
Fixpoint check_all (e : env) (skip_jira : bool) (cases : list case_ref)
         (ready_count : Z) (printed : list string) : M (Z * list string) :=
  match cases with
  | [] => ret (ready_count, printed)
  | (_, _, case_number) :: rest =>
      status <- check_jira_purge_status e skip_jira case_number true ;;
      check_all e skip_jira rest
                (if fst status then ready_count + 1 else ready_count)
                (if truthy (snd status) then app printed [snd status]
                 else printed)
  end.

(** [list_cases], from the point where [authenticate_box] has returned;
    the result is what was handed to [print]. *)
Definition list_cases (e : env) (skip_jira : bool)
           (specific_case : option string) : M (list string) :=
  case_folders <- find_case_folders e specific_case ;;
  match case_folders with
  | [] => ret []
  | _ :: _ =>
      r <- check_all e skip_jira case_folders 0 [] ;;
      ret (app (snd r)
               [ LF ++ repeat_string "=" 60;
                 summary_line (fst r) (Z.of_nat (List.length case_folders));
                 repeat_string "=" 60 ])
  end.

(** *** [main] *)

Record args := mkArgs {
  arg_test : bool;                   (* --test *)
  arg_list : bool;                   (* --list *)
  arg_case : option string;          (* --case NUMBER *)
  arg_yes : bool;                    (* --yes *)
  arg_skip_jira_check : bool         (* --skip-jira-check *)
}.

(** [if args.case: if not args.case.isdigit(): ... sys.exit(1)] *)
Definition case_rejected (a : args) : bool :=
  match arg_case a with
  | Some c => truthy c && negb (isdigit c)
  | None => false
  end.

(** [except Exception as e: ... sys.exit(1)]; [SystemExit] passes. *)
Definition exit_on_exception {A} (m : M A) : M A :=
  fun s =>
    match m s with
    | (Raise _, s') => (Exit 1, s')
    | r => r
    end.

(** [main], with the login taken as done; the run starts from the
    counters [__init__] sets. *)
Definition main (e : env) (a : args) : outcome unit * state :=
  if case_rejected a then (Exit 1, initial_state)
  else
    exit_on_exception
      (if arg_list a
       then list_cases e (arg_skip_jira_check a) (arg_case a) ;; ret tt
       else run e (arg_test a) (arg_skip_jira_check a) (arg_case a) (arg_yes a))
      initial_state.

(** The world as the object has it once [authenticate_box] has stored
    the root folder id. *)
Definition with_root (e : env) (root : string) : env :=
  mkEnv root (helper_exists e) (run_helper e) (get_items e)
        (create_subfolder e) (move e) (delete e) (input e).


(** *** What the properties speak of *)

(** The file [f], with its path from [path_prefix], lies in [items] or in
    a subfolder of them that can be listed. *)
Inductive holds_file : list box_item -> string -> file_info -> Prop :=
| holds_here (items : list box_item) (path_prefix id name : string) (size : Z) :
    In (BoxFile id name size) items ->
    holds_file items path_prefix
               (mkFile id name size (path_prefix ++ "/" ++ name))
| holds_below (items sub : list box_item) (path_prefix id name : string)
              (f : file_info) :
    In (BoxFolder id name (Some sub)) items ->
    holds_file sub (path_prefix ++ "/" ++ name) f ->
    holds_file items path_prefix f.

(** The walk [classify_files_recursive] makes on the folder [folder_id]. *)
Definition walk_of (e : env) (folder_id : string) : walk :=
  match get_items e folder_id with
  | None => add_listing folder_id (mkWalk [] [] [])
  | Some items => recurse_folder "" items (add_listing folder_id (mkWalk [] [] []))
  end.

(** The test on the extension sends [f] to the list of data files. *)
Definition is_data_file (f : file_info) : bool :=
  match classify_name (fi_name f) with
  | DataFile => true
  | DocumentFile => false
  end.

(** What a walk adds to the two lists: the files [fs] it met, split by
    the test on the extension. *)
Definition walk_adds (w w' : walk) (fs : list file_info) : Prop :=
  data_files w' = (data_files w ++ filter is_data_file fs)%list
  /\ document_files w'
     = (document_files w ++ filter (fun f => negb (is_data_file f)) fs)%list.

(** The storage service turned the deletion of [f] down. *)
Definition delete_refused (e : env) (f : file_info) : bool :=
  match delete e (fi_id f) with
  | BoxAPIException _ => true
  | _ => false
  end.

Definition delete_done (e : env) (f : file_info) : bool :=
  match delete e (fi_id f) with
  | ApiOk _ => true
  | _ => false
  end.

Definition delete_raises (e : env) (f : file_info) : bool :=
  match delete e (fi_id f) with
  | OtherException _ => true
  | _ => false
  end.

Definition total_size (files : list file_info) : Z :=
  fold_right (fun f acc => fi_size f + acc) 0 files.

Definition delete_call (f : file_info) : call := DeleteFile (fi_id f).

(** A call is a read, or deletes one of [files]. *)
Definition deletes_only (files : list file_info) (c : call) : bool :=
  match c with
  | DeleteFile id => mem id (map fi_id files)
  | _ => true
  end.

(** The four folder counters are as they were. *)
Definition keeps_folders {A} (m : M A) : Prop :=
  forall s,
    folders_found (st_stats (snd (m s))) = folders_found (st_stats s)
    /\ folders_checked (st_stats (snd (m s))) = folders_checked (st_stats s)
    /\ folders_ready (st_stats (snd (m s))) = folders_ready (st_stats s)
    /\ folders_moved (st_stats (snd (m s))) = folders_moved (st_stats s).

(** What the summary of a run shows hangs together. *)
Definition counts_consistent (st : stats) : Prop :=
  0 <= folders_moved st /\ folders_moved st <= folders_ready st
  /\ folders_ready st <= folders_checked st
  /\ folders_checked st <= folders_found st.

(** What the helper, asked about a case with its full output, has to
    say. *)
Definition helper_text (e : env) (c : case_ref) : string :=
  match run_helper e (helper_args (case_number_of c) true) with
  | Completed _ stdout stderr => helper_output stdout stderr
  | TimeoutExpired => "Timeout"
  | HelperError msg => msg
  end.

(** The helper, asked about a case with its full output, says ready. *)
Definition helper_ready (e : env) (c : case_ref) : bool :=
  match run_helper e (helper_args (case_number_of c) true) with
  | Completed returncode _ _ => returncode =? 0
  | _ => false
  end.

(** The call that asks the helper about a case with its full output. *)
Definition helper_call (c : case_ref) : call :=
  RunHelper (helper_args (case_number_of c) true).

(** What [check_jira_purge_status], asked with full output, says of a
    case: with the flag that skips the check every case is ready, and
    the text says so. *)
Definition case_ready (e : env) (skip_jira : bool) (c : case_ref) : bool :=
  if skip_jira then true else helper_ready e c.

Definition case_text (e : env) (skip_jira : bool) (c : case_ref) : string :=
  if skip_jira then "Skipped (--skip-jira-check)" else helper_text e c.

Definition is_helper_run (c : call) : bool :=
  match c with
  | RunHelper _ => true
  | _ => false
  end.

Definition is_listing (c : call) : bool :=
  match c with
  | GetItems _ => true
  | _ => false
  end.

(** A call that checks a case or changes the storage service. *)
Definition works_on_case (c : call) : bool :=
  is_helper_run c || is_mutation c.

(** [sys.exit], when it is reached, has status 1. *)
Definition exits_with_one {A} (m : M A) : Prop :=
  forall s code, fst (m s) = Exit code -> code = 1.

(** One case folder more is checked; it may be counted ready, and when
    it is, it may be counted moved. *)
Definition counts_one_case {A} (m : M A) : Prop :=
  forall s,
    let before := st_stats s in
    let after := st_stats (snd (m s)) in
    folders_found after = folders_found before
    /\ folders_checked after = folders_checked before + 1
    /\ folders_moved before <= folders_moved after
    /\ folders_moved after - folders_moved before
       <= folders_ready after - folders_ready before
    /\ folders_ready after - folders_ready before <= 1.

(** *** Sample worlds for the deletion loop and the prompt *)

Definition sample_files : list file_info :=
  [ mkFile "f1" "panel.csv" 2048 "/panel.csv";
    mkFile "f4" "locked.dta" 100 "/locked.dta";
    mkFile "f5" "wave2.csv" 512 "/wave2.csv" ].

(** The world of [sample_env], where the deletion of ["f4"] is answered
    by [f4_answer] and the user answers no. *)
Definition sample_env_f4 (f4_answer : api_result unit) : env :=
  mkEnv "0" true sample_helper sample_listing
        (fun _ _ => ApiOk "777")
        (fun _ _ => ApiOk tt)
        (fun file_id => if (file_id =? "f4")%string then f4_answer else ApiOk tt)
        (fun _ => "n").

End CleanupCli.

Module RecoveryCli.
Import PyStr Eff Box Recovery Cli.

Definition MICROSECONDS_PER_DAY : Z := 86400000000.

(** The fields of [datetime.min] and [datetime.max]. *)
Definition DATETIME_MIN : Z := days_from_civil 1 1 1 * MICROSECONDS_PER_DAY.
Definition DATETIME_MAX : Z :=
  (days_from_civil 9999 12 31 + 1) * MICROSECONDS_PER_DAY - 1.

(** [datetime.utcnow() - timedelta(days=days_back)] of [__init__]: both
    the [timedelta] and the difference raise [OverflowError] out of
    range. *)
Definition cutoff_date_of (utcnow days_back : Z) : outcome Z :=
  if (999999999 <? Z.abs days_back)
  then Raise "OverflowError: days out of range"
  else
    let cutoff := utcnow - days_back * MICROSECONDS_PER_DAY in
    if (cutoff <? DATETIME_MIN) || (DATETIME_MAX <? cutoff)
    then Raise "OverflowError: date value out of range"
    else Ret cutoff.

Record args := mkArgs {
  arg_case : string;                 (* --case NUMBER, required *)
  arg_days : Z;                      (* --days N, 7 when not given *)
  arg_list : bool;                   (* --list *)
  arg_test : bool;                   (* --test *)
  arg_yes : bool                     (* --yes *)
}.

(** [except Exception as e: ... sys.exit(1)]; [SystemExit] passes. *)
Definition exit_on_exception {A} (m : M A) : M A :=
  fun s =>
    match m s with
    | (Raise _, s') => (Exit 1, s')
    | r => r
    end.

(** The world as the object has it once [authenticate_box] has stored
    the root folder id. *)
Definition with_root (e : env) (root : string) : env :=
  mkEnv root (jira_issue e) (jira_fields e) (trash e) (get_items e)
        (create_subfolder e) (restore e) (input e) (iso_parser e).

(** [sys.exit], when it is reached, has status 1. *)
Definition exits_with_one {A} (m : M A) : Prop :=
  forall s code, fst (m s) = Exit code -> code = 1.

(** [main] from its first line.  [parsed] is what [parse_args] does;
    [BoxRecovery(...)], before the [try], computes the cutoff date from
    [utcnow], the clock at that time, and then has [_setup_logging] open
    the log file, where [log_file_error] is the exception
    [logging.FileHandler] raises when it cannot; inside the [try], [run]
    starts with [authenticate_box] and [authenticate_jira]. *)
Definition main (parsed : parse_result args) (log_file_error : option string)
           (o : Auth.os_env) (e : env) (utcnow : Z) : outcome unit * state :=
  match parsed with
  | HelpShown => (Exit 0, initial_state)
  | UsageError => (Exit 2, initial_state)
  | Parsed a =>
      if negb (isdigit (arg_case a)) then (Exit 1, initial_state)
      else
        match cutoff_date_of utcnow (arg_days a) with
        | Raise msg => (Raise msg, initial_state)
        | Exit code => (Exit code, initial_state)
        | Ret cutoff_date =>
            match log_file_error with
            | Some msg => (Raise msg, initial_state)
            | None =>
                match Auth.authenticate_box o with
                | Ret (root, _) =>
                    match Auth.authenticate_jira o with
                    | Ret _ =>
                        exit_on_exception
                          (run (with_root e root) (arg_test a) cutoff_date
                               (arg_case a) (arg_list a) (arg_yes a))
                          initial_state
                    | Raise _ => (Exit 1, initial_state)
                    | Exit code => (Exit code, initial_state)
                    end
                | Raise _ => (Exit 1, initial_state)
                | Exit code => (Exit code, initial_state)
                end
            end
        end
  end.

(** *** What the properties speak of *)

(** The calls that change the storage service. *)
Definition is_mutation (c : call) : bool :=
  match c with
  | CreateSubfolder _ _ | Restore _ _ _ => true
  | _ => false
  end.

Definition not_mutation (c : call) : bool := negb (is_mutation c).

(** The calls to the issue tracker. *)
Definition is_jira (c : call) : bool :=
  match c with
  | JiraIssue _ | JiraFields => true
  | _ => false
  end.

Definition restore_call (target : string) (item : trashed_item) : call :=
  Restore (it_type item) (it_id item) target.

Definition restore_done (e : env) (target : string) (item : trashed_item)
  : bool :=
  match restore e (it_type item) (it_id item) target with
  | ApiOk _ => true
  | _ => false
  end.

(** A failed restore that the error counter takes in: anything but a
    name that is already there. *)
Definition restore_counted_error (e : env) (target : string)
           (item : trashed_item) : bool :=
  match restore e (it_type item) (it_id item) target with
  | ApiOk _ => false
  | BoxAPIException msg => negb (str_in "item_name_in_use" (lower msg))
  | OtherException _ => true
  end.

(** The computation restores nothing: no call that changes the storage
    service, and the counters of restored items and of errors stay as
    they are. *)
Definition restores_nothing {A} (m : M A) : Prop :=
  forall s,
    items_restored (st_stats (snd (m s))) = items_restored (st_stats s)
    /\ errors (st_stats (snd (m s))) = errors (st_stats s)
    /\ exists cs, st_calls (snd (m s)) = (st_calls s ++ cs)%list
                  /\ forallb not_mutation cs = true.

(** A call [run] makes only once it has a folder id: it reads the
    trash, lists or creates a folder, restores an item or asks the
    user. *)
Definition uses_folder (c : call) : bool := negb (is_jira c).




(** The world of [sample_env], where the storage service answers
    [answer_9004] to the restore of the item ["9004"]. *)
Definition sample_env_9004 (answer_9004 : api_result unit) : env :=
  mkEnv "0"
        (fun key => if (key =? "aearep-8040")%string
                    then Some sample_values else None)
        (Some sample_fields)
        [item_by_automation; item_without_metadata]
        sample_listing
        (fun _ _ => ApiOk "778")
        (fun _ item_id _ =>
           if (item_id =? "9004")%string then answer_9004 else ApiOk tt)
        (fun _ => "y")
        read_iso.

End RecoveryCli.

(* ================================================================== *)
(** ** Case folders over the whole character set

    [find_case_folders] once more, lines 232 to 262, on names that may
    hold any character: [\d] in a [str] pattern matches every decimal
    digit the interpreter knows, and [int] reads them all. *)

Module Unicode.
Import PyStr Eff.

(** A [str] as the list of its code points. *)
Definition text : Type := list N.

Definition of_string (s : string) : text :=
  map N_of_ascii (list_ascii_of_string s).

(** [a == b] *)
Fixpoint text_eqb (a b : text) : bool :=
  match a, b with
  | [], [] => true
  | x :: a', y :: b' => (x =? y)%N && text_eqb a' b'
  | _, _ => false
  end.

Definition LINE_FEED : N := 10%N.

(** The lowercase of a code point, for the comparison with a letter of
    [aearep-]: among all code points only [A], [E], [P] and [R] have one
    of [a], [e], [p], [r] as their lowercase, and the pattern compiler
    lists no further equivalent of these letters. *)
Definition lower_code (c : N) : N :=
  if ((65 <=? c) && (c <=? 90))%N then (c + 32)%N else c.

(** A lowercase literal of the pattern under [re.IGNORECASE]; what is
    left of the subject is returned. *)
Fixpoint match_literal_ic (lit : string) (s : text) : option text :=
  match lit with
  | EmptyString => Some s
  | String a lit' =>
      match s with
      | [] => None
      | c :: s' =>
          if (lower_code c =? N_of_ascii a)%N
          then match_literal_ic lit' s' else None
      end
  end.

(** The runs of decimal digits (category Nd) of Unicode 14.0, the table
    of Python 3.11: the first code point of each run and its length.
    Every run starts at a digit zero and goes on in steps of ten. *)
Definition DECIMAL_RUNS : list (N * N) :=
  [ (48, 10); (1632, 10); (1776, 10); (1984, 10); (2406, 10); (2534, 10);
    (2662, 10); (2790, 10); (2918, 10); (3046, 10); (3174, 10); (3302, 10);
    (3430, 10); (3558, 10); (3664, 10); (3792, 10); (3872, 10); (4160, 10);
    (4240, 10); (6112, 10); (6160, 10); (6470, 10); (6608, 10); (6784, 10);
    (6800, 10); (6992, 10); (7088, 10); (7232, 10); (7248, 10);
    (42528, 10); (43216, 10); (43264, 10); (43472, 10); (43504, 10);
    (43600, 10); (44016, 10); (65296, 10); (66720, 10); (68912, 10);
    (69734, 10); (69872, 10); (69942, 10); (70096, 10); (70384, 10);
    (70736, 10); (70864, 10); (71248, 10); (71360, 10); (71472, 10);
    (71904, 10); (72016, 10); (72784, 10); (73040, 10); (73120, 10);
    (92768, 10); (92864, 10); (93008, 10); (120782, 50); (123200, 10);
    (123632, 10); (125264, 10); (130032, 10) ]%N.

Definition decimal_value_in (runs : list (N * N)) (c : N) : option Z :=
  match find (fun r => (fst r <=? c) && (c <? fst r + snd r))%N runs with
  | Some r => Some (Z.of_N ((c - fst r) mod 10))
  | None => None
  end.

Definition unicode_14 : N -> option Z := decimal_value_in DECIMAL_RUNS.

Section Interpreter.

(** The interpreter's table of decimal digits: the value of a code
    point that is one, [None] for any other. *)
Variable decimal_value : N -> option Z.

(** [\d] *)
Definition is_decimal (c : N) : bool :=
  match decimal_value c with
  | Some _ => true
  | None => false
  end.

(** The longest run of digits at the front of [s], and what follows. *)
Fixpoint span_digits (s : text) : text * text :=
  match s with
  | [] => ([], [])
  | c :: r =>
      if is_decimal c
      then let (ds, tl) := span_digits r in (c :: ds, tl)
      else ([], s)
  end.

(** [$] without [re.MULTILINE]: the end of the subject, or just before a
    line feed that ends it. *)
Definition at_end (s : text) : bool :=
  match s with
  | [] => true
  | [c] => (c =? LINE_FEED)%N
  | _ => false
  end.

Definition nonempty (s : text) : bool :=
  match s with
  | [] => false
  | _ :: _ => true
  end.

(** [case_pattern.match(name)], giving [match.group(1)]. *)
Definition case_pattern_match (name : text) : option text :=
  match match_literal_ic "aearep-" name with
  | None => None
  | Some rest =>
      let (ds, tl) := span_digits rest in
      if nonempty ds && at_end tl then Some ds else None
  end.

(** [int(s)] for a run of decimal digits *)
Definition int_of_digits (s : text) : Z :=
  fold_left (fun acc c => acc * 10 + match decimal_value c with
                                     | Some v => v
                                     | None => 0
                                     end) s 0.

(** The form the specification gives: the prefix [aearep-] in any case,
    then one or more digits and nothing else. *)
Definition is_case_name (name digits : text) : Prop :=
  exists p, map lower_code p = of_string "aearep-"
            /\ name = (p ++ digits)%list
            /\ digits <> []
            /\ forallb is_decimal digits = true.

(** An entry of the listing of the root folder, as far as the loop reads
    it: [item.type == 'folder'], [item.id], [item.name]. *)
Inductive entry :=
| Folder (id : string) (name : text)
| NotFolder (id : string) (name : text).

(** [(folder_id, folder_name, case_number)] *)
Definition case_ref : Type := string * text * text.

Definition case_key (c : case_ref) : Z := int_of_digits (snd c).

(** [specific_case and case_number != specific_case] *)
Definition other_case (specific_case : option text) (case_number : text)
  : bool :=
  match specific_case with
  | Some sc => nonempty sc && negb (text_eqb case_number sc)
  | None => false
  end.

Fixpoint select_case_folders (specific_case : option text)
         (items : list entry) : list case_ref :=
  match items with
  | [] => []
  | Folder id name :: rest =>
      match case_pattern_match name with
      | Some case_number =>
          if other_case specific_case case_number
          then select_case_folders specific_case rest
          else (id, name, case_number) :: select_case_folders specific_case rest
      | None => select_case_folders specific_case rest
      end
  | NotFolder _ _ :: rest => select_case_folders specific_case rest
  end.

(** [list.sort(key=...)] is stable; insertion from the right gives the one
    stable ordering of the list. *)
Fixpoint insert_by_key (x : case_ref) (l : list case_ref) : list case_ref :=
  match l with
  | [] => [x]
  | y :: r =>
      if case_key x <=? case_key y then x :: y :: r
      else y :: insert_by_key x r
  end.

Definition sort_by_key (l : list case_ref) : list case_ref :=
  fold_right insert_by_key [] l.

Definition key_le (a b : case_ref) : Prop := case_key a <= case_key b.

(** What [find_case_folders] returns and what it sets the counter of
    found folders to; [listing] is [None] when the listing raises the
    storage service's exception, which ends the run. *)
Definition find_case_folders (listing : option (list entry))
           (specific_case : option text) : outcome (list case_ref * Z) :=
  match listing with
  | None => Exit 1
  | Some items =>
      let case_folders := select_case_folders specific_case items in
      Ret (sort_by_key case_folders, Z.of_nat (List.length case_folders))
  end.

End Interpreter.

(** The name [aearep-] followed by the Arabic-Indic digits one and two. *)
Definition sample_name : text := (of_string "aearep-" ++ [1633; 1634])%N%list.

End Unicode.

(* ================================================================== *)
(** ** The string library on examples *)

Example splitext_plain :
  PyStr.splitext "data/run.tar.gz" = ("data/run.tar", ".gz").
Proof. reflexivity. Qed.

Example splitext_hidden : PyStr.splitext ".csv" = (".csv", "").
Proof. reflexivity. Qed.

Example splitext_dot_in_folder : PyStr.splitext "v1.2/readme" = ("v1.2/readme", "").
Proof. reflexivity. Qed.

Example strip_newline : PyStr.strip (" ready" ++ PyStr.LF) = "ready".
Proof. reflexivity. Qed.

Example replace_prefix : PyStr.replace "aearep-" "" "aearep-7712" = "7712".
Proof. reflexivity. Qed.

Example lower_mixed : PyStr.lower "AeaRep-12.CSV" = "aearep-12.csv".
Proof. reflexivity. Qed.

Example int_leading_zero : PyStr.int_of_digits "0042" = 42.
Proof. reflexivity. Qed.

(* ================================================================== *)
(** ** File classification *)

Section Classification.
Import PyStr Cleanup.

Lemma mem_In (x : string) (l : list string) : mem x l = true <-> In x l.
Proof.
  unfold mem. rewrite existsb_exists. split.
  - intros (y & Hy & E). apply String.eqb_eq in E. now subst.
  - intros H. exists x. split; [assumption | apply String.eqb_refl].
Qed.

Lemma mem_not_In (x : string) (l : list string) : mem x l = false <-> ~ In x l.
Proof.
  rewrite <- mem_In. destruct (mem x l); split; congruence.
Qed.

(** No extension is in both sets, so the order of the two tests never
    decides. *)
Lemma extension_sets_disjoint (ext : string) :
  In ext DATA_FILE_EXTENSIONS -> In ext DOCUMENT_EXTENSIONS -> False.
Proof.
  intros Hd Hdoc.
  assert (E : forallb (fun x => negb (mem x DOCUMENT_EXTENSIONS))
                      DATA_FILE_EXTENSIONS = true) by reflexivity.
  rewrite forallb_forall in E. specialize (E ext Hd).
  apply mem_In in Hdoc. rewrite Hdoc in E. discriminate.
Qed.

Lemma classify_ext_data (ext : string) :
  classify_ext ext = DataFile <-> In ext DATA_FILE_EXTENSIONS.
Proof.
  unfold classify_ext. rewrite <- mem_In.
  destruct (mem ext DATA_FILE_EXTENSIONS).
  - tauto.
  - destruct (mem ext DOCUMENT_EXTENSIONS); split; discriminate.
Qed.

Lemma classify_ext_document (ext : string) :
  classify_ext ext = DocumentFile <-> ~ In ext DATA_FILE_EXTENSIONS.
Proof.
  rewrite <- classify_ext_data. destruct (classify_ext ext); split; congruence.
Qed.

Lemma length_lower (s : string) : String.length (lower s) = String.length s.
Proof.
  induction s as [| c s IH]; simpl; [reflexivity | now rewrite IH].
Qed.

(** Lowercasing moves neither a dot nor a slash. *)
Lemma lower_char_keeps_dot (a : ascii) :
  Ascii.eqb (lower_char a) "."%char = Ascii.eqb a "."%char.
Proof. destruct a as [[] [] [] [] [] [] [] []]; reflexivity. Qed.

Lemma lower_char_keeps_slash (a : ascii) :
  Ascii.eqb (lower_char a) "/"%char = Ascii.eqb a "/"%char.
Proof. destruct a as [[] [] [] [] [] [] [] []]; reflexivity. Qed.

Lemma rfind_from_lower (c : ascii) (s : string) :
  (forall a, Ascii.eqb (lower_char a) c = Ascii.eqb a c) ->
  forall i found, rfind_from c (lower s) i found = rfind_from c s i found.
Proof.
  intros Hc. induction s as [| a s IH]; intros i found; simpl; [reflexivity |].
  now rewrite Hc, IH.
Qed.

Lemma substring_lower (s : string) :
  forall n m, substring n m (lower s) = lower (substring n m s).
Proof.
  induction s as [| a s IH]; intros n m.
  - destruct n, m; reflexivity.
  - destruct n as [| n]; simpl.
    + destruct m as [| m]; simpl; [reflexivity | now rewrite IH].
    + apply IH.
Qed.

Lemma all_dots_lower (s : string) :
  all_chars (Ascii.eqb "."%char) (lower s) = all_chars (Ascii.eqb "."%char) s.
Proof.
  induction s as [| a s IH]; cbn [lower all_chars]; [reflexivity |].
  rewrite IH. f_equal.
  rewrite (Ascii.eqb_sym "."%char (lower_char a)), (Ascii.eqb_sym "."%char a).
  apply lower_char_keeps_dot.
Qed.

(** The extension of the lowercased name is the lowercased extension. *)
Lemma splitext_lower (p : string) :
  splitext (lower p) = (lower (fst (splitext p)), lower (snd (splitext p))).
Proof.
  unfold splitext, rfind.
  rewrite !rfind_from_lower
    by (apply lower_char_keeps_dot || apply lower_char_keeps_slash).
  rewrite !substring_lower, all_dots_lower, length_lower.
  destruct (_ && _); reflexivity.
Qed.

Lemma extension_lowercased (name : string) :
  extension name = lower (snd (splitext name)).
Proof. unfold extension. now rewrite splitext_lower. Qed.
(** C2.  The class of a file depends on its name only through its
    lowercased extension; a file lands in [data_files], the
    list handed to the deletion, exactly when that extension is in
    [DATA_FILE_EXTENSIONS]; with an extension of [DOCUMENT_EXTENSIONS], or
    one in neither set, it lands in [document_files], which is kept. *)
Theorem classification_by_extension :
  (forall name, extension name = lower (snd (splitext name)))
  /\ (forall n1 n2, extension n1 = extension n2 ->
                    classify_name n1 = classify_name n2)
  /\ (forall name, In (extension name) DATA_FILE_EXTENSIONS ->
                   classify_name name = DataFile)
  /\ (forall name, In (extension name) DOCUMENT_EXTENSIONS ->
                   classify_name name = DocumentFile)
  /\ (forall name, ~ In (extension name) DATA_FILE_EXTENSIONS ->
                   ~ In (extension name) DOCUMENT_EXTENSIONS ->
                   classify_name name = DocumentFile)
  /\ (forall name f w,
         classify_name name = DataFile ->
         data_files (add_file name f w) = (data_files w ++ [f])%list
         /\ document_files (add_file name f w) = document_files w)
  /\ (forall name f w,
         classify_name name = DocumentFile ->
         data_files (add_file name f w) = data_files w
         /\ document_files (add_file name f w) = (document_files w ++ [f])%list).
Proof.
  split; [exact extension_lowercased |].
  repeat split.
  - intros n1 n2 E. unfold classify_name. now rewrite E.
  - intros name H. now apply classify_ext_data.
  - intros name H. apply classify_ext_document.
    intro Hd. exact (extension_sets_disjoint _ Hd H).
  - intros name H _. now apply classify_ext_document.
  - unfold add_file. rewrite H. reflexivity.
  - unfold add_file. rewrite H. reflexivity.
  - unfold add_file. rewrite H. reflexivity.
  - unfold add_file. rewrite H. reflexivity.
Qed.

Lemma classification_by_extension_witness :
  classify_name "Panel.CSV" = DataFile
  /\ classify_name "README.pdf" = DocumentFile
  /\ classify_name "analysis.do" = DocumentFile
  /\ classify_name "panel.csv" = classify_name "Panel.CSV".
Proof.
  destruct classification_by_extension
    as (_ & Hfun & Hdata & Hdoc & Hunk & _).
  split; [| split; [| split]].
  - apply Hdata. vm_compute. tauto.
  - apply Hdoc. vm_compute. tauto.
  - apply Hunk; vm_compute; intuition discriminate.
  - apply Hfun. reflexivity.
Defined.

(** A name that is all extension has none for [splitext], and is kept. *)
Example hidden_file_kept : classify_name ".csv" = DocumentFile.
Proof. reflexivity. Qed.

End Classification.

(* ================================================================== *)
(** ** Facts about the string functions *)

Section StringFacts.
Import PyStr.

Lemma prefix_refl (s : string) : prefix s s = true.
Proof.
  induction s as [| c s IH]; simpl; [reflexivity |].
  destruct (ascii_dec c c); [assumption | congruence].
Qed.

Lemma prefix_append (p s : string) : prefix p (p ++ s) = true.
Proof.
  induction p as [| c p IH]; simpl.
  - now destruct s.
  - destruct (ascii_dec c c); [assumption | congruence].
Qed.

Lemma str_in_refl (s : string) : str_in s s = true.
Proof.
  destruct s; simpl; [reflexivity |].
  rewrite prefix_refl. now destruct (ascii_dec a a).
Qed.

Lemma str_in_prefix (n h : string) : prefix n h = true -> str_in n h = true.
Proof. intros H. destruct h; simpl in *; now rewrite H. Qed.

Lemma str_in_append (p n s : string) : str_in n (p ++ n ++ s) = true.
Proof.
  induction p as [| c p IH].
  - change ("" ++ n ++ s) with (n ++ s). apply str_in_prefix, prefix_append.
  - simpl. rewrite IH. apply orb_true_r.
Qed.

Lemma lower_append (a b : string) : lower (a ++ b) = lower a ++ lower b.
Proof.
  induction a as [| c a IH]; simpl; [reflexivity | now rewrite IH].
Qed.

Lemma endswith_append (s suf : string) : endswith suf (s ++ suf) = true.
Proof.
  induction s as [| c s IH].
  - change ("" ++ suf) with suf. destruct suf as [| a suf]; [reflexivity |].
    cbn [endswith]. now rewrite String.eqb_refl.
  - simpl. rewrite IH. apply orb_true_r.
Qed.

Lemma length_append (a b : string) :
  String.length (a ++ b) = (String.length a + String.length b)%nat.
Proof.
  induction a as [| c a IH]; simpl; [reflexivity | now rewrite IH].
Qed.

Lemma substring_append_front (a b : string) :
  substring 0 (String.length a) (a ++ b) = a.
Proof.
  induction a as [| c a IH]; simpl.
  - now destruct b.
  - now rewrite IH.
Qed.

Lemma drop_last2_append (s : string) : drop_last2 (s ++ ".0") = s.
Proof.
  unfold drop_last2. rewrite length_append. simpl String.length.
  replace (String.length s + 2 - 2)%nat with (String.length s) by lia.
  apply substring_append_front.
Qed.

End StringFacts.

(* ================================================================== *)
(** ** The numeric-field cleaner *)

Section CleanField.
Import PyStr Eff Recovery.

Example float_1234_normal : binary_normalize 53 1024 1234 0 false = float_1234.
Proof. reflexivity. Qed.

(** [int] cuts a finite float towards zero. *)
Lemma int_of_float_truncates (sign : bool) (m : positive) (e : Z) :
  e <= 0 ->
  int_of_float (S754_finite sign m e)
  = Some (Z.quot (if sign then - Z.pos m else Z.pos m) (2 ^ (- e))).
Proof.
  intros He. unfold int_of_float. f_equal.
  assert (Hp : 0 < 2 ^ (- e)) by (apply Z.pow_pos_nonneg; lia).
  assert (Hs : Z.shiftl (Z.pos m) e = Z.pos m / 2 ^ (- e)).
  { rewrite <- (Z.opp_involutive e) at 1.
    rewrite Z.shiftl_opp_r. apply Z.shiftr_div_pow2. lia. }
  rewrite Hs.
  destruct sign.
  - rewrite Z.quot_opp_l by lia. rewrite Z.quot_div_nonneg by lia. reflexivity.
  - rewrite Z.quot_div_nonneg by lia. reflexivity.
Qed.

(** A string with the suffix [.0] loses it. *)
Lemma clean_strips_suffix (s : string) :
  _clean_jira_numeric_field (JStr (s ++ ".0")) = Ret (Some s).
Proof.
  unfold _clean_jira_numeric_field.
  now rewrite endswith_append, drop_last2_append.
Qed.

(** C7.  The float [1234.0] and the string ["1234.0"] both become the
    string ["1234"], and [None] stays [None]. *)
Theorem clean_jira_numeric_field_examples :
  _clean_jira_numeric_field (JFloat float_1234) = Ret (Some "1234")
  /\ _clean_jira_numeric_field (JStr "1234.0") = Ret (Some "1234")
  /\ _clean_jira_numeric_field JNone = Ret None.
Proof.
  split; [| split].
  - reflexivity.
  - exact (clean_strips_suffix "1234").
  - reflexivity.
Qed.

End CleanField.

(* ================================================================== *)
(** ** The folder-name matcher of the recovery *)

Section FolderName.
Import PyStr Recovery.

(** An item whose lowercased name contains the lowercased expected name
    matches, whatever else the name holds. *)
Lemma matches_when_contained (item_name expected_name : string) :
  str_in (lower expected_name) (lower item_name) = true ->
  _matches_folder_name item_name expected_name = true.
Proof.
  intros H. unfold _matches_folder_name. rewrite H.
  now destruct (lower item_name =? lower expected_name)%string.
Qed.

Lemma matches_refl (name : string) : _matches_folder_name name name = true.
Proof. apply matches_when_contained, str_in_refl. Qed.

(** The expected name may sit anywhere inside the item name. *)
Lemma matches_infix (before after expected_name : string) :
  _matches_folder_name (before ++ expected_name ++ after) expected_name = true.
Proof.
  apply matches_when_contained. rewrite !lower_append. apply str_in_append.
Qed.

(** C6.  ["7712"] and ["aearep-7712"] match each other, ["aearep-7712"]
    and ["aearep-9999"] do not, and the alias ["77"] matches the folder
    name ["7712"]: containment alone is enough. *)
Theorem fuzzy_folder_name_examples :
  _matches_folder_name "aearep-7712" "7712" = true
  /\ _matches_folder_name "7712" "aearep-7712" = true
  /\ _matches_folder_name "aearep-7712" "aearep-9999" = false
  /\ _matches_folder_name "aearep-9999" "aearep-7712" = false
  /\ _matches_folder_name "7712" "77" = true.
Proof.
  split; [exact (matches_infix "aearep-" "" "7712") |].
  split; [reflexivity |].
  split; [reflexivity |].
  split; [reflexivity |].
  exact (matches_infix "" "12" "77").
Qed.

End FolderName.

(* ================================================================== *)
(** ** Case-folder discovery *)

Section CaseFolders.
Import PyStr Eff Box Cleanup.

Lemma append_assoc (a b c : string) : (a ++ b) ++ c = a ++ b ++ c.
Proof.
  induction a as [| x a IH]; simpl; [reflexivity | now rewrite IH].
Qed.

Lemma append_nil_r (a : string) : a ++ "" = a.
Proof.
  induction a as [| x a IH]; simpl; [reflexivity | now rewrite IH].
Qed.

(** What the literal consumed is the literal, up to case. *)
Lemma match_literal_ic_sound (lit s rest : string) :
  match_literal_ic lit s = Some rest ->
  exists p, s = p ++ rest /\ lower p = lit.
Proof.
  revert s. induction lit as [| a lit IH]; intros s H; simpl in H.
  - exists "". injection H as ->. split; reflexivity.
  - destruct s as [| c s]; [discriminate |].
    destruct (Ascii.eqb (lower_char c) a) eqn:E; [| discriminate].
    apply Ascii.eqb_eq in E. destruct (IH _ H) as (p & -> & <-).
    exists (String c p). split; [reflexivity | simpl; now rewrite E].
Qed.

Lemma match_literal_ic_complete (p rest : string) :
  match_literal_ic (lower p) (p ++ rest) = Some rest.
Proof.
  induction p as [| c p IH]; simpl; [reflexivity |].
  now rewrite Ascii.eqb_refl.
Qed.

Lemma span_digits_spec (s ds tl : string) :
  span_digits s = (ds, tl) ->
  s = ds ++ tl /\ all_chars is_digit ds = true
  /\ (forall c r, tl = String c r -> is_digit c = false).
Proof.
  revert ds tl. induction s as [| c s IH]; intros ds tl H; simpl in H.
  - inversion H; subst. repeat split; intros; discriminate.
  - destruct (is_digit c) eqn:D.
    + destruct (span_digits s) as [ds' tl'] eqn:E. inversion H; subst.
      destruct (IH _ _ eq_refl) as (-> & Hd & Ht).
      repeat split; [simpl; now rewrite D | assumption].
    + inversion H; subst. repeat split. intros c' r [= <- <-]. assumption.
Qed.

Lemma span_digits_all (ds : string) :
  all_chars is_digit ds = true -> span_digits ds = (ds, "").
Proof.
  induction ds as [| c ds IH]; simpl; [reflexivity |].
  intros H. apply andb_true_iff in H as [Hc Hr].
  now rewrite Hc, (IH Hr).
Qed.

Lemma at_end_cases (tl : string) : at_end tl = true -> tl = "" \/ tl = LF.
Proof.
  unfold at_end. intros H. apply orb_true_iff in H as [H | H];
    apply String.eqb_eq in H; auto.
Qed.

Lemma truthy_nonempty (s : string) : truthy s = true <-> s <> "".
Proof.
  unfold truthy. destruct s; simpl; split; congruence.
Qed.

(** Every accepted name has the given form, but for a line feed that may
    end it. *)
Lemma case_pattern_match_sound (name ds : string) :
  case_pattern_match name = Some ds ->
  is_case_name name ds \/ (exists n, name = n ++ LF /\ is_case_name n ds).
Proof.
  unfold case_pattern_match. intros H.
  destruct (match_literal_ic "aearep-" name) as [rest |] eqn:L; [| discriminate].
  destruct (span_digits rest) as [ds' tl] eqn:S.
  destruct (truthy ds' && at_end tl) eqn:C; [| discriminate].
  injection H as ->. apply andb_true_iff in C as [Ct Ce].
  apply truthy_nonempty in Ct.
  destruct (match_literal_ic_sound _ _ _ L) as (p & -> & Hp).
  destruct (span_digits_spec _ _ _ S) as (-> & Hd & _).
  destruct (at_end_cases _ Ce) as [-> | ->].
  - left. exists p. rewrite append_nil_r. auto.
  - right. exists (p ++ ds). split.
    + now rewrite append_assoc.
    + exists p. auto.
Qed.

Lemma case_pattern_match_complete (name ds : string) :
  is_case_name name ds -> case_pattern_match name = Some ds.
Proof.
  intros (p & Hp & -> & Hne & Hd). unfold case_pattern_match.
  rewrite <- Hp, match_literal_ic_complete, (span_digits_all _ Hd).
  apply truthy_nonempty in Hne. now rewrite Hne.
Qed.

Lemma span_digits_app (ds tl : string) :
  all_chars is_digit ds = true ->
  (forall c r, tl = String c r -> is_digit c = false) ->
  span_digits (ds ++ tl) = (ds, tl).
Proof.
  intros Hd Ht. induction ds as [| c ds IH]; simpl.
  - destruct tl as [| c r]; [reflexivity |].
    simpl. now rewrite (Ht c r eq_refl).
  - simpl in Hd. apply andb_true_iff in Hd as [Hc Hr].
    now rewrite Hc, (IH Hr).
Qed.

(** [$] lets one final line feed through. *)
Lemma case_pattern_match_final_LF (name ds : string) :
  is_case_name name ds -> case_pattern_match (name ++ LF) = Some ds.
Proof.
  intros (p & Hp & -> & Hne & Hd). unfold case_pattern_match.
  rewrite append_assoc, <- Hp, match_literal_ic_complete.
  rewrite (span_digits_app ds LF Hd).
  - apply truthy_nonempty in Hne. now rewrite Hne.
  - intros c r [= <- <-]. reflexivity.
Qed.

(** Among names that do not end in a line feed the pattern accepts
    exactly the names of the given form. *)
Lemma case_pattern_match_exact (name ds : string) :
  endswith LF name = false ->
  (case_pattern_match name = Some ds <-> is_case_name name ds).
Proof.
  intros HLF. split; [| apply case_pattern_match_complete].
  intros H.
  destruct (case_pattern_match_sound _ _ H) as [Hf | (n & -> & _)];
    [assumption |].
  rewrite endswith_append in HLF. discriminate.
Qed.

(** *** The sort *)

Lemma insert_by_key_perm (x : case_ref) (l : list case_ref) :
  Permutation (x :: l) (insert_by_key x l).
Proof.
  induction l as [| y r IH]; simpl; [apply Permutation_refl |].
  destruct (case_key x <=? case_key y).
  - apply Permutation_refl.
  - eapply perm_trans; [apply perm_swap | now apply perm_skip].
Qed.

Lemma sort_by_key_perm (l : list case_ref) : Permutation (sort_by_key l) l.
Proof.
  induction l as [| x l IH]; simpl; [constructor |].
  eapply perm_trans; [apply Permutation_sym, insert_by_key_perm |].
  now apply perm_skip.
Qed.

Lemma insert_by_key_hd (a x : case_ref) (l : list case_ref) :
  key_le a x -> HdRel key_le a l -> HdRel key_le a (insert_by_key x l).
Proof.
  intros Hax Hl. destruct l as [| y r]; simpl.
  - now constructor.
  - destruct (case_key x <=? case_key y); constructor;
      [assumption | now inversion Hl].
Qed.

Lemma insert_by_key_sorted (x : case_ref) (l : list case_ref) :
  Sorted key_le l -> Sorted key_le (insert_by_key x l).
Proof.
  induction 1 as [| y r Hs IH Hhd]; simpl.
  - repeat constructor.
  - destruct (case_key x <=? case_key y) eqn:E.
    + constructor; [now constructor |].
      constructor. unfold key_le. lia.
    + constructor; [assumption |].
      apply insert_by_key_hd; [unfold key_le; lia | assumption].
Qed.

Lemma sort_by_key_sorted (l : list case_ref) : Sorted key_le (sort_by_key l).
Proof.
  induction l as [| x l IH]; simpl; [constructor |].
  now apply insert_by_key_sorted.
Qed.


(** *** The selection *)

Lemma select_case_folders_In (sc : option string) (items : list box_item)
      (id name cn : string) :
  In (id, name, cn) (select_case_folders sc items)
  <-> (exists contents, In (BoxFolder id name contents) items)
      /\ case_pattern_match name = Some cn /\ other_case sc cn = false.
Proof.
  induction items as [| item rest IH]; simpl.
  - split; [tauto | intros ((c & []) & _)].
  - destruct item as [fid fname fsize | fid fname fcontents | fid fname].
    + rewrite IH. split.
      * intros ((c & Hc) & H). split; [exists c; now right | assumption].
      * intros ((c & [Hc | Hc]) & H); [discriminate |].
        split; [now exists c | assumption].
    + destruct (case_pattern_match fname) as [fcn |] eqn:Em.
      * destruct (other_case sc fcn) eqn:Eo.
        -- rewrite IH. split.
           ++ intros ((c & Hc) & H). split; [exists c; now right | assumption].
           ++ intros ((c & [Hc | Hc]) & Hm & Ho).
              ** injection Hc as -> -> ->. congruence.
              ** split; [now exists c | auto].
        -- simpl. rewrite IH. split.
           ++ intros [[= -> -> ->] | ((c & Hc) & H)].
              ** split; [exists fcontents; now left | auto].
              ** split; [exists c; now right | assumption].
           ++ intros ((c & [Hc | Hc]) & Hm & Ho).
              ** injection Hc as -> -> ->. left. congruence.
              ** right. split; [now exists c | auto].
      * rewrite IH. split.
        -- intros ((c & Hc) & H). split; [exists c; now right | assumption].
        -- intros ((c & [Hc | Hc]) & Hm & Ho).
           ++ injection Hc as -> -> ->. congruence.
           ++ split; [now exists c | auto].
    + rewrite IH. split.
      * intros ((c & Hc) & H). split; [exists c; now right | assumption].
      * intros ((c & [Hc | Hc]) & H); [discriminate |].
        split; [now exists c | assumption].
Qed.

End CaseFolders.

(* ================================================================== *)
(** ** Case folders over the whole character set *)

Section UnicodeCaseFolders.
Import PyStr Eff Unicode.

Variable decimal_value : N -> option Z.

(** A line feed is no decimal digit. *)
Hypothesis line_feed_no_digit : decimal_value LINE_FEED = None.


Lemma text_eqb_eq (a b : text) : text_eqb a b = true <-> a = b.
Proof.
  revert b. induction a as [| x a IH]; intros [| y b]; cbn [text_eqb];
    try (split; [discriminate | discriminate]); [tauto |].
  rewrite andb_true_iff, N.eqb_eq, IH. split.
  - now intros [-> ->].
  - now intros [= -> ->].
Qed.











(** *** The sort *)







(** *** The selection *)


(** *** Names of characters below U+0100 *)

(** The table on the characters below U+0100: the digits [0] to [9],
    with their values, and nothing else. *)
Hypothesis latin_1_digits :
  forall c : ascii,
    decimal_value (N_of_ascii c)
    = if PyStr.is_digit c then Some (Z.of_N (N_of_ascii c) - 48) else None.


Lemma narrow_lower_code (c : ascii) :
  lower_code (N_of_ascii c)
  = if ((65 <=? N_of_ascii c) && (N_of_ascii c <=? 90))%N
    then N_of_ascii (lower_char c) else N_of_ascii c.
Proof.
  unfold lower_code.
  destruct ((65 <=? N_of_ascii c) && (N_of_ascii c <=? 90))%N eqn:E;
    [| reflexivity].
  destruct c as [[] [] [] [] [] [] [] []]; try discriminate E; reflexivity.
Qed.









End UnicodeCaseFolders.

Section FindCaseFolders.
Import PyStr Eff Box Cleanup.




(** On the sample world the two case folders come back with 4321 first,
    and the folder named [aearep-12a] is not among them. *)
Example find_case_folders_sample :
  fst (find_case_folders (sample_env (ApiOk tt)) None initial_state)
  = Ret [("104321", "aearep-4321", "4321"); ("104322", "AEAREP-4322", "4322")].
Proof. reflexivity. Qed.

(** Folders named with digits of other scripts are case folders too, and
    take their place by the number they spell: [aearep-] with the
    Arabic-Indic digits of 12 comes before [aearep-0042]. *)
Example find_case_folders_other_digits :
  Unicode.find_case_folders
    Unicode.unicode_14
    (Some [ Unicode.Folder "1" (Unicode.of_string "aearep-0042");
            Unicode.NotFolder "2" (Unicode.of_string "aearep-7");
            Unicode.Folder "3" Unicode.sample_name ])
    None
  = Ret ([ ("3", Unicode.sample_name, [1633; 1634]%N);
           ("1", Unicode.of_string "aearep-0042", Unicode.of_string "0042") ],
         2).
Proof. reflexivity. Qed.

End FindCaseFolders.

(* ================================================================== *)
(** ** Traces of computations *)

Section Emits.
Import Eff.
Context {St C : Type}.

Lemma new_calls_app {A} (m : M St C A) (s : run_state St C) (cs : list C) :
  st_calls (snd (m s)) = (st_calls s ++ cs)%list -> new_calls m s = cs.
Proof.
  unfold new_calls. intros ->.
  rewrite skipn_app, skipn_all, Nat.sub_diag. reflexivity.
Qed.

Lemma em_ret (P : C -> bool) {A} (a : A) : emits P (@ret St C A a).
Proof. intros s. exists []. cbn. now rewrite app_nil_r. Qed.

Lemma em_raise (P : C -> bool) {A} (msg : string) : emits P (@raise St C A msg).
Proof. intros s. exists []. cbn. now rewrite app_nil_r. Qed.

Lemma em_exit (P : C -> bool) {A} (code : Z) : emits P (@sys_exit St C A code).
Proof. intros s. exists []. cbn. now rewrite app_nil_r. Qed.

Lemma em_update (P : C -> bool) (f : St -> St) : emits P (@update_stats St C f).
Proof. intros s. exists []. cbn. now rewrite app_nil_r. Qed.

Lemma em_emit (P : C -> bool) (c : C) : P c = true -> emits P (@emit St C c).
Proof. intros H s. exists [c]. cbn. now rewrite H. Qed.

Lemma em_emit_all (P : C -> bool) (cs : list C) :
  forallb P cs = true -> emits P (@emit_all St C cs).
Proof. intros H s. exists cs. now cbn. Qed.

Lemma em_bind (P : C -> bool) {A B} (m : M St C A) (k : A -> M St C B) :
  emits P m -> (forall a, emits P (k a)) -> emits P (bind m k).
Proof.
  intros Hm Hk s. unfold bind. destruct (Hm s) as (cs1 & C1 & N1).
  destruct (m s) as [[a | msg | code] s1]; cbn [fst snd] in *;
    try now exists cs1.
  destruct (Hk a s1) as (cs2 & C2 & N2).
  exists (cs1 ++ cs2)%list.
  now rewrite C2, C1, <- app_assoc, forallb_app, N1, N2.
Qed.

Lemma em_weaken (P Q : C -> bool) {A} (m : M St C A) :
  (forall c, P c = true -> Q c = true) -> emits P m -> emits Q m.
Proof.
  intros HPQ Hm s. destruct (Hm s) as (cs & Hc & Hall).
  exists cs. split; [assumption |].
  rewrite forallb_forall in *. auto.
Qed.

Lemma forallb_not_existsb (P : C -> bool) (cs : list C) :
  forallb (fun c => negb (P c)) cs = true -> existsb P cs = false.
Proof.
  induction cs as [| c cs IH]; simpl; [reflexivity |].
  intros H. apply andb_true_iff in H as [Hc Hr].
  rewrite (IH Hr). now destruct (P c).
Qed.

End Emits.

Ltac em :=
  repeat first
    [ apply em_ret | apply em_raise | apply em_exit | apply em_update
    | apply em_emit; reflexivity
    | apply em_bind; [| intros ?]
    | match goal with
      | |- Eff.emits _ (if ?b then _ else _) => destruct b
      | |- Eff.emits _ (match ?x with _ => _ end) => destruct x
      end ].

(* ================================================================== *)
(** ** Move before delete *)

Section MoveFirst.
Import PyStr Eff Box Cleanup.

Lemma dn_ret {A} (a : A) : deletes_nothing (ret a).
Proof. intros s. cbn. repeat split. exists []. now rewrite app_nil_r. Qed.

Lemma dn_raise {A} (msg : string) : deletes_nothing (@raise stats call A msg).
Proof. intros s. cbn. repeat split. exists []. now rewrite app_nil_r. Qed.

Lemma dn_exit {A} (code : Z) : deletes_nothing (@sys_exit stats call A code).
Proof. intros s. cbn. repeat split. exists []. now rewrite app_nil_r. Qed.

Lemma dn_emit (c : call) : not_delete c = true -> deletes_nothing (emit c).
Proof. intros H s. cbn. repeat split. exists [c]. cbn. now rewrite H. Qed.

Lemma dn_emit_listing (ids : list string) :
  deletes_nothing (emit_all (map GetItems ids)).
Proof.
  intros s. cbn. repeat split. exists (map GetItems ids).
  split; [reflexivity |]. induction ids; simpl; auto.
Qed.

Lemma dn_update (f : stats -> stats) :
  (forall st, files_deleted (f st) = files_deleted st
              /\ bytes_deleted (f st) = bytes_deleted st) ->
  deletes_nothing (update_stats f).
Proof.
  intros H s. cbn. destruct (H (st_stats s)) as [H1 H2].
  repeat split; try assumption. exists []. now rewrite app_nil_r.
Qed.

(** The continuation is only asked about results the first part can
    give. *)
Lemma dn_bind_result {A B} (m : M A) (k : A -> M B) :
  deletes_nothing m ->
  (forall a, (exists s, fst (m s) = Ret a) -> deletes_nothing (k a)) ->
  deletes_nothing (bind m k).
Proof.
  intros Hm Hk s. unfold bind.
  destruct (Hm s) as (F1 & B1 & cs1 & C1 & N1).
  destruct (m s) as [[a | msg | code] s1] eqn:E; cbn [fst snd] in *;
    try (repeat split; try assumption; now exists cs1).
  assert (Ha : exists s, fst (m s) = Ret a) by (exists s; now rewrite E).
  destruct (Hk a Ha s1) as (F2 & B2 & cs2 & C2 & N2).
  repeat split; try congruence.
  exists (cs1 ++ cs2)%list. rewrite C2, C1, <- app_assoc, forallb_app, N1, N2.
  now split.
Qed.

Lemma dn_bind {A B} (m : M A) (k : A -> M B) :
  deletes_nothing m -> (forall a, deletes_nothing (k a)) ->
  deletes_nothing (bind m k).
Proof. intros Hm Hk. apply dn_bind_result; auto. Qed.

(** The first part can only give [a0]. *)
Lemma dn_bind_const {A B} (m : M A) (k : A -> M B) (a0 : A) :
  deletes_nothing m ->
  (forall s a, fst (m s) = Ret a -> a = a0) ->
  deletes_nothing (k a0) ->
  deletes_nothing (bind m k).
Proof.
  intros Hm Hres Hk. apply dn_bind_result; [assumption |].
  intros a (s & Hs). now rewrite (Hres s a Hs).
Qed.

Ltac dn :=
  repeat first
    [ apply dn_ret | apply dn_raise | apply dn_exit
    | apply dn_emit; reflexivity
    | apply dn_emit_listing
    | apply dn_update; intros []; split; reflexivity
    | apply dn_bind; [| intros ?]
    | match goal with
      | |- deletes_nothing (if ?b then _ else _) => destruct b
      | |- deletes_nothing (match ?x with _ => _ end) => destruct x
      end ].

Lemma dn_check_jira (e : env) (skip_jira : bool) (cn : string) (verbose : bool) :
  deletes_nothing (check_jira_purge_status e skip_jira cn verbose).
Proof. unfold check_jira_purge_status. dn. Qed.

Lemma dn_classify (e : env) (fid : string) :
  deletes_nothing (classify_files_recursive e fid).
Proof. unfold classify_files_recursive. dn. Qed.

Lemma dn_move (e : env) (tm : bool) (fid fname : string) (comp : option string) :
  deletes_nothing (move_folder_to_completed e tm fid fname comp).
Proof. unfold move_folder_to_completed. dn. Qed.

(** What the move reports does not depend on the state it starts in. *)
Lemma move_result_state_free (e : env) (tm : bool) (fid fname : string)
      (comp : option string) (s s0 : state) :
  fst (move_folder_to_completed e tm fid fname comp s)
  = fst (move_folder_to_completed e tm fid fname comp s0).
Proof.
  unfold move_folder_to_completed. destruct tm; [reflexivity |].
  destruct comp as [cid |]; [| reflexivity].
  destruct (negb (truthy cid)); [reflexivity |].
  unfold bind, emit, ret, raise, update_stats. simpl.
  destruct (move e fid cid); try reflexivity.
  destruct (str_in _ _); reflexivity.
Qed.

(** A name collision in the archive folder is reported as a failed move. *)
Lemma move_collision_reported (e : env) (fid fname cid msg : string) (s : state) :
  truthy cid = true ->
  move e fid cid = BoxAPIException msg ->
  fst (move_folder_to_completed e false fid fname (Some cid) s) = Ret false.
Proof.
  intros Hc Hm. unfold move_folder_to_completed. rewrite Hc. simpl.
  unfold bind, emit, ret, update_stats. simpl. rewrite Hm.
  destruct (str_in _ _); reflexivity.
Qed.

(** When the move does not report success, the case deletes nothing. *)
Lemma failed_move_deletes_nothing (e : env) (tm skip_jira : bool)
      (fid fname cn : string) (comp : option string) (s0 : state) :
  fst (move_folder_to_completed e tm fid fname comp s0) <> Ret true ->
  deletes_nothing (process_case_folder e tm skip_jira fid fname cn comp).
Proof.
  intros Hfail. unfold process_case_folder.
  apply dn_bind; [dn | intros _].
  apply dn_bind; [apply dn_check_jira | intros status].
  destruct (negb (fst status)); [dn |].
  apply dn_bind; [dn | intros _].
  apply dn_bind; [apply dn_classify | intros files].
  apply dn_bind_result; [apply dn_move | intros ok (s1 & Hs1)].
  destruct ok; [| dn].
  exfalso. apply Hfail.
  now rewrite (move_result_state_free e tm fid fname comp s0 s1).
Qed.

(** *** The order of the calls *)

Lemma split_after_quiet (cs1 cs2 pre post : list call) (f : string) :
  forallb not_delete cs1 = true ->
  (cs1 ++ cs2 = pre ++ DeleteFile f :: post)%list ->
  exists pre', pre = (cs1 ++ pre')%list
               /\ cs2 = (pre' ++ DeleteFile f :: post)%list.
Proof.
  revert pre. induction cs1 as [| c cs1 IH]; intros pre Hq Heq.
  - exists pre. auto.
  - simpl in Hq. apply andb_true_iff in Hq as [Hc Hq].
    destruct pre as [| p pre]; simpl in Heq.
    + injection Heq as -> _. discriminate.
    + injection Heq as -> Heq. destruct (IH pre Hq Heq) as (pre' & -> & ->).
      exists pre'. auto.
Qed.

Lemma mf_of_dn {A} (e : env) (fid : string) (comp : option string) (m : M A) :
  deletes_nothing m -> moves_first e fid comp m.
Proof.
  intros Hm s. destruct (Hm s) as (_ & _ & cs & Hc & Hq).
  exists cs. split; [assumption |].
  intros pre f post ->. rewrite forallb_app in Hq.
  apply andb_true_iff in Hq as [_ Hq]. discriminate.
Qed.

Lemma mf_bind {A B} (e : env) (fid : string) (comp : option string)
      (m : M A) (k : A -> M B) :
  deletes_nothing m -> (forall a, moves_first e fid comp (k a)) ->
  moves_first e fid comp (bind m k).
Proof.
  intros Hm Hk s. unfold bind.
  destruct (Hm s) as (_ & _ & cs1 & C1 & N1).
  assert (Hquiet : forall cs, forallb not_delete cs = true ->
                              move_first e fid comp cs).
  { intros cs Hq pre f post ->. rewrite forallb_app in Hq.
    apply andb_true_iff in Hq as [_ Hq]. discriminate. }
  destruct (m s) as [[a | msg | code] s1]; cbn [fst snd] in *;
    try (exists cs1; split; [assumption | now apply Hquiet]).
  destruct (Hk a s1) as (cs2 & C2 & O2).
  exists (cs1 ++ cs2)%list. split; [now rewrite C2, C1, <- app_assoc |].
  intros pre f post Heq.
  destruct (split_after_quiet _ _ _ _ _ N1 Heq) as (pre' & -> & Hcs2).
  destruct (O2 _ _ _ Hcs2) as (cid & Hcomp & Hmove & Hin).
  exists cid. repeat split; try assumption. apply in_or_app. now right.
Qed.

Lemma em_delete_loop_dry (P : call -> bool) (e : env) (files : list file_info) :
  forall c b, emits P (delete_loop e true files c b).
Proof.
  induction files as [| f rest IH]; intros c b; cbn [delete_loop].
  - apply em_ret.
  - apply IH.
Qed.

Lemma em_delete_loop (e : env) (tm : bool) (files : list file_info) :
  forall c b, emits is_delete (delete_loop e tm files c b).
Proof.
  induction files as [| f rest IH]; intros c b; cbn [delete_loop].
  - apply em_ret.
  - destruct tm; [apply IH |]. em; apply IH.
Qed.

Lemma em_delete_data_files (e : env) (tm : bool) (files : list file_info) :
  emits is_delete (delete_data_files e tm files).
Proof. unfold delete_data_files. em. apply em_delete_loop. Qed.

(** What follows the move: [after false] when it failed, [after true]
    when it went through. *)
Lemma mf_move {B} (e : env) (tm : bool) (fid fname : string)
      (comp : option string) (after : bool -> M B) :
  deletes_nothing (after false) ->
  emits (fun _ => true) (after true) ->
  (tm = true -> emits not_delete (after true)) ->
  moves_first e fid comp (bind (move_folder_to_completed e tm fid fname comp) after).
Proof.
  intros Hfalse Htrue Hdry.
  assert (Hquiet : forall m : M B, emits not_delete m ->
                                   moves_first e fid comp m).
  { intros m Hm s. destruct (Hm s) as (cs & Hc & Hq). exists cs.
    split; [assumption |]. intros pre f post ->. rewrite forallb_app in Hq.
    apply andb_true_iff in Hq as [_ Hq]. discriminate. }
  unfold move_folder_to_completed. destruct tm.
  - intros s. exact (Hquiet _ (Hdry eq_refl) s).
  - destruct comp as [cid |].
    2:{ apply mf_of_dn, dn_bind_const with (a0 := false);
        [dn | intros s a [= <-]; reflexivity | assumption]. }
    destruct (negb (truthy cid)).
    { apply mf_of_dn, dn_bind_const with (a0 := false);
        [dn | intros s a [= <-]; reflexivity | assumption]. }
    destruct (move e fid cid) as [[] | msg | msg] eqn:Hmove.
    + intros s. unfold bind, emit, ret. simpl.
      destruct (Htrue (mkState (st_stats s) (st_calls s ++ [MoveFolder fid cid])))
        as (cs & Hc & _).
      simpl in Hc. exists (MoveFolder fid cid :: cs). split.
      * rewrite Hc, <- app_assoc. reflexivity.
      * intros pre f post Heq. exists cid. repeat split; try assumption.
        destruct pre as [| p pre]; simpl in Heq; [discriminate |].
        injection Heq as <- _. now left.
    + apply mf_of_dn, dn_bind_const with (a0 := false); [dn | | assumption].
      intros s a. unfold bind, emit, ret, update_stats. simpl.
      destruct (str_in _ _); intros [= <-]; reflexivity.
    + apply mf_of_dn, dn_bind_const with (a0 := false); [dn | | assumption].
      intros s a. unfold bind, emit, raise. simpl. discriminate.
Qed.

Lemma process_case_folder_moves_first (e : env) (tm skip_jira : bool)
      (fid fname cn : string) (comp : option string) :
  moves_first e fid comp (process_case_folder e tm skip_jira fid fname cn comp).
Proof.
  unfold process_case_folder.
  apply mf_bind; [dn | intros _].
  apply mf_bind; [apply dn_check_jira | intros status].
  destruct (negb (fst status)); [apply mf_of_dn; dn |].
  apply mf_bind; [dn | intros _].
  apply mf_bind; [apply dn_classify | intros files].
  apply mf_move.
  - simpl. dn.
  - em. apply em_weaken with (P := is_delete); [reflexivity |].
    apply em_delete_loop.
  - intros ->. em. apply em_delete_loop_dry.
Qed.

(** C1.  Among the calls one case folder gives rise to, a file deletion
    comes only after the call that moved the folder into the archive
    folder, and that move succeeded; and when the move does not report
    success (it returns [False] or it raises) the case makes no deletion
    call and leaves the counters of deleted files and bytes as they were;
    a move the storage service turns down, as it does on a name collision
    in the archive folder, is reported as [False]. *)
Theorem move_precedes_deletion (e : env) (tm skip_jira : bool)
        (fid fname cn : string) (comp : option string) (s s0 : state) :
  let case := process_case_folder e tm skip_jira fid fname cn comp in
  st_calls (snd (case s)) = (st_calls s ++ new_calls case s)%list
  /\ move_first e fid comp (new_calls case s)
  /\ (fst (move_folder_to_completed e tm fid fname comp s0) <> Ret true ->
      forallb not_delete (new_calls case s) = true
      /\ files_deleted (st_stats (snd (case s))) = files_deleted (st_stats s)
      /\ bytes_deleted (st_stats (snd (case s))) = bytes_deleted (st_stats s))
  /\ (forall cid msg,
         tm = false -> comp = Some cid -> truthy cid = true ->
         move e fid cid = BoxAPIException msg ->
         fst (move_folder_to_completed e tm fid fname comp s0) = Ret false).
Proof.
  intros case.
  destruct (process_case_folder_moves_first e tm skip_jira fid fname cn comp s)
    as (cs & Hc & Ho).
  fold case in Hc. rewrite (new_calls_app case s cs Hc).
  split; [assumption | split; [assumption | split]].
  - intros Hfail.
    destruct (failed_move_deletes_nothing e tm skip_jira fid fname cn comp s0
                                          Hfail s) as (F & B & cs' & Hc' & Hq).
    fold case in Hc', F, B. rewrite Hc in Hc'. apply app_inv_head in Hc'.
    subst cs'. auto.
  - intros cid msg -> -> Hcid Hmove.
    now apply move_collision_reported with (msg := msg).
Qed.

Lemma move_precedes_deletion_witness :
  let e := sample_env (BoxAPIException "Item_Name_In_Use: 409 Conflict") in
  let case := process_case_folder e false false "104321" "aearep-4321" "4321"
                                  (Some "777") in
  forallb not_delete (new_calls case initial_state) = true
  /\ files_deleted (st_stats (snd (case initial_state))) = 0.
Proof.
  intros e case.
  destruct (move_precedes_deletion e false false "104321" "aearep-4321" "4321"
                                   (Some "777") initial_state initial_state)
    as (_ & _ & H & _).
  destruct H as (H1 & H2 & _).
  - vm_compute. discriminate.
  - split; [exact H1 | exact H2].
Defined.

(** The first scenario of the specification: case 4321 is ready and holds
    one data file and one document; its folder is moved, the data file is
    deleted, the document is not. *)
Example scenario_ready_case :
  let r := process_case_folder (sample_env (ApiOk tt)) false false
             "104321" "aearep-4321" "4321" (Some "777") initial_state in
  fst r = Ret true
  /\ folders_moved (st_stats (snd r)) = 1
  /\ files_deleted (st_stats (snd r)) = 1
  /\ st_calls (snd r)
     = [ RunHelper (helper_args "4321" false);
         GetItems "104321"; GetItems "d1";
         MoveFolder "104321" "777"; DeleteFile "f1" ].
Proof. repeat split. Qed.

(** The second scenario: case 4322 is not ready; nothing is moved or
    deleted. *)
Example scenario_not_ready_case :
  let r := process_case_folder (sample_env (ApiOk tt)) false false
             "104322" "AEAREP-4322" "4322" (Some "777") initial_state in
  fst r = Ret false
  /\ folders_checked (st_stats (snd r)) = 1
  /\ folders_ready (st_stats (snd r)) = 0
  /\ st_calls (snd r) = [ RunHelper (helper_args "4322" false) ].
Proof. repeat split. Qed.

End MoveFirst.

(* ================================================================== *)
(** ** A dry run next to a live run *)

Section DryRun.
Import PyStr Eff Box Cleanup.

Lemma filter_all {A} (P : A -> bool) (l : list A) :
  forallb P l = true -> filter P l = l.
Proof.
  induction l as [| x l IH]; simpl; [reflexivity |].
  intros H. apply andb_true_iff in H as [Hx Hl]. now rewrite Hx, IH.
Qed.

Lemma mirrors_emit (c : call) (sd sl : state) :
  shared c = true -> mirrors sd sl ->
  mirrors (mkState (st_stats sd) (st_calls sd ++ [c]))
          (mkState (st_stats sl) (st_calls sl ++ [c])).
Proof.
  intros Hc [Hs Hl]. split; simpl; [assumption |].
  rewrite filter_app. simpl. now rewrite Hc, Hl.
Qed.

Lemma mirrors_hidden (c : call) (sd sl : state) :
  shared c = false -> mirrors sd sl ->
  mirrors sd (mkState (st_stats sl) (st_calls sl ++ [c])).
Proof.
  intros Hc [Hs Hl]. split; simpl; [assumption |].
  rewrite filter_app. simpl. now rewrite Hc, app_nil_r.
Qed.

Lemma sim_ret {A} (a : A) : sim (ret a) (ret a).
Proof. intros sd sl H. now split. Qed.

Lemma sim_raise {A} (msg : string) :
  sim (@raise stats call A msg) (raise msg).
Proof. intros sd sl H. now split. Qed.

Lemma sim_exit {A} (code : Z) :
  sim (@sys_exit stats call A code) (sys_exit code).
Proof. intros sd sl H. now split. Qed.

Lemma sim_update (f : stats -> stats) : sim (update_stats f) (update_stats f).
Proof.
  intros sd sl [Hs Hl]. split; [reflexivity |].
  split; simpl; [now rewrite Hs | assumption].
Qed.

Lemma sim_emit (c : call) : shared c = true -> sim (emit c) (emit c).
Proof.
  intros Hc sd sl H. split; [reflexivity | now apply mirrors_emit].
Qed.

Lemma sim_emit_listing (ids : list string) :
  sim (emit_all (map GetItems ids)) (emit_all (map GetItems ids)).
Proof.
  intros sd sl [Hs Hl]. split; [reflexivity |].
  split; simpl; [assumption |].
  rewrite filter_app, Hl. f_equal. symmetry. apply filter_all.
  induction ids; simpl; auto.
Qed.

Lemma sim_bind {A B} (m1 m2 : M A) (k1 k2 : A -> M B) :
  sim m1 m2 -> (forall a, sim (k1 a) (k2 a)) -> sim (bind m1 k1) (bind m2 k2).
Proof.
  intros Hm Hk sd sl H. unfold bind.
  destruct (Hm sd sl H) as [Hr Hmir].
  destruct (m1 sd) as [r1 sd1], (m2 sl) as [r2 sl1]. simpl in Hr, Hmir.
  subst r2. destruct r1 as [a | msg | code]; [| now split | now split].
  now apply Hk.
Qed.

(** A call only the live run makes. *)
Lemma sim_hidden {A} (c : call) (m1 m2 : M A) :
  shared c = false -> sim m1 m2 -> sim m1 (bind (emit c) (fun _ => m2)).
Proof.
  intros Hc Hm sd sl H. unfold bind, emit. simpl.
  apply Hm. now apply mirrors_hidden.
Qed.

Lemma sim_try (m1 m2 : M unit) :
  sim m1 m2 -> sim (try_count_error m1) (try_count_error m2).
Proof.
  intros Hm sd sl H. unfold try_count_error.
  destruct (Hm sd sl H) as [Hr [Hs Hl]].
  destruct (m1 sd) as [r1 sd1], (m2 sl) as [r2 sl1]. simpl in Hr, Hs, Hl.
  subst r2. destruct r1 as [a | msg | code]; simpl;
    repeat split; simpl; congruence.
Qed.

Ltac sm :=
  repeat first
    [ apply sim_ret | apply sim_raise | apply sim_exit | apply sim_update
    | apply sim_emit; reflexivity
    | apply sim_emit_listing
    | apply sim_try
    | apply sim_bind; [| intros ?]
    | match goal with
      | |- sim (if ?b then _ else _) (if ?b then _ else _) => destruct b
      | |- sim (match ?x with _ => _ end) (match ?x with _ => _ end) =>
          destruct x
      end ].

Lemma sim_check_jira (e : env) (skip_jira : bool) (cn : string) (v : bool) :
  sim (check_jira_purge_status e skip_jira cn v)
      (check_jira_purge_status e skip_jira cn v).
Proof. unfold check_jira_purge_status. sm. Qed.

Lemma sim_classify (e : env) (fid : string) :
  sim (classify_files_recursive e fid) (classify_files_recursive e fid).
Proof. unfold classify_files_recursive. sm. Qed.

Lemma sim_find_case_folders (e : env) (sc : option string) :
  sim (find_case_folders e sc) (find_case_folders e sc).
Proof. unfold find_case_folders. sm. Qed.

Section NoFailure.
Variable e : env.
Hypothesis Hok : mutations_succeed e.

Lemma sim_delete_loop (files : list file_info) :
  forall c b, sim (delete_loop e true files c b) (delete_loop e false files c b).
Proof.
  destruct Hok as (_ & _ & Hdel).
  induction files as [| f rest IH]; intros c b; cbn [delete_loop].
  - apply sim_ret.
  - apply sim_hidden; [reflexivity |]. rewrite Hdel. apply IH.
Qed.

Lemma sim_delete_data_files (files : list file_info) :
  sim (delete_data_files e true files) (delete_data_files e false files).
Proof.
  unfold delete_data_files. apply sim_bind; [apply sim_delete_loop |].
  intros r. sm.
Qed.

Lemma sim_move (fid fname cid : string) (comp : option string) :
  truthy cid = true ->
  sim (move_folder_to_completed e true fid fname comp)
      (move_folder_to_completed e false fid fname (Some cid)).
Proof.
  destruct Hok as (_ & Hmove & _).
  intros Hc. unfold move_folder_to_completed. rewrite Hc. simpl.
  apply sim_hidden; [reflexivity |]. rewrite Hmove. apply sim_ret.
Qed.

Lemma sim_process_case_folder (skip_jira : bool) (fid fname cn cid : string)
      (comp : option string) :
  truthy cid = true ->
  sim (process_case_folder e true skip_jira fid fname cn comp)
      (process_case_folder e false skip_jira fid fname cn (Some cid)).
Proof.
  intros Hc. unfold process_case_folder.
  apply sim_bind; [sm | intros _].
  apply sim_bind; [apply sim_check_jira | intros status].
  destruct (negb (fst status)); [sm |].
  apply sim_bind; [sm | intros _].
  apply sim_bind; [apply sim_classify | intros files].
  apply sim_bind; [now apply sim_move | intros ok].
  destruct (negb ok); [sm |].
  apply sim_bind; [sm | intros _].
  destruct (fst files); [sm |].
  apply sim_bind; [apply sim_delete_data_files | intros _]. sm.
Qed.

Lemma sim_process_all (skip_jira : bool) (cid : string) (comp : option string)
      (cases : list case_ref) :
  truthy cid = true ->
  sim (process_all e true skip_jira comp cases)
      (process_all e false skip_jira (Some cid) cases).
Proof.
  intros Hc. induction cases as [| [[fid fname] cn] rest IH]; cbn [process_all].
  - apply sim_ret.
  - apply sim_bind; [| intros _; exact IH].
    apply sim_try, sim_bind; [now apply sim_process_case_folder | intros _].
    apply sim_ret.
Qed.

Lemma sim_confirm (auto_confirm : bool) (n : nat) :
  auto_confirm = true \/ answers_yes e ->
  sim (confirm e true auto_confirm n) (confirm e false auto_confirm n).
Proof.
  intros Hyes. unfold confirm.
  destruct auto_confirm; cbn [negb andb]; [apply sim_ret |].
  destruct Hyes as [Hyes | Hyes]; [discriminate |].
  destruct (1 <? Z.of_nat n); [| apply sim_ret].
  apply sim_hidden; [reflexivity |]. rewrite Hyes. apply sim_ret.
Qed.

Lemma sim_archive_then (skip_jira : bool) (items : list box_item)
      (cases : list case_ref) :
  archive_id_nonempty e ->
  get_items e (root_folder_id e) = Some items ->
  sim (bind (get_or_create_completed_folder e true)
            (fun comp => process_all e true skip_jira comp cases))
      (bind (get_or_create_completed_folder e false)
            (fun comp => process_all e false skip_jira comp cases)).
Proof.
  intros Hid Hlist sd sl Hm.
  unfold get_or_create_completed_folder, bind, emit, ret. simpl.
  rewrite Hlist.
  assert (Hm1 := mirrors_emit (GetItems (root_folder_id e)) sd sl eq_refl Hm).
  destruct (find is_completed_folder items) as [item |] eqn:Hfind; simpl.
  - apply sim_process_all; [| assumption]. now apply (Hid items).
  - destruct Hok as (Hcreate & _ & _).
    destruct (Hcreate (root_folder_id e) "1Completed") as (id & -> & Hne).
    apply sim_process_all; [assumption |].
    exact (mirrors_hidden (CreateSubfolder (root_folder_id e) "1Completed")
                          _ _ eq_refl Hm1).
Qed.

Lemma sim_run (skip_jira : bool) (sc : option string) (auto_confirm : bool) :
  archive_id_nonempty e ->
  auto_confirm = true \/ answers_yes e ->
  sim (run e true skip_jira sc auto_confirm) (run e false skip_jira sc auto_confirm).
Proof.
  intros Hid Hyes. unfold run.
  destruct (negb skip_jira && negb (helper_exists e)); [apply sim_exit |].
  destruct (get_items e (root_folder_id e)) as [items |] eqn:Hlist.
  - apply sim_bind; [apply sim_find_case_folders | intros cases].
    destruct cases as [| c rest]; [apply sim_ret |].
    apply sim_bind; [now apply sim_confirm | intros go].
    destruct (negb go); [apply sim_ret |].
    now apply sim_archive_then with (items := items).
  - intros sd sl Hm.
    unfold find_case_folders, bind, emit, sys_exit. simpl. rewrite Hlist.
    split; [reflexivity | now apply mirrors_emit].
Qed.

(** With every deletion going through, the loop counts the same files
    and bytes in both modes; only the live one calls the service. *)
Lemma delete_loop_all_ok (files : list file_info) :
  forall c b s,
    delete_loop e true files c b s
    = (Ret (c + Z.of_nat (List.length files),
            b + fold_right (fun f acc => fi_size f + acc) 0 files), s)
    /\ delete_loop e false files c b s
       = (Ret (c + Z.of_nat (List.length files),
               b + fold_right (fun f acc => fi_size f + acc) 0 files),
          mkState (st_stats s)
                  (st_calls s ++ map (fun f => DeleteFile (fi_id f)) files)).
Proof.
  destruct Hok as (_ & _ & Hdel).
  induction files as [| f rest IH]; intros c b s.
  - cbn. rewrite !Z.add_0_r, app_nil_r. now destruct s.
  - cbn [delete_loop]. unfold bind, emit. cbn [fst snd]. rewrite Hdel.
    destruct (IH (c + 1) (b + fi_size f) s) as [-> _].
    destruct (IH (c + 1) (b + fi_size f)
                 (mkState (st_stats s) (st_calls s ++ [DeleteFile (fi_id f)])))
      as [_ ->].
    cbn [List.length fold_right map st_stats st_calls].
    rewrite <- app_assoc. cbn [app].
    replace (c + 1 + Z.of_nat (List.length rest))
      with (c + Z.of_nat (S (List.length rest))) by lia.
    replace (b + fi_size f + fold_right (fun f acc => fi_size f + acc) 0 rest)
      with (b + (fi_size f + fold_right (fun f acc => fi_size f + acc) 0 rest))
      by lia.
    split; reflexivity.
Qed.

(** C5.  When no call that changes the storage service fails (and the
    user, if asked, says yes), a dry run and a live run of the cleanup
    from the same counters end with the same result and the same value of
    every counter; the dry run makes none of the changing calls and never
    asks the user, and its calls are otherwise those of the live run.
    [delete_data_files] and [move_folder_to_completed] on their own
    return the same and count the same in both modes, and only the live
    mode adds its deletion calls, or its move call, to the trace. *)
Theorem dry_run_counts_like_live_run (skip_jira : bool)
        (specific_case : option string) (auto_confirm : bool) (st : stats) :
  archive_id_nonempty e ->
  auto_confirm = true \/ answers_yes e ->
  let dry := run e true skip_jira specific_case auto_confirm (mkState st []) in
  let live := run e false skip_jira specific_case auto_confirm (mkState st []) in
  (fst dry = fst live
   /\ st_stats (snd dry) = st_stats (snd live)
   /\ st_calls (snd dry) = filter shared (st_calls (snd live))
   /\ forallb (fun c => negb (is_mutation c)) (st_calls (snd dry)) = true)
  /\ (forall files s,
         let d := delete_data_files e true files s in
         let l := delete_data_files e false files s in
         fst d = fst l
         /\ st_stats (snd d) = st_stats (snd l)
         /\ st_calls (snd d) = st_calls s
         /\ st_calls (snd l)
            = (st_calls s ++ map (fun f => DeleteFile (fi_id f)) files)%list)
  /\ (forall fid fname cid comp s,
         truthy cid = true ->
         let d := move_folder_to_completed e true fid fname comp s in
         let l := move_folder_to_completed e false fid fname (Some cid) s in
         fst d = Ret true /\ fst l = Ret true
         /\ st_stats (snd d) = st_stats (snd l)
         /\ st_calls (snd d) = st_calls s
         /\ st_calls (snd l) = (st_calls s ++ [MoveFolder fid cid])%list).
Proof.
  intros Hid Hyes dry live. split; [| split].
  - assert (Hinit : mirrors (mkState st []) (mkState st []))
      by (split; reflexivity).
    destruct (sim_run skip_jira specific_case auto_confirm Hid Hyes _ _ Hinit)
      as (Hr & Hs & Hc).
    fold dry in Hr, Hs, Hc. fold live in Hr, Hs, Hc.
    repeat split; try assumption.
    rewrite Hc. apply forallb_forall. intros c Hin.
    apply filter_In in Hin as [_ Hin]. unfold shared in Hin.
    now apply andb_true_iff in Hin as [Hin _].
  - intros files s d l. subst d l. unfold delete_data_files, bind.
    destruct (delete_loop_all_ok files 0 0 s) as [-> ->].
    cbn. repeat split.
  - intros fid fname cid comp s Hc d l. subst d l.
    destruct Hok as (_ & Hmove & _).
    unfold move_folder_to_completed. rewrite Hc.
    unfold bind, emit, ret. cbn. rewrite Hmove. cbn. repeat split.
Qed.

End NoFailure.

Lemma sample_mutations_succeed : mutations_succeed (sample_env (ApiOk tt)).
Proof.
  repeat split. intros parent name. exists "777". split; reflexivity.
Qed.

Lemma sample_archive_id_nonempty (a : api_result unit) :
  archive_id_nonempty (sample_env a).
Proof.
  intros items item Hl Hf. cbn in Hl. injection Hl as <-. discriminate Hf.
Qed.

Lemma dry_run_counts_like_live_run_witness :
  let e := sample_env (ApiOk tt) in
  st_stats (snd (run e true false None true initial_state))
  = st_stats (snd (run e false false None true initial_state))
  /\ files_deleted (st_stats (snd (run e true false None true initial_state))) = 1.
Proof.
  intros e.
  destruct (dry_run_counts_like_live_run e sample_mutations_succeed
              false None true initial_stats
              (sample_archive_id_nonempty (ApiOk tt)) (or_introl eq_refl))
    as ((_ & Hstats & _) & _).
  split; [exact Hstats | reflexivity].
Defined.

End DryRun.

(* ================================================================== *)
(** ** The filter on trashed items *)

Section TrashFilter.
Import PyStr Eff Box Recovery.

Variable fromisoformat : string -> option datetime.
Variable cutoff_date : Z.

(** The three tests are taken together: an item is kept exactly when it
    is in the listing and none of the tests sends the loop on. *)
Lemma filter_trashed_items_In (items : list trashed_item)
      (folder_id folder_name : option string) (user_filter : string)
      (item : trashed_item) :
  In item (filter_trashed_items fromisoformat cutoff_date items
                                folder_id folder_name user_filter)
  <-> In item items
      /\ date_skips fromisoformat cutoff_date item = false
      /\ user_skips user_filter item = false
      /\ folder_matches folder_id folder_name item = true.
Proof.
  induction items as [| x rest IH]; cbn [filter_trashed_items In].
  - tauto.
  - destruct (date_skips fromisoformat cutoff_date x) eqn:D.
    { rewrite IH. split; [tauto |].
      intros ([<- | H] & Hd & Hu & Hf); [congruence | tauto]. }
    destruct (user_skips user_filter x) eqn:U.
    { rewrite IH. split; [tauto |].
      intros ([<- | H] & Hd & Hu & Hf); [congruence | tauto]. }
    destruct (folder_matches folder_id folder_name x) eqn:F; cbn [negb In].
    + rewrite IH. split.
      * intros [<- | H]; tauto.
      * tauto.
    + rewrite IH. split; [tauto |].
      intros ([<- | H] & Hd & Hu & Hf); [congruence | tauto].
Qed.

(** The date test looks at the date and time fields of the timestamp as
    they are written, whatever its offset from UTC. *)
Lemma date_skips_wall (item : trashed_item) (s : string) (t : datetime) :
  it_trashed_at item = Some s -> truthy s = true ->
  fromisoformat (replace "Z" "+00:00" s) = Some t ->
  date_skips fromisoformat cutoff_date item = (wall t <? cutoff_date).
Proof.
  intros Hs Ht Hp. unfold date_skips. rewrite Hs, Ht, Hp. cbn [negb].
  unfold datetime_lt, replace_tzinfo, utc_instant. cbn [tzinfo wall].
  destruct (tzinfo t) as [tz |]; [| reflexivity].
  destruct (wall t <? cutoff_date) eqn:E.
  - apply Z.ltb_lt in E. apply Z.ltb_lt. lia.
  - apply Z.ltb_ge in E. apply Z.ltb_ge. lia.
Qed.

(** An item deleted before the cutoff is dropped when its timestamp is
    naive or written in a zone that is not ahead of UTC. *)
Lemma early_item_excluded (items : list trashed_item)
      (folder_id folder_name : option string) (user_filter : string)
      (item : trashed_item) (s : string) (t : datetime) :
  it_trashed_at item = Some s -> truthy s = true ->
  fromisoformat (replace "Z" "+00:00" s) = Some t ->
  match tzinfo t with
  | Some offset => offset <= 0 /\ utc_instant t offset < cutoff_date
  | None => wall t < cutoff_date
  end ->
  ~ In item (filter_trashed_items fromisoformat cutoff_date items
                                  folder_id folder_name user_filter).
Proof.
  intros Hs Ht Hp Hearly Hin.
  apply filter_trashed_items_In in Hin as (_ & Hd & _).
  rewrite (date_skips_wall item s t Hs Ht Hp) in Hd.
  apply Z.ltb_ge in Hd. unfold utc_instant in Hearly.
  destruct (tzinfo t); lia.
Qed.

(** An item whose deleting user's login does not contain the configured
    name is dropped. *)
Lemma other_user_excluded (items : list trashed_item)
      (folder_id folder_name : option string) (user_filter : string)
      (item : trashed_item) (login : string) :
  truthy user_filter = true ->
  it_trashed_by item = UserDict (Some login) ->
  str_in (lower user_filter) (lower login) = false ->
  ~ In item (filter_trashed_items fromisoformat cutoff_date items
                                  folder_id folder_name user_filter).
Proof.
  intros Hu Hby Hno Hin.
  apply filter_trashed_items_In in Hin as (_ & _ & Hus & _).
  unfold user_skips in Hus. rewrite Hu, Hby, Hno in Hus. discriminate.
Qed.

(** A user record without a login is read as the empty login, and no
    configured name is contained in that. *)
Lemma user_without_login_skipped (user_filter : string) (item : trashed_item) :
  truthy user_filter = true ->
  it_trashed_by item = UserDict None \/ it_trashed_by item = UserObject ->
  user_skips user_filter item = true.
Proof.
  intros Hu Hby. unfold user_skips. rewrite Hu.
  assert (Hno : str_in (lower user_filter) (lower "") = false).
  { destruct user_filter; [discriminate | reflexivity]. }
  destruct Hby as [-> | ->]; now rewrite Hno.
Qed.

(** With a folder id or a folder name given, an item no rule associates
    with the folder is dropped. *)
Lemma unassociated_item_excluded (items : list trashed_item)
      (folder_id folder_name : option string) (user_filter : string)
      (item : trashed_item) :
  truthy_opt folder_id = true \/ truthy_opt folder_name = true ->
  (forall fid, folder_id = Some fid ->
               id_match fid item = false /\ parent_match fid item = false
               /\ path_match fid item = false) ->
  (forall fname, folder_name = Some fname ->
                 _matches_folder_name (it_name item) fname = false) ->
  ~ In item (filter_trashed_items fromisoformat cutoff_date items
                                  folder_id folder_name user_filter).
Proof.
  intros Hgiven Hid Hname Hin.
  apply filter_trashed_items_In in Hin as (_ & _ & _ & Hf).
  unfold folder_matches in Hf.
  assert (Hby_id : match folder_id with
                   | Some fid =>
                       truthy fid
                       && (id_match fid item || parent_match fid item
                           || path_match fid item)
                   | None => false
                   end = false).
  { destruct folder_id as [fid |]; [| reflexivity].
    destruct (Hid fid eq_refl) as (-> & -> & ->). apply andb_false_r. }
  assert (Hby_name : match folder_name with
                     | Some fname =>
                         truthy fname
                         && _matches_folder_name (it_name item) fname
                     | None => false
                     end = false).
  { destruct folder_name as [fname |]; [| reflexivity].
    rewrite (Hname fname eq_refl). apply andb_false_r. }
  rewrite Hby_id, Hby_name in Hf. cbn in Hf.
  destruct (truthy_opt folder_id), (truthy_opt folder_name);
    cbn in Hf; try discriminate.
  destruct Hgiven; discriminate.
Qed.

(** C10.  An item without a deletion timestamp, or with one that cannot
    be read, passes the date test; an item without a deleting user passes
    the user test; so such an item is kept whenever it is in the listing
    and the folder test holds. *)
Theorem missing_metadata_passes (user_filter : string) (item : trashed_item) :
  (it_trashed_at item = None \/ it_trashed_at item = Some "" ->
   date_skips fromisoformat cutoff_date item = false)
  /\ (forall s, it_trashed_at item = Some s ->
                fromisoformat (replace "Z" "+00:00" s) = None ->
                date_skips fromisoformat cutoff_date item = false)
  /\ (it_trashed_by item = NoUser -> user_skips user_filter item = false)
  /\ (forall items folder_id folder_name,
         In item items ->
         date_skips fromisoformat cutoff_date item = false ->
         it_trashed_by item = NoUser ->
         folder_matches folder_id folder_name item = true ->
         In item (filter_trashed_items fromisoformat cutoff_date items
                                       folder_id folder_name user_filter)).
Proof.
  assert (Huser : it_trashed_by item = NoUser ->
                  user_skips user_filter item = false).
  { intros H. unfold user_skips. rewrite H. now destruct (truthy user_filter). }
  repeat split.
  - intros [H | H]; unfold date_skips; now rewrite H.
  - intros s Hs Hp. unfold date_skips. rewrite Hs, Hp.
    now destruct (negb (truthy s)).
  - exact Huser.
  - intros items folder_id folder_name Hin Hd Hby Hf.
    apply filter_trashed_items_In. auto.
Qed.

End TrashFilter.

Section TrashFilterExamples.
Import PyStr Eff Box Recovery.

Lemma missing_metadata_passes_witness :
  date_skips read_iso sample_cutoff item_without_metadata = false
  /\ user_skips "aeadata" item_without_metadata = false
  /\ In item_without_metadata
        (filter_trashed_items read_iso sample_cutoff
           [item_by_other_user; item_without_metadata]
           (Some "555") None "aeadata").
Proof.
  destruct (missing_metadata_passes read_iso sample_cutoff "aeadata"
                                    item_without_metadata)
    as (Hdate & _ & Huser & Hkept).
  assert (Hd : date_skips read_iso sample_cutoff item_without_metadata = false).
  { apply Hdate. left. reflexivity. }
  split; [exact Hd | split].
  - apply Huser. reflexivity.
  - apply Hkept.
    + right. left. reflexivity.
    + exact Hd.
    + reflexivity.
    + reflexivity.
Defined.

(** C3.  The item [item_before_cutoff] was deleted by the configured
    user at 2024-01-09 21:00 on the UTC clock, three hours before the
    cutoff 2024-01-10 00:00, and is associated with the folder; its
    timestamp is written as 02:00 in a zone five hours ahead.  The date
    test stamps that zone on the cutoff without converting it and so
    compares 02:00 with 00:00: the item is kept. *)
Theorem early_item_in_zone_ahead_is_kept :
  it_trashed_at item_before_cutoff = Some "2024-01-10T02:00:00+05:00"
  /\ read_iso (replace "Z" "+00:00" "2024-01-10T02:00:00+05:00")
     = Some (mkDatetime 1704852000000000 (Some 18000000000))
  /\ utc_instant (mkDatetime 1704852000000000 (Some 18000000000)) 18000000000
     < sample_cutoff
  /\ user_skips "aeadata" item_before_cutoff = false
  /\ folder_matches (Some "555") (Some "aearep-7712") item_before_cutoff = true
  /\ filter_trashed_items read_iso sample_cutoff [item_before_cutoff]
                          (Some "555") (Some "aearep-7712") "aeadata"
     = [item_before_cutoff].
Proof. repeat split. Qed.

(** The recovery scenario of the specification: of two trashed files of
    folder 555, the one deleted by the automation account inside the
    window is found and restored, the other is not. *)
Example scenario_recovery :
  let r := run (sample_env [item_by_automation; item_by_other_user])
               false sample_cutoff "8040" false true initial_state in
  fst r = Ret tt
  /\ st_stats (snd r) = mkStats 1 1 0
  /\ st_calls (snd r)
     = [ JiraIssue "aearep-8040"; JiraFields; ListTrash;
         GetItems "0"; GetItems "777"; Restore "file" "9001" "555" ].
Proof. repeat split. Qed.

End TrashFilterExamples.

(* ================================================================== *)
(** ** The readiness check *)

Section Readiness.
Import PyStr Eff Box Cleanup.

(** C8, as the code has it.  With the bypass flag the check answers ready
    and runs nothing.  Without it, and with the helper script in place, the
    helper is run once on the ticket key [aearep-<case number>]; the check
    answers ready exactly when the helper ends with exit code zero, and
    not ready on any other exit code, on a timeout and on any other
    failure to run it.  The text that comes with the answer is the
    helper's standard output with the white space at both ends removed, or
    its standard error treated the same way when standard output is
    empty; on a timeout it is the word [Timeout].  Without the helper
    script the process exits with code 1. *)
Theorem readiness_check (e : env) (skip_jira : bool) (case_number : string)
        (verbose : bool) (s : state) :
  let check := check_jira_purge_status e skip_jira case_number verbose in
  let args := helper_args case_number verbose in
  last args "" = "aearep-" ++ case_number
  /\ (skip_jira = true ->
      check s = (Ret (true, "Skipped (--skip-jira-check)"), s))
  /\ (skip_jira = false -> helper_exists e = false -> check s = (Exit 1, s))
  /\ (skip_jira = false -> helper_exists e = true ->
      snd (check s) = mkState (st_stats s) (st_calls s ++ [RunHelper args])
      /\ (forall text,
             fst (check s) = Ret (true, text)
             <-> exists stdout stderr,
                 run_helper e args = Completed 0 stdout stderr
                 /\ text = (if truthy stdout then strip stdout
                            else strip stderr))
      /\ match run_helper e args with
         | Completed returncode stdout stderr =>
             fst (check s)
             = Ret (returncode =? 0,
                    if truthy stdout then strip stdout else strip stderr)
         | TimeoutExpired => fst (check s) = Ret (false, "Timeout")
         | HelperError msg => fst (check s) = Ret (false, msg)
         end).
Proof.
  intros check args. subst check.
  split; [now destruct verbose |].
  unfold check_jira_purge_status. fold args.
  split; [now intros -> |]. split; [now intros -> -> |].
  intros -> ->. cbn [negb]. unfold bind, emit, ret. cbn [fst snd].
  split; [now destruct (run_helper e args) |].
  split.
  - intros text. unfold helper_output.
    destruct (run_helper e args) as [rc out err | | msg]; cbn [fst]; split.
    + intros [= Hrc <-]. apply Z.eqb_eq in Hrc. subst rc.
      exists out, err. now split.
    + intros (out' & err' & [= -> -> ->] & ->). reflexivity.
    + discriminate.
    + intros (out' & err' & H & _). discriminate.
    + discriminate.
    + intros (out' & err' & H & _). discriminate.
  - now destruct (run_helper e args).
Qed.

Lemma readiness_check_witness :
  fst (check_jira_purge_status (sample_env (ApiOk tt)) false "4321" false
                               initial_state)
  = Ret (true, "READY")
  /\ fst (check_jira_purge_status (sample_env (ApiOk tt)) true "4322" false
                                  initial_state)
     = Ret (true, "Skipped (--skip-jira-check)").
Proof.
  split.
  - destruct (readiness_check (sample_env (ApiOk tt)) false "4321" false
                              initial_state) as (_ & _ & _ & H).
    destruct (H eq_refl eq_refl) as (_ & _ & Hrun). exact Hrun.
  - destruct (readiness_check (sample_env (ApiOk tt)) true "4322" false
                              initial_state) as (_ & H & _).
    now rewrite (H eq_refl).
Defined.

(** C8 as stated fails on the sample world.  The helper, run on case
    4321, ends with exit code zero and writes [READY] and a line feed; the
    text the check returns is [READY], which is not what the helper
    wrote.  And with the bypass flag the check answers ready for case
    4322, on which the helper ends with exit code 1. *)
Lemma readiness_check_counterexample :
  run_helper (sample_env (ApiOk tt)) (helper_args "4321" false)
  = Completed 0 ("READY" ++ LF) ""
  /\ fst (check_jira_purge_status (sample_env (ApiOk tt)) false "4321" false
                                  initial_state)
     = Ret (true, "READY")
  /\ "READY" <> "READY" ++ LF
  /\ run_helper (sample_env (ApiOk tt)) (helper_args "4322" false)
     = Completed 1 "" ("not ready" ++ LF)
  /\ fst (check_jira_purge_status (sample_env (ApiOk tt)) true "4322" false
                                  initial_state)
     = Ret (true, "Skipped (--skip-jira-check)").
Proof. repeat split. discriminate. Qed.

End Readiness.

(* ================================================================== *)
(** ** The confirmation prompt *)

Section CleanupPrompt.
Import PyStr Eff Box Cleanup.

Lemma ni_try (P : call -> bool) (m : M unit) :
  emits P m -> emits P (try_count_error m).
Proof.
  intros Hm s. unfold try_count_error. destruct (Hm s) as (cs & C & N).
  destruct (m s) as [[a | msg | code] s1]; now exists cs.
Qed.

Lemma ni_listing (ids : list string) :
  emits not_input (@emit_all stats call (map GetItems ids)).
Proof.
  apply em_emit_all. induction ids; simpl; auto.
Qed.

Lemma ni_check_jira (e : env) (skip_jira : bool) (cn : string) (v : bool) :
  emits not_input (check_jira_purge_status e skip_jira cn v).
Proof. unfold check_jira_purge_status. em. Qed.

Lemma ni_classify (e : env) (fid : string) :
  emits not_input (classify_files_recursive e fid).
Proof.
  unfold classify_files_recursive.
  apply em_bind; [apply ni_listing | intros _; em].
Qed.

Lemma ni_move (e : env) (tm : bool) (fid fname : string) (comp : option string) :
  emits not_input (move_folder_to_completed e tm fid fname comp).
Proof. unfold move_folder_to_completed. em. Qed.

Lemma ni_process_case_folder (e : env) (tm skip_jira : bool)
      (fid fname cn : string) (comp : option string) :
  emits not_input (process_case_folder e tm skip_jira fid fname cn comp).
Proof.
  unfold process_case_folder.
  apply em_bind; [em | intros _].
  apply em_bind; [apply ni_check_jira | intros status].
  destruct (negb (fst status)); [em |].
  apply em_bind; [em | intros _].
  apply em_bind; [apply ni_classify | intros files].
  apply em_bind; [apply ni_move | intros ok].
  destruct (negb ok); [em |].
  apply em_bind; [em | intros _].
  destruct (fst files); [em |].
  apply em_bind; [| intros _; em].
  apply em_weaken with (P := is_delete); [now intros [] |].
  apply em_delete_data_files.
Qed.

Lemma ni_process_all (e : env) (tm skip_jira : bool) (comp : option string)
      (cases : list case_ref) :
  emits not_input (process_all e tm skip_jira comp cases).
Proof.
  induction cases as [| [[fid fname] cn] rest IH]; cbn [process_all].
  - em.
  - apply em_bind; [| intros _; exact IH].
    apply ni_try, em_bind; [apply ni_process_case_folder | intros _; em].
Qed.

Lemma ni_archive (e : env) (tm : bool) :
  emits not_input (get_or_create_completed_folder e tm).
Proof. unfold get_or_create_completed_folder. em. Qed.

Lemma prompts_of_calls {A} (m : M A) (s : state) (cs : list call) :
  st_calls (snd (m s)) = (st_calls s ++ cs)%list ->
  prompts m s = existsb is_input cs.
Proof. intros H. unfold prompts. now rewrite (new_calls_app m s cs H). Qed.

Lemma sort_by_key_length (l : list case_ref) :
  List.length (sort_by_key l) = List.length l.
Proof. apply Permutation_length, sort_by_key_perm. Qed.

(** The cleanup run asks exactly when it gets as far as the confirmation
    step with more than one case folder, and neither flag is set. *)
Lemma cleanup_prompt (e : env) (tm skip_jira : bool) (sc : option string)
      (auto_confirm : bool) (s : state) :
  prompts (run e tm skip_jira sc auto_confirm) s = true
  <-> auto_confirm = false /\ tm = false
      /\ (skip_jira = true \/ helper_exists e = true)
      /\ exists items,
          get_items e (root_folder_id e) = Some items
          /\ (1 < List.length (select_case_folders sc items))%nat.
Proof.
  set (tail := fun (cases : list case_ref) (go : bool) =>
                 if negb go then ret tt
                 else bind (get_or_create_completed_folder e tm)
                           (fun comp => process_all e tm skip_jira comp cases)).
  assert (Htail : forall cases go, emits not_input (tail cases go)).
  { intros cases go. unfold tail. destruct (negb go); [em |].
    apply em_bind; [apply ni_archive | intros comp; apply ni_process_all]. }
  unfold run.
  destruct (negb skip_jira && negb (helper_exists e)) eqn:Hhelper.
  { rewrite (prompts_of_calls _ s []) by (cbn; now rewrite app_nil_r).
    cbn. split; [discriminate |].
    intros (_ & _ & [H | H] & _); rewrite H in Hhelper; cbn in Hhelper;
      [discriminate | now rewrite andb_false_r in Hhelper]. }
  assert (Hh : skip_jira = true \/ helper_exists e = true).
  { destruct skip_jira; [now left | right].
    now destruct (helper_exists e). }
  unfold find_case_folders.
  destruct (get_items e (root_folder_id e)) as [items |] eqn:Hlist.
  2:{ rewrite (prompts_of_calls _ s [GetItems (root_folder_id e)])
        by reflexivity.
      cbn. split; [discriminate |]. intros (_ & _ & _ & items & H & _).
      discriminate. }
  pose proof (sort_by_key_length (select_case_folders sc items)) as Hlen.
  destruct (sort_by_key (select_case_folders sc items)) as [| c rest] eqn:Hsort.
  { rewrite (prompts_of_calls _ s [GetItems (root_folder_id e)]).
    - cbn. split; [discriminate |].
      intros (_ & _ & _ & items' & [= <-] & Hgt). cbn in Hlen. lia.
    - unfold bind, emit, update_stats, ret. cbn. reflexivity. }
  set (n := List.length (c :: rest)) in *.
  set (s1 := mkState
               (set_folders_found
                  (Z.of_nat (List.length (select_case_folders sc items)))
                  (st_stats s))
               (st_calls s ++ [GetItems (root_folder_id e)])).
  destruct (negb auto_confirm && negb tm && (1 <? Z.of_nat n)) eqn:Hcond.
  - destruct (Htail (c :: rest)
                    (mem (lower (input e (confirm_prompt n))) ["y"; "yes"])
                    (mkState (st_stats s1)
                             (st_calls s1 ++ [Input (confirm_prompt n)])))
      as (cs & Hcs & _).
    rewrite (prompts_of_calls
               _ s
               (GetItems (root_folder_id e) :: Input (confirm_prompt n) :: cs)).
    + cbn. split; [intros _ | reflexivity].
      apply andb_true_iff in Hcond as [Hcond Hn].
      apply andb_true_iff in Hcond as [Ha Ht].
      apply Z.ltb_lt in Hn.
      repeat split;
        [now destruct auto_confirm | now destruct tm | assumption |].
      exists items. split; [reflexivity |]. subst n. lia.
    + unfold bind, emit, update_stats, ret, confirm. fold n. rewrite Hcond.
      unfold bind, emit, update_stats, ret. cbn [fst snd st_calls st_stats].
      etransitivity; [exact Hcs |].
      cbn. rewrite <- !app_assoc. reflexivity.
  - destruct (Htail (c :: rest) true s1) as (cs & Hcs & Hni).
    rewrite (prompts_of_calls _ s (GetItems (root_folder_id e) :: cs)).
    + cbn [existsb is_input orb].
      rewrite (forallb_not_existsb is_input cs Hni).
      split; [discriminate |].
      intros (-> & -> & _ & items' & Hitems & Hgt).
      injection Hitems as <-.
      cbn [negb andb] in Hcond. apply Z.ltb_ge in Hcond. lia.
    + unfold bind, emit, update_stats, ret, confirm. fold n. rewrite Hcond.
      unfold bind, emit, update_stats, ret. cbn [fst snd st_calls st_stats].
      etransitivity; [exact Hcs |].
      cbn. rewrite <- !app_assoc. reflexivity.
Qed.
End CleanupPrompt.

Section RecoveryPrompt.
Import PyStr Eff Box Recovery.

Lemma rni_archive (e : env) (tm : bool) :
  emits not_input (get_or_create_completed_folder e tm).
Proof. unfold get_or_create_completed_folder. em. Qed.

Lemma rni_find_case_folder (e : env) (tm : bool) (name : string) :
  emits not_input (find_case_folder_in_completed e tm name).
Proof.
  unfold find_case_folder_in_completed.
  apply em_bind; [apply rni_archive | intros comp]. em.
Qed.

Lemma rni_find_target (e : env) (tm : bool) (name : option string) :
  emits not_input (find_target_folder e tm name).
Proof.
  unfold find_target_folder. destruct name as [name |]; [| apply rni_archive].
  destruct (truthy name); [| apply rni_archive].
  apply em_bind; [apply rni_find_case_folder | intros target].
  destruct (negb (truthy_opt target)); [apply rni_archive | em].
Qed.

Lemma rni_restore_item (e : env) (tm : bool) (item : trashed_item)
      (target : option string) :
  emits not_input (restore_item e tm item target).
Proof. unfold restore_item. em. Qed.

Lemma rni_restore_all (e : env) (tm : bool) (items : list trashed_item)
      (target : option string) :
  emits not_input (restore_all e tm items target).
Proof.
  induction items as [| item rest IH]; cbn [restore_all]; [em |].
  apply em_bind; [apply rni_restore_item | intros _; exact IH].
Qed.

Lemma rprompts_of_calls {A} (m : M A) (s : state) (cs : list call) :
  st_calls (snd (m s)) = (st_calls s ++ cs)%list ->
  prompts m s = existsb is_input cs.
Proof. intros H. unfold prompts. now rewrite (new_calls_app m s cs H). Qed.

(** The recovery run asks exactly when the folder id was found, the run is
    not list-only, something is to be restored, and neither flag is set. *)
Lemma recovery_prompt (e : env) (tm : bool) (cutoff : Z) (cn : string)
      (list_only auto_confirm : bool) (s : state) :
  prompts (run e tm cutoff cn list_only auto_confirm) s = true
  <-> auto_confirm = false /\ tm = false /\ list_only = false
      /\ folder_resolved e cn = true
      /\ items_to_restore e cutoff cn <> [].
Proof.
  set (tail := fun (name : option string) (items : list trashed_item)
                   (go : bool) =>
                 if negb go then ret tt
                 else bind (find_target_folder e tm name)
                           (fun target =>
                              if negb (truthy_opt target) then ret tt
                              else restore_all e tm items target)).
  assert (Htail : forall name items go, emits not_input (tail name items go)).
  { intros name items go. unfold tail. destruct (negb go); [em |].
    apply em_bind; [apply rni_find_target | intros target].
    destruct (negb (truthy_opt target)); [em | apply rni_restore_all]. }
  unfold run, get_box_info_from_jira, folder_resolved, items_to_restore.
  set (key := "aearep-" ++ cn).
  destruct (jira_issue e key) as [values |].
  2:{ rewrite (rprompts_of_calls _ s [JiraIssue key]) by reflexivity.
      cbn. split; [discriminate | intros (_ & _ & _ & H & _); discriminate]. }
  destruct (jira_fields e) as [fields |].
  2:{ rewrite (rprompts_of_calls _ s [JiraIssue key; JiraFields])
        by (cbn; now rewrite <- app_assoc).
      cbn. split; [discriminate | intros (_ & _ & _ & H & _); discriminate]. }
  set (info := box_info fields values).
  destruct (truthy_opt (fst info)) eqn:Hres.
  2:{ rewrite (rprompts_of_calls _ s [JiraIssue key; JiraFields]).
      - cbn. split; [discriminate | intros (_ & _ & _ & H & _); discriminate].
      - unfold bind, emit, ret, sys_exit. cbn. fold info. rewrite Hres. cbn.
        now rewrite <- app_assoc. }
  remember (filter_trashed_items (iso_parser e) cutoff (trash e)
                                 (fst info) (snd info) "aeadata")
    as filtered eqn:Hfiltered.
  set (pre := [JiraIssue key; JiraFields; ListTrash]).
  set (s1 := mkState (set_items_found (Z.of_nat (List.length filtered))
                                      (st_stats s))
                     (((st_calls s ++ [JiraIssue key]) ++ [JiraFields])
                        ++ [ListTrash])%list).
  destruct list_only.
  { rewrite (rprompts_of_calls _ s pre).
    - cbn. split; [discriminate | intros (_ & _ & H & _); discriminate].
    - unfold bind, emit, ret, get_trashed_items, update_stats. cbn.
      fold info. rewrite Hres. cbn. now rewrite <- !app_assoc. }
  destruct filtered as [| x rest].
  { rewrite (rprompts_of_calls _ s pre).
    - cbn. split; [discriminate | intros (_ & _ & _ & _ & H); now elim H].
    - unfold bind, emit, ret, get_trashed_items, update_stats. cbn.
      fold info. rewrite Hres. cbn. rewrite <- Hfiltered. cbn.
      now rewrite <- !app_assoc. }
  set (n := List.length (x :: rest)) in *.
  destruct (negb auto_confirm && negb tm) eqn:Hcond.
  - destruct (Htail (snd info) (x :: rest)
                (existsb (String.eqb (lower (input e (restore_prompt n))))
                         ["y"; "yes"])
                (mkState (st_stats s1)
                         (st_calls s1 ++ [Input (restore_prompt n)])))
      as (cs & Hcs & _).
    rewrite (rprompts_of_calls _ s (pre ++ Input (restore_prompt n) :: cs)).
    + cbn. split; [intros _ | reflexivity].
      apply andb_true_iff in Hcond as [Ha Ht].
      repeat split;
        [now destruct auto_confirm | now destruct tm | discriminate].
    + cbv beta iota zeta
          delta [bind emit ret sys_exit get_trashed_items update_stats confirm].
      fold info. rewrite Hres. cbn [negb].
      rewrite <- Hfiltered. cbv beta iota. fold n. rewrite Hcond.
      cbv beta iota.
      etransitivity; [exact Hcs |].
      cbn. rewrite <- !app_assoc. reflexivity.
  - destruct (Htail (snd info) (x :: rest) true s1) as (cs & Hcs & Hni).
    rewrite (rprompts_of_calls _ s (pre ++ cs)).
    + rewrite existsb_app. cbn [pre existsb is_input orb].
      rewrite (forallb_not_existsb is_input cs Hni).
      split; [discriminate |].
      intros (-> & -> & _). discriminate.
    + cbv beta iota zeta
          delta [bind emit ret sys_exit get_trashed_items update_stats confirm].
      fold info. rewrite Hres. cbn [negb].
      rewrite <- Hfiltered. cbv beta iota. fold n. rewrite Hcond.
      cbv beta iota.
      etransitivity; [exact Hcs |].
      cbn. rewrite <- !app_assoc. reflexivity.
Qed.
End RecoveryPrompt.

Section Confirmation.
Import PyStr Eff Box.

(** C9, as the code has it.  The cleanup run asks the user to confirm
    exactly when it reaches the confirmation step (the helper script is
    there or the check is bypassed, and the root folder could be listed)
    with more than one case folder to process, and neither the
    auto-confirm flag nor dry-run mode is set.  The recovery run, which
    always targets one case, asks exactly when the folder id was found,
    the run is not list-only, there is something to restore, and neither
    the auto-confirm flag nor dry-run mode is set. *)
Theorem confirmation_prompt :
  (forall e tm skip_jira specific_case auto_confirm s,
      Cleanup.prompts (Cleanup.run e tm skip_jira specific_case auto_confirm) s
      = true
      <-> auto_confirm = false /\ tm = false
          /\ (skip_jira = true \/ Cleanup.helper_exists e = true)
          /\ exists items,
              Cleanup.get_items e (Cleanup.root_folder_id e) = Some items
              /\ (1 < List.length
                        (Cleanup.select_case_folders specific_case items))%nat)
  /\ (forall e tm cutoff_date case_number list_only auto_confirm s,
         Recovery.prompts
           (Recovery.run e tm cutoff_date case_number list_only auto_confirm) s
         = true
         <-> auto_confirm = false /\ tm = false /\ list_only = false
             /\ Recovery.folder_resolved e case_number = true
             /\ Recovery.items_to_restore e cutoff_date case_number <> []).
Proof.
  split.
  - intros. apply cleanup_prompt.
  - intros. apply recovery_prompt.
Qed.

Lemma confirmation_prompt_witness :
  Cleanup.prompts
    (Cleanup.run (Cleanup.sample_env (ApiOk tt)) false false None false)
    Cleanup.initial_state = true
  /\ Recovery.prompts
       (Recovery.run (Recovery.sample_env [Recovery.item_by_automation])
                     false Recovery.sample_cutoff "8040" false false)
       Recovery.initial_state = true.
Proof.
  destruct confirmation_prompt as [Hcleanup Hrecovery]. split.
  - apply Hcleanup. repeat split; [now right |].
    exists Cleanup.sample_root. split; [reflexivity | vm_compute; lia].
  - apply Hrecovery. repeat split. vm_compute. discriminate.
Defined.

(** C9 as stated fails on the recovery run: it targets the single case
    8040, is neither a dry run nor confirmed beforehand, and asks the
    user. *)
Lemma single_case_recovery_prompts :
  Recovery.prompts
    (Recovery.run (Recovery.sample_env [Recovery.item_by_automation])
                  false Recovery.sample_cutoff "8040" false false)
    Recovery.initial_state = true.
Proof. reflexivity. Qed.

(** The cleanup run on one named case, with one folder of that name, does
    not ask. *)
Example single_case_cleanup_silent :
  Cleanup.prompts
    (Cleanup.run (Cleanup.sample_env (ApiOk tt)) false false (Some "4321") false)
    Cleanup.initial_state = false.
Proof. reflexivity. Qed.

End Confirmation.

(* ================================================================== *)
(** ** The deletion loop *)

Section DeletionLoop.
Import PyStr Eff Box Cleanup Cli CleanupCli.

Lemma add_errors_0 (st : stats) : add_errors 0 st = st.
Proof. destruct st. unfold add_errors. cbn. now rewrite Z.add_0_r. Qed.

Lemma add_errors_add (a b : Z) (st : stats) :
  add_errors a (add_errors b st) = add_errors (b + a) st.
Proof. unfold add_errors. cbn. now rewrite Z.add_assoc. Qed.

(** The loop of a live run in which no deletion raises anything but the
    storage service's own exception. *)
Lemma delete_loop_live (e : env) (files : list file_info) :
  forallb (fun f => negb (delete_raises e f)) files = true ->
  forall c b s,
    delete_loop e false files c b s
    = (Ret (c + count (delete_done e) files,
            b + total_size (filter (delete_done e) files)),
       mkState (add_errors (count (delete_refused e) files) (st_stats s))
               (st_calls s ++ map delete_call files)).
Proof.
  unfold count.
  induction files as [| f rest IH]; intros Hok c b s.
  - cbn. rewrite !Z.add_0_r, add_errors_0, app_nil_r. now destruct s.
  - cbn [forallb] in Hok. apply andb_true_iff in Hok as [Hf Hrest].
    cbn [delete_loop]. unfold bind, emit. cbn [fst snd st_stats st_calls].
    cbn [filter map].
    assert (Hcase : (delete_done e f = true /\ delete_refused e f = false)
                    \/ (delete_done e f = false /\ delete_refused e f = true)).
    { unfold delete_done, delete_refused, delete_raises in *.
      destruct (delete e (fi_id f)); [now left | now right | discriminate]. }
    destruct Hcase as [[Hd Hr] | [Hd Hr]]; rewrite Hd, Hr.
    + assert (Hres : exists u, delete e (fi_id f) = ApiOk u).
      { unfold delete_done in Hd. destruct (delete e (fi_id f)) as [u | |];
          [now exists u | discriminate | discriminate]. }
      destruct Hres as (u & ->).
      rewrite (IH Hrest). cbn [st_stats st_calls List.length total_size fold_right].
      rewrite <- app_assoc. cbn [app]. unfold delete_call at 2.
      unfold total_size. do 2 f_equal. f_equal; lia.
    + assert (Hres : exists msg, delete e (fi_id f) = BoxAPIException msg).
      { unfold delete_refused in Hr. destruct (delete e (fi_id f)) as [| msg |];
          [discriminate | now exists msg | discriminate]. }
      destruct Hres as (msg & ->).
      unfold update_stats. cbn [fst snd st_stats st_calls].
      rewrite (IH Hrest). cbn [st_stats st_calls List.length].
      rewrite add_errors_add, <- app_assoc. cbn [app]. unfold delete_call at 2.
      f_equal. f_equal. f_equal. lia.
Qed.

(** The loop of a live run up to a deletion that raises something else:
    it stops there, and what it counted so far goes with it. *)
Lemma delete_loop_raises (e : env) (pre post : list file_info)
      (f : file_info) (msg : string) :
  forallb (fun f => negb (delete_raises e f)) pre = true ->
  delete e (fi_id f) = OtherException msg ->
  forall c b s,
    delete_loop e false (pre ++ f :: post) c b s
    = (Raise msg,
       mkState (add_errors (count (delete_refused e) pre) (st_stats s))
               (st_calls s ++ map delete_call (pre ++ [f]))).
Proof.
  unfold count.
  induction pre as [| x pre IH]; intros Hok Hf c b s.
  - cbn [app delete_loop]. unfold bind, emit, raise.
    cbn [fst snd st_stats st_calls]. rewrite Hf. cbn.
    now rewrite add_errors_0.
  - cbn [forallb] in Hok. apply andb_true_iff in Hok as [Hx Hrest].
    cbn [app delete_loop]. unfold bind, emit. cbn [fst snd st_stats st_calls].
    cbn [filter map].
    unfold delete_raises in Hx. unfold delete_refused at 1.
    destruct (delete e (fi_id x)) as [u | m | m]; [| | discriminate].
    + rewrite (IH Hrest Hf). cbn [st_stats st_calls].
      rewrite <- app_assoc. reflexivity.
    + unfold update_stats. cbn [fst snd st_stats st_calls].
      rewrite (IH Hrest Hf). cbn [st_stats st_calls List.length].
      rewrite add_errors_add, <- app_assoc. cbn [app].
      f_equal. f_equal. f_equal. lia.
Qed.

(** The loop of a dry run. *)
Lemma delete_loop_dry (e : env) (files : list file_info) :
  forall c b s,
    delete_loop e true files c b s
    = (Ret (c + Z.of_nat (List.length files), b + total_size files), s).
Proof.
  induction files as [| f rest IH]; intros c b s.
  - cbn. now rewrite !Z.add_0_r.
  - cbn [delete_loop]. rewrite IH. cbn [List.length total_size fold_right].
    unfold total_size. do 2 f_equal. f_equal; lia.
Qed.

(** X1. In a live run, a deletion the storage service turns down does not
    stop [delete_data_files]: as long as no deletion raises anything
    else, every file gets its deletion call, in the order of the list;
    the result and the counter of deleted files are the number of
    deletions that went through, the byte counter grows by their sizes,
    and the error counter by the number of deletions turned down. *)
Theorem deletion_goes_on_after_refusals (e : env) (files : list file_info)
        (s : state) :
  forallb (fun f => negb (delete_raises e f)) files = true ->
  delete_data_files e false files s
  = (Ret (count (delete_done e) files),
     mkState
       (add_bytes_deleted (total_size (filter (delete_done e) files))
          (add_files_deleted (count (delete_done e) files)
             (add_errors (count (delete_refused e) files) (st_stats s))))
       (st_calls s ++ map delete_call files)).
Proof.
  intros Hok. unfold delete_data_files, bind.
  rewrite (delete_loop_live e files Hok). reflexivity.
Qed.

Lemma deletion_goes_on_after_refusals_witness :
  delete_data_files (sample_env_f4 (BoxAPIException "locked")) false
                    sample_files initial_state
  = (Ret 2,
     mkState (mkStats 0 0 0 0 2 2560 1)
             [DeleteFile "f1"; DeleteFile "f4"; DeleteFile "f5"]).
Proof.
  rewrite (deletion_goes_on_after_refusals
             (sample_env_f4 (BoxAPIException "locked")) sample_files
             initial_state); reflexivity.
Defined.

(** X2. In a live run, a deletion that raises anything but the storage
    service's own exception ends [delete_data_files] on the spot: the
    files after it get no deletion call, and the counters of deleted
    files and bytes stay as they were, whatever was deleted before. *)
Theorem unexpected_failure_loses_deletion_counts (e : env)
        (pre post : list file_info) (f : file_info) (msg : string)
        (s : state) :
  forallb (fun f => negb (delete_raises e f)) pre = true ->
  delete e (fi_id f) = OtherException msg ->
  let r := delete_data_files e false (pre ++ f :: post) s in
  fst r = Raise msg
  /\ st_calls (snd r) = (st_calls s ++ map delete_call (pre ++ [f]))%list
  /\ files_deleted (st_stats (snd r)) = files_deleted (st_stats s)
  /\ bytes_deleted (st_stats (snd r)) = bytes_deleted (st_stats s).
Proof.
  intros Hok Hf. unfold delete_data_files, bind.
  rewrite (delete_loop_raises e pre post f msg Hok Hf).
  cbn. repeat split; reflexivity.
Qed.

Lemma unexpected_failure_loses_deletion_counts_witness :
  let r := delete_data_files (sample_env_f4 (OtherException "connection reset"))
                             false sample_files initial_state in
  fst r = Raise "connection reset"
  /\ st_calls (snd r) = [DeleteFile "f1"; DeleteFile "f4"]
  /\ files_deleted (st_stats (snd r)) = 0
  /\ bytes_deleted (st_stats (snd r)) = 0.
Proof.
  apply (unexpected_failure_loses_deletion_counts
           (sample_env_f4 (OtherException "connection reset"))
           [mkFile "f1" "panel.csv" 2048 "/panel.csv"]
           [mkFile "f5" "wave2.csv" 512 "/wave2.csv"]
           (mkFile "f4" "locked.dta" 100 "/locked.dta")
           "connection reset" initial_state); reflexivity.
Defined.

(** X3. In a dry run [delete_data_files] calls nothing and counts every
    file of the list as deleted, with its size. *)
Theorem dry_run_counts_every_file (e : env) (files : list file_info)
        (s : state) :
  delete_data_files e true files s
  = (Ret (Z.of_nat (List.length files)),
     mkState
       (add_bytes_deleted (total_size files)
          (add_files_deleted (Z.of_nat (List.length files)) (st_stats s)))
       (st_calls s)).
Proof.
  unfold delete_data_files, bind. rewrite delete_loop_dry. reflexivity.
Qed.

End DeletionLoop.

(* ================================================================== *)
(** ** The archive folder and the move *)

Section ArchiveFolder.
Import PyStr Eff Box Cleanup Cli CleanupCli.

(** X4. In a live run [get_or_create_completed_folder] never returns
    [None]: it returns the id of a folder, found or just created, or it
    ends the run with exit status 1, or an exception of the creation other
    than the storage service's own comes out of it. *)
Theorem live_archive_lookup_never_none (e : env) (s : state) :
  let r := fst (get_or_create_completed_folder e false s) in
  (exists id, r = Ret (Some id))
  \/ r = Exit 1
  \/ (exists msg, r = Raise msg).
Proof.
  unfold get_or_create_completed_folder, bind, emit, ret, sys_exit, raise.
  cbn [fst snd negb].
  destruct (get_items e (root_folder_id e)) as [items |]; cbn [fst];
    [| now right; left].
  destruct (find is_completed_folder items) as [item |]; cbn [fst].
  - left. now exists (item_id item).
  - destruct (create_subfolder e (root_folder_id e) "1Completed")
      as [id | msg | msg]; cbn [fst].
    + left. now exists id.
    + now right; left.
    + right; right. now exists msg.
Qed.


(** X6. In a live run [move_folder_to_completed] reports success exactly
    when it was given a non-empty id of the archive folder and the
    storage service carried the move out. *)
Theorem move_reports_success_iff (e : env) (folder_id folder_name : string)
        (completed_folder_id : option string) (s : state) :
  fst (move_folder_to_completed e false folder_id folder_name
                                completed_folder_id s) = Ret true
  <-> exists cid,
        completed_folder_id = Some cid
        /\ truthy cid = true
        /\ move e folder_id cid = ApiOk tt.
Proof.
  unfold move_folder_to_completed.
  destruct completed_folder_id as [cid |]; cbn [fst ret].
  - destruct (truthy cid) eqn:Hc; cbn [negb].
    + unfold bind, emit, ret, raise, update_stats. cbn [fst snd].
      destruct (move e folder_id cid) as [[] | msg | msg] eqn:Hm; cbn [fst].
      * split; [intros _; now exists cid |]. reflexivity.
      * destruct (str_in "item_name_in_use" (lower msg)); cbn [fst];
          (split; [discriminate | intros (c & [= <-] & _ & H); congruence]).
      * split; [discriminate | intros (c & [= <-] & _ & H); congruence].
    + cbn. split; [discriminate | intros (c & [= <-] & H & _); congruence].
  - cbn. split; [discriminate | intros (c & H & _); discriminate].
Qed.

(** X7. A move the storage service turns down is reported as a failed
    move after the one call; the error counter takes it in unless the
    message, whatever its case, says that the name is in use in the
    archive folder. *)
Theorem move_collision_is_no_error (e : env)
        (folder_id folder_name cid msg : string) (s : state) :
  truthy cid = true ->
  move e folder_id cid = BoxAPIException msg ->
  move_folder_to_completed e false folder_id folder_name (Some cid) s
  = (Ret false,
     mkState (if str_in "item_name_in_use" (lower msg) then st_stats s
              else add_errors 1 (st_stats s))
             (st_calls s ++ [MoveFolder folder_id cid])).
Proof.
  intros Hc Hm. unfold move_folder_to_completed. rewrite Hc. cbn [negb].
  unfold bind, emit, ret, update_stats. cbn [fst snd]. rewrite Hm.
  destruct (str_in "item_name_in_use" (lower msg)); reflexivity.
Qed.

Lemma move_collision_is_no_error_witness :
  move_folder_to_completed
    (sample_env (BoxAPIException "409 Item_Name_In_Use")) false
    "104321" "aearep-4321" (Some "777") initial_state
  = (Ret false, mkState initial_stats [MoveFolder "104321" "777"]).
Proof.
  apply (move_collision_is_no_error
           (sample_env (BoxAPIException "409 Item_Name_In_Use"))
           "104321" "aearep-4321" "777" "409 Item_Name_In_Use"
           initial_state); reflexivity.
Defined.

End ArchiveFolder.

(* ================================================================== *)
(** ** What a run calls *)

Section RunCalls.
Import PyStr Eff Box Cleanup Cli CleanupCli.

Lemma emits_new_calls {A} (P : call -> bool) (m : M A) :
  emits P m -> forall s, forallb P (new_calls m s) = true.
Proof.
  intros Hm s. destruct (Hm s) as (cs & Hcs & Hall).
  now rewrite (new_calls_app m s cs Hcs).
Qed.

(** The continuation is only asked about results the first part can
    give. *)
Lemma em_bind_result (P : call -> bool) {A B} (m : M A) (k : A -> M B) :
  emits P m ->
  (forall a, (exists s, fst (m s) = Ret a) -> emits P (k a)) ->
  emits P (bind m k).
Proof.
  intros Hm Hk s. unfold bind. destruct (Hm s) as (cs1 & C1 & N1).
  destruct (m s) as [[a | msg | code] s1] eqn:E; cbn [fst snd] in *;
    try now exists cs1.
  assert (Ha : exists s, fst (m s) = Ret a) by (exists s; now rewrite E).
  destruct (Hk a Ha s1) as (cs2 & C2 & N2).
  exists (cs1 ++ cs2)%list.
  now rewrite C2, C1, <- app_assoc, forallb_app, N1, N2.
Qed.

Lemma lookup_listing (P : call -> bool) (ids : list string) :
  (forall id, P (GetItems id) = true) ->
  emits P (@emit_all stats call (map GetItems ids)).
Proof.
  intros HP. apply em_emit_all. induction ids; simpl; [reflexivity |].
  now rewrite HP.
Qed.

Lemma lookup_check_jira (P : call -> bool) (e : env) (skip_jira : bool)
      (cn : string) (v : bool) :
  (forall args, P (RunHelper args) = true) ->
  emits P (check_jira_purge_status e skip_jira cn v).
Proof.
  intros HP. unfold check_jira_purge_status.
  destruct skip_jira; [em |]. destruct (negb (helper_exists e)); [em |].
  apply em_bind; [apply em_emit, HP | intros _; em].
Qed.

Lemma lookup_classify (P : call -> bool) (e : env) (fid : string) :
  (forall id, P (GetItems id) = true) ->
  emits P (classify_files_recursive e fid).
Proof.
  intros HP. unfold classify_files_recursive.
  apply em_bind; [now apply lookup_listing | intros _; em].
Qed.

Lemma lookup_find_case_folders (P : call -> bool) (e : env)
      (sc : option string) :
  (forall id, P (GetItems id) = true) ->
  emits P (find_case_folders e sc).
Proof.
  intros HP. unfold find_case_folders.
  apply em_bind; [apply em_emit, HP | intros _; em].
Qed.

Lemma shared_process_case_folder (e : env) (skip_jira : bool)
      (fid fname cn : string) (comp : option string) :
  emits shared (process_case_folder e true skip_jira fid fname cn comp).
Proof.
  unfold process_case_folder.
  apply em_bind; [em | intros _].
  apply em_bind; [now apply lookup_check_jira | intros status].
  destruct (negb (fst status)); [em |].
  apply em_bind; [em | intros _].
  apply em_bind; [now apply lookup_classify | intros files].
  unfold move_folder_to_completed.
  apply em_bind; [em | intros ok].
  destruct (negb ok); [em |].
  apply em_bind; [em | intros _].
  destruct (fst files); [em |].
  apply em_bind; [| intros _; em].
  unfold delete_data_files.
  apply em_bind; [apply em_delete_loop_dry | intros r; em].
Qed.

Lemma shared_process_all (e : env) (skip_jira : bool) (comp : option string)
      (cases : list case_ref) :
  emits shared (process_all e true skip_jira comp cases).
Proof.
  induction cases as [| [[fid fname] cn] rest IH]; cbn [process_all].
  - em.
  - apply em_bind; [| intros _; exact IH].
    apply ni_try, em_bind; [apply shared_process_case_folder | intros _; em].
Qed.

(** X8. A dry run, in any world and whatever fails in it, makes no call
    that creates a folder, moves a folder or deletes a file, and never
    asks the user. *)
Theorem dry_run_changes_nothing (e : env) (skip_jira : bool)
        (specific_case : option string) (auto_confirm : bool) (s : state) :
  forallb shared (new_calls (run e true skip_jira specific_case auto_confirm) s)
  = true.
Proof.
  apply emits_new_calls. unfold run.
  destruct (negb skip_jira && negb (helper_exists e)); [em |].
  apply em_bind; [now apply lookup_find_case_folders | intros cases].
  destruct cases as [| c rest]; [em |].
  unfold confirm. cbn [negb]. rewrite andb_false_r. cbn [andb].
  apply em_bind; [em | intros go].
  destruct (negb go); [em |].
  apply em_bind; [| intros comp; apply shared_process_all].
  unfold get_or_create_completed_folder. cbn [negb].
  apply em_bind; [em | intros _].
  destruct (get_items e (root_folder_id e)) as [items |]; [| em].
  destruct (find is_completed_folder items); em.
Qed.

Lemma lookup_check_all (P : call -> bool) (e : env) (skip_jira : bool)
      (cases : list case_ref) :
  (forall args, P (RunHelper args) = true) ->
  forall ready printed, emits P (check_all e skip_jira cases ready printed).
Proof.
  intros HP.
  induction cases as [| [[fid fname] cn] rest IH]; intros ready printed;
    cbn [check_all].
  - em.
  - apply em_bind; [now apply lookup_check_jira | intros status; apply IH].
Qed.

(** X9. [list_cases] makes no call that creates a folder, moves a
    folder or deletes a file, and never asks the user. *)
Theorem list_cases_changes_nothing (e : env) (skip_jira : bool)
        (specific_case : option string) (s : state) :
  forallb shared (new_calls (list_cases e skip_jira specific_case) s) = true.
Proof.
  apply emits_new_calls. unfold list_cases.
  apply em_bind; [now apply lookup_find_case_folders | intros cases].
  destruct cases as [| c rest]; [em |].
  apply em_bind; [now apply lookup_check_all | intros r; em].
Qed.

(** The loop of [list_cases] when the helper is there to be run. *)
Lemma check_all_runs_helper (e : env) (cases : list case_ref) :
  helper_exists e = true ->
  forall ready printed s,
    check_all e false cases ready printed s
    = (Ret (ready + count (helper_ready e) cases,
            (printed ++ filter truthy (map (helper_text e) cases))%list),
       mkState (st_stats s) (st_calls s ++ map helper_call cases)).
Proof.
  intros He. unfold count.
  induction cases as [| [[fid fname] cn] rest IH]; intros ready printed s.
  - cbn. rewrite Z.add_0_r, !app_nil_r. now destruct s.
  - cbn [check_all]. unfold check_jira_purge_status. rewrite He. cbn [negb].
    unfold bind at 1. unfold bind at 1. unfold emit at 1. cbn [fst snd].
    cbn [map filter].
    change (helper_call (fid, fname, cn))
      with (RunHelper (helper_args cn true)).
    change (helper_ready e (fid, fname, cn))
      with (match run_helper e (helper_args cn true) with
            | Completed returncode _ _ => returncode =? 0
            | _ => false
            end).
    change (helper_text e (fid, fname, cn))
      with (match run_helper e (helper_args cn true) with
            | Completed _ stdout stderr => helper_output stdout stderr
            | TimeoutExpired => "Timeout"
            | HelperError msg => msg
            end).
    destruct (run_helper e (helper_args cn true))
      as [rc out err | | msg]; unfold ret at 1; cbn [fst snd];
      rewrite IH; cbn [st_stats st_calls].
    + destruct (rc =? 0); destruct (truthy (helper_output out err));
        cbn [List.length]; rewrite <- ?app_assoc; cbn [app];
        do 2 f_equal; f_equal; lia.
    + change (truthy "Timeout") with true. cbn iota.
      rewrite <- !app_assoc. cbn [app]. reflexivity.
    + destruct (truthy msg); rewrite <- ?app_assoc; cbn [app]; reflexivity.
Qed.

(** The loop of [list_cases] with the flag that skips the check. *)
Lemma check_all_skips (e : env) (cases : list case_ref) :
  forall ready printed s,
    check_all e true cases ready printed s
    = (Ret (ready + Z.of_nat (List.length cases),
            (printed
               ++ map (fun _ => "Skipped (--skip-jira-check)") cases)%list),
       s).
Proof.
  induction cases as [| [[fid fname] cn] rest IH]; intros ready printed s.
  - cbn. now rewrite Z.add_0_r, app_nil_r.
  - cbn [check_all check_jira_purge_status]. unfold bind at 1, ret at 1.
    cbn [fst snd]. change (truthy "Skipped (--skip-jira-check)") with true.
    cbn iota. rewrite IH. cbn [List.length map].
    rewrite <- app_assoc. cbn [app]. do 2 f_equal. f_equal. lia.
Qed.

Lemma filter_every {A} (l : list A) : filter (fun _ => true) l = l.
Proof. induction l as [| x l IH]; cbn; [| rewrite IH]; reflexivity. Qed.

Lemma skipped_texts {A} (l : list A) :
  filter truthy (map (fun _ => "Skipped (--skip-jira-check)") l)
  = map (fun _ => "Skipped (--skip-jira-check)") l.
Proof.
  induction l as [| x l IH]; cbn [map filter]; [reflexivity |].
  change (truthy "Skipped (--skip-jira-check)") with true. cbn iota.
  now rewrite IH.
Qed.

Lemma check_all_result (e : env) (skip_jira : bool) (cases : list case_ref) :
  skip_jira = true \/ helper_exists e = true ->
  forall s,
    check_all e skip_jira cases 0 [] s
    = (Ret (count (case_ready e skip_jira) cases,
            filter truthy (map (case_text e skip_jira) cases)),
       mkState (st_stats s)
               (st_calls s ++ if skip_jira then [] else map helper_call cases)).
Proof.
  intros Hcheck s. destruct skip_jira.
  - rewrite check_all_skips. unfold count, case_ready, case_text.
    rewrite filter_every, skipped_texts. cbn [app]. rewrite app_nil_r.
    now destruct s.
  - destruct Hcheck as [Hskip | He]; [discriminate |].
    now rewrite (check_all_runs_helper e cases He).
Qed.

Lemma helper_runs_only (cases : list case_ref) :
  filter is_helper_run (map helper_call cases) = map helper_call cases.
Proof.
  induction cases as [| c rest IH]; cbn; [reflexivity | now rewrite IH].
Qed.

(** X10. When the root folder can be listed and at least one case
    folder is found, [list_cases] checks every case folder, in
    ascending order of the case number.  Without the flag that skips
    the check, and with the helper there, it runs the helper once for
    every case, with its full output, takes the case as ready when the
    helper ends with exit code zero, and has what the helper said as
    the text of the case; with the flag it runs no helper, every case
    is ready and the text says that the check was skipped.  It prints
    the text of each case that has one, and a summary that counts the
    ready cases out of all case folders. *)
Theorem list_cases_summary (e : env) (skip_jira : bool)
        (specific_case : option string) (items : list box_item) (s : state) :
  skip_jira = true \/ helper_exists e = true ->
  get_items e (root_folder_id e) = Some items ->
  let cases := sort_by_key (select_case_folders specific_case items) in
  cases <> [] ->
  let r := list_cases e skip_jira specific_case s in
  fst r
  = Ret (app (filter truthy (map (case_text e skip_jira) cases))
             [ LF ++ repeat_string "=" 60;
               summary_line (count (case_ready e skip_jira) cases)
                            (Z.of_nat (List.length cases));
               repeat_string "=" 60 ])
  /\ filter is_helper_run (new_calls (list_cases e skip_jira specific_case) s)
     = if skip_jira then [] else map helper_call cases.
Proof.
  intros Hcheck Hitems cases Hcases r.
  assert (Hrun : list_cases e skip_jira specific_case s
                 = (Ret (app (filter truthy (map (case_text e skip_jira) cases))
                             [ LF ++ repeat_string "=" 60;
                               summary_line
                                 (count (case_ready e skip_jira) cases)
                                 (Z.of_nat (List.length cases));
                               repeat_string "=" 60 ]),
                    mkState (set_folders_found
                               (Z.of_nat (List.length
                                  (select_case_folders specific_case items)))
                               (st_stats s))
                            (app (app (st_calls s)
                                      [GetItems (root_folder_id e)])
                                 (if skip_jira then []
                                  else map helper_call cases)))).
  { unfold list_cases, find_case_folders.
    unfold bind at 1. unfold bind at 1. unfold emit at 1. cbn [fst snd].
    rewrite Hitems. unfold bind at 1. unfold update_stats at 1.
    cbn [fst snd]. unfold ret at 1. cbn [fst snd].
    fold cases. destruct cases as [| c rest] eqn:Ec; [congruence |].
    unfold bind at 1. rewrite (check_all_result e skip_jira (c :: rest) Hcheck).
    cbn [fst snd st_stats st_calls]. unfold ret. reflexivity. }
  subst r. rewrite Hrun. split; [reflexivity |].
  rewrite (new_calls_app _ s
             (GetItems (root_folder_id e)
                :: if skip_jira then [] else map helper_call cases)).
  - cbn [filter is_helper_run].
    destruct skip_jira; [reflexivity | apply helper_runs_only].
  - rewrite Hrun. cbn [snd st_calls]. now rewrite <- app_assoc.
Qed.

Lemma list_cases_summary_witness :
  let r := list_cases (sample_env (ApiOk tt)) false None initial_state in
  fst r
  = Ret [ "READY"; "not ready";
          LF ++ repeat_string "=" 60;
          "Summary: 1/2 case(s) ready for purge";
          repeat_string "=" 60 ]
  /\ filter is_helper_run
            (new_calls (list_cases (sample_env (ApiOk tt)) false None)
                       initial_state)
     = [ RunHelper (helper_args "4321" true);
         RunHelper (helper_args "4322" true) ].
Proof.
  apply (list_cases_summary (sample_env (ApiOk tt)) false None sample_root
                            initial_state);
    [now right | reflexivity | vm_compute; discriminate].
Defined.

(** With the flag that skips the check, on the same world: no helper is
    run and both cases count as ready. *)
Example list_cases_skipping :
  let r := list_cases (sample_env (ApiOk tt)) true None initial_state in
  fst r
  = Ret [ "Skipped (--skip-jira-check)"; "Skipped (--skip-jira-check)";
          LF ++ repeat_string "=" 60;
          "Summary: 2/2 case(s) ready for purge";
          repeat_string "=" 60 ]
  /\ st_calls (snd r) = [GetItems "0"].
Proof. split; reflexivity. Qed.

End RunCalls.

(* ================================================================== *)
(** ** The walk through a case folder *)

Section FolderWalk.
Import PyStr Eff Box Cleanup Cli CleanupCli.

(** Induction over an entry and, for a folder, the entries it holds. *)
Lemma box_item_nested_ind (P : box_item -> Prop) :
  (forall id name size, P (BoxFile id name size)) ->
  (forall id name, P (BoxFolder id name None)) ->
  (forall id name items, Forall P items -> P (BoxFolder id name (Some items))) ->
  (forall id name, P (BoxOther id name)) ->
  forall item, P item.
Proof.
  intros Hfile Hclosed Hopen Hother. fix IH 1.
  intros [id name size | id name [items |] | id name].
  - apply Hfile.
  - apply Hopen.
    revert items. fix IHl 1. intros [| x r].
    + constructor.
    + constructor; [apply IH | apply IHl].
  - apply Hclosed.
  - apply Hother.
Qed.

Lemma visit_open_folder (p id name : string) (items : list box_item)
      (w : walk) :
  visit_item p (BoxFolder id name (Some items)) w
  = recurse_folder (p ++ "/" ++ name) items (add_listing id w).
Proof.
  cbn [visit_item]. unfold recurse_folder.
  generalize (add_listing id w) as a.
  induction items as [| x r IHr]; intros a; [reflexivity |].
  cbn [fold_left]. apply IHr.
Qed.

Lemma holds_file_incl (items items' : list box_item) (p : string)
      (f : file_info) :
  incl items items' -> holds_file items p f -> holds_file items' p f.
Proof.
  intros Hincl H. destruct H as [items p id name size Hin
                                | items sub p id name f Hin Hsub].
  - apply holds_here. now apply Hincl.
  - apply holds_below with (sub := sub) (id := id) (name := name);
      [now apply Hincl | assumption].
Qed.

Lemma holds_file_cons (x : box_item) (r : list box_item) (p : string)
      (f : file_info) :
  holds_file (x :: r) p f <-> holds_file [x] p f \/ holds_file r p f.
Proof.
  split.
  - intros H. inversion H as [items p' id name size Hin
                             | items sub p' id name f' Hin Hsub]; subst.
    + destruct Hin as [-> | Hin].
      * left. apply holds_here. now left.
      * right. now apply holds_here.
    + destruct Hin as [-> | Hin].
      * left. apply holds_below with (sub := sub) (id := id) (name := name);
          [now left | assumption].
      * right. apply holds_below with (sub := sub) (id := id) (name := name);
          assumption.
  - intros [H | H]; revert H; apply holds_file_incl.
    + intros y [<- | []]. now left.
    + intros y Hy. now right.
Qed.

Lemma holds_file_nil (p : string) (f : file_info) : ~ holds_file [] p f.
Proof. intros H. inversion H; subst; contradiction. Qed.

Lemma holds_file_one_file (id name : string) (size : Z) (p : string)
      (f : file_info) :
  holds_file [BoxFile id name size] p f
  <-> f = mkFile id name size (p ++ "/" ++ name).
Proof.
  split.
  - intros H. inversion H as [items p' id' name' size' Hin
                             | items sub p' id' name' f' Hin Hsub]; subst.
    + destruct Hin as [[= <- <- <-] | []]. reflexivity.
    + destruct Hin as [[=] | []].
  - intros ->. apply holds_here. now left.
Qed.

Lemma holds_file_one_folder (id name : string)
      (contents : option (list box_item)) (p : string) (f : file_info) :
  holds_file [BoxFolder id name contents] p f
  <-> exists sub, contents = Some sub /\ holds_file sub (p ++ "/" ++ name) f.
Proof.
  split.
  - intros H. inversion H as [items p' id' name' size' Hin
                             | items sub p' id' name' f' Hin Hsub]; subst.
    + destruct Hin as [[=] | []].
    + destruct Hin as [[= -> -> ->] | []]. now exists sub.
  - intros (sub & -> & H).
    apply holds_below with (sub := sub) (id := id) (name := name);
      [now left | assumption].
Qed.

Lemma holds_file_one_other (id name : string) (p : string) (f : file_info) :
  ~ holds_file [BoxOther id name] p f.
Proof.
  intros H. inversion H as [items p' id' name' size' Hin
                           | items sub p' id' name' f' Hin Hsub]; subst;
    destruct Hin as [[=] | []].
Qed.

Lemma walk_adds_nil (w w' : walk) :
  data_files w' = data_files w -> document_files w' = document_files w ->
  walk_adds w w' [].
Proof. intros H1 H2. split; cbn; now rewrite app_nil_r. Qed.

Lemma walk_adds_trans (w1 w2 w3 : walk) (fs1 fs2 : list file_info) :
  walk_adds w1 w2 fs1 -> walk_adds w2 w3 fs2 -> walk_adds w1 w3 (fs1 ++ fs2).
Proof.
  intros [D1 K1] [D2 K2]. split.
  - now rewrite D2, D1, filter_app, app_assoc.
  - now rewrite K2, K1, filter_app, app_assoc.
Qed.

Lemma recurse_folder_files (p : string) (items : list box_item) :
  Forall (fun item => forall p w, exists fs,
            walk_adds w (visit_item p item w) fs
            /\ forall f, In f fs <-> holds_file [item] p f) items ->
  forall w, exists fs,
    walk_adds w (recurse_folder p items w) fs
    /\ forall f, In f fs <-> holds_file items p f.
Proof.
  unfold recurse_folder.
  induction 1 as [| x r Hx Hr IHr]; intros w.
  - exists []. split; [now apply walk_adds_nil |].
    intros f. split; [intros [] | intros H; now apply holds_file_nil in H].
  - cbn [fold_left].
    destruct (Hx p w) as (fs1 & A1 & I1).
    destruct (IHr (visit_item p x w)) as (fs2 & A2 & I2).
    exists (fs1 ++ fs2)%list. split; [now apply walk_adds_trans with (w2 := visit_item p x w) |].
    intros f. rewrite in_app_iff, holds_file_cons, I1, I2. reflexivity.
Qed.

Lemma visit_item_files (item : box_item) :
  forall p w, exists fs,
    walk_adds w (visit_item p item w) fs
    /\ forall f, In f fs <-> holds_file [item] p f.
Proof.
  induction item as [id name size | id name | id name items IH | id name]
    using box_item_nested_ind; intros p w.
  - exists [mkFile id name size (p ++ "/" ++ name)]. split.
    + cbn [visit_item]. unfold add_file, walk_adds, is_data_file.
      cbn [filter fi_name].
      destruct (classify_name name); cbn [negb data_files document_files];
        now rewrite ?app_nil_r.
    + intros f. rewrite holds_file_one_file. cbn. intuition congruence.
  - exists []. split; [now apply walk_adds_nil |].
    intros f. rewrite holds_file_one_folder.
    split; [intros [] | intros (sub & [=] & _)].
  - rewrite visit_open_folder.
    destruct (recurse_folder_files (p ++ "/" ++ name) items IH
                                   (add_listing id w)) as (fs & [D K] & I).
    exists fs. split; [split; assumption |].
    intros f. rewrite I, holds_file_one_folder. split.
    + intros H. now exists items.
    + now intros (sub & [= <-] & H).
  - exists []. split; [now apply walk_adds_nil |].
    intros f. split; [intros [] | intros H; now apply holds_file_one_other in H].
Qed.

Lemma classify_result (e : env) (folder_id : string) (s : state) :
  classify_files_recursive e folder_id s
  = (Ret (data_files (walk_of e folder_id),
          document_files (walk_of e folder_id)),
     mkState (st_stats s)
             (st_calls s ++ map GetItems (listed (walk_of e folder_id)))).
Proof. reflexivity. Qed.

Lemma walk_of_files (e : env) (folder_id : string) :
  exists fs,
    data_files (walk_of e folder_id) = filter is_data_file fs
    /\ document_files (walk_of e folder_id)
       = filter (fun f => negb (is_data_file f)) fs
    /\ forall f, In f fs
                 <-> exists items, get_items e folder_id = Some items
                                   /\ holds_file items "" f.
Proof.
  unfold walk_of. destruct (get_items e folder_id) as [items |].
  - destruct (recurse_folder_files "" items) with
      (w := add_listing folder_id (mkWalk [] [] [])) as (fs & [D K] & I).
    { apply Forall_forall. intros item _. apply visit_item_files. }
    exists fs. repeat split; try assumption.
    + intros H. exists items. split; [reflexivity | now apply I].
    + intros (items' & [= <-] & H). now apply I.
  - exists []. repeat split.
    + intros [].
    + intros (items & [=] & _).
Qed.


Lemma deletes_only_loop (e : env) (tm : bool) (all files : list file_info) :
  incl files all ->
  forall c b, emits (deletes_only all) (delete_loop e tm files c b).
Proof.
  induction files as [| f rest IH]; intros Hincl c b; cbn [delete_loop].
  - apply em_ret.
  - assert (Hrest : incl rest all) by (intros x Hx; apply Hincl; now right).
    assert (Hf : deletes_only all (DeleteFile (fi_id f)) = true).
    { cbn. apply mem_In, in_map, Hincl. now left. }
    destruct tm; [now apply IH |].
    apply em_bind; [now apply em_emit | intros _].
    destruct (delete e (fi_id f)); [now apply IH | | apply em_raise].
    apply em_bind; [apply em_update | intros _; now apply IH].
Qed.

Lemma deletes_only_process_case_folder (e : env) (tm skip_jira : bool)
      (fid fname cn : string) (comp : option string) :
  emits (deletes_only (data_files (walk_of e fid)))
        (process_case_folder e tm skip_jira fid fname cn comp).
Proof.
  unfold process_case_folder.
  apply em_bind; [em | intros _].
  apply em_bind; [now apply lookup_check_jira | intros status].
  destruct (negb (fst status)); [em |].
  apply em_bind; [em | intros _].
  apply em_bind_result; [now apply lookup_classify | intros files (s & Hs)].
  rewrite classify_result in Hs. cbn [fst] in Hs. injection Hs as <-.
  cbn [fst].
  apply em_bind; [unfold move_folder_to_completed; em | intros ok].
  destruct (negb ok); [em |].
  apply em_bind; [em | intros _].
  destruct (data_files (walk_of e fid)) as [| f rest] eqn:Hdata; [em |].
  apply em_bind; [| intros _; em].
  unfold delete_data_files.
  apply em_bind; [| intros r; em].
  apply deletes_only_loop. apply incl_refl.
Qed.

(** X12. Whatever [process_case_folder] deletes is a file of the tree
    under the case folder whose extension, in lower case, is a data
    extension: every deletion call it makes names the id of such a
    file. *)
Theorem deletes_data_files_of_the_case_only (e : env) (tm skip_jira : bool)
        (folder_id folder_name case_number : string)
        (completed_folder_id : option string) (s : state) (file_id : string) :
  In (DeleteFile file_id)
     (new_calls (process_case_folder e tm skip_jira folder_id folder_name
                                     case_number completed_folder_id) s) ->
  exists items f,
    get_items e folder_id = Some items
    /\ holds_file items "" f
    /\ fi_id f = file_id
    /\ classify_name (fi_name f) = DataFile.
Proof.
  intros Hin.
  pose proof (emits_new_calls _ _
                (deletes_only_process_case_folder e tm skip_jira folder_id
                   folder_name case_number completed_folder_id) s) as Hall.
  rewrite forallb_forall in Hall. specialize (Hall _ Hin).
  cbn in Hall. apply mem_In, in_map_iff in Hall as (f & Hid & Hf).
  destruct (walk_of_files e folder_id) as (fs & D & _ & I).
  rewrite D in Hf. apply filter_In in Hf as [Hfs Hdata].
  apply I in Hfs as (items & Hitems & Hholds).
  exists items, f. repeat split; try assumption.
  unfold is_data_file in Hdata.
  now destruct (classify_name (fi_name f)).
Qed.

Lemma deletes_data_files_of_the_case_only_witness :
  exists items f,
    get_items (sample_env (ApiOk tt)) "104321" = Some items
    /\ holds_file items "" f
    /\ fi_id f = "f1"
    /\ classify_name (fi_name f) = DataFile.
Proof.
  apply (deletes_data_files_of_the_case_only
           (sample_env (ApiOk tt)) false false "104321" "aearep-4321" "4321"
           (Some "777") initial_state "f1").
  vm_compute. tauto.
Defined.

End FolderWalk.

(* ================================================================== *)
(** ** The counters of a cleanup run *)

Section Counters.
Import PyStr Eff Box Cleanup Cli CleanupCli.

Lemma kf_ret {A} (a : A) : keeps_folders (ret a).
Proof. intros s. cbn. repeat split. Qed.

Lemma kf_raise {A} (msg : string) : keeps_folders (@raise stats call A msg).
Proof. intros s. cbn. repeat split. Qed.

Lemma kf_exit {A} (code : Z) : keeps_folders (@sys_exit stats call A code).
Proof. intros s. cbn. repeat split. Qed.

Lemma kf_emit (c : call) : keeps_folders (emit c).
Proof. intros s. cbn. repeat split. Qed.

Lemma kf_emit_all (cs : list call) : keeps_folders (emit_all cs).
Proof. intros s. cbn. repeat split. Qed.

Lemma kf_add_errors (n : Z) : keeps_folders (update_stats (add_errors n)).
Proof. intros s. cbn. repeat split. Qed.

Lemma kf_add_files_deleted (n : Z) :
  keeps_folders (update_stats (add_files_deleted n)).
Proof. intros s. cbn. repeat split. Qed.

Lemma kf_add_bytes_deleted (n : Z) :
  keeps_folders (update_stats (add_bytes_deleted n)).
Proof. intros s. cbn. repeat split. Qed.

Lemma kf_bind {A B} (m : M A) (k : A -> M B) :
  keeps_folders m -> (forall a, keeps_folders (k a)) ->
  keeps_folders (bind m k).
Proof.
  intros Hm Hk s. unfold bind. destruct (Hm s) as (F1 & C1 & R1 & M1).
  destruct (m s) as [[a | msg | code] s1]; cbn [fst snd] in *;
    try (repeat split; assumption).
  destruct (Hk a s1) as (F2 & C2 & R2 & M2).
  repeat split; congruence.
Qed.

Ltac kf :=
  repeat first
    [ apply kf_ret | apply kf_raise | apply kf_exit | apply kf_emit
    | apply kf_emit_all | apply kf_add_errors | apply kf_add_files_deleted
    | apply kf_add_bytes_deleted
    | apply kf_bind; [| intros ?]
    | match goal with
      | |- keeps_folders (if ?b then _ else _) => destruct b
      | |- keeps_folders (match ?x with _ => _ end) => destruct x
      end ].

Lemma kf_check_jira (e : env) (skip_jira : bool) (cn : string) (v : bool) :
  keeps_folders (check_jira_purge_status e skip_jira cn v).
Proof. unfold check_jira_purge_status. kf. Qed.

Lemma kf_classify (e : env) (fid : string) :
  keeps_folders (classify_files_recursive e fid).
Proof. unfold classify_files_recursive. kf. Qed.

Lemma kf_move (e : env) (tm : bool) (fid fname : string) (comp : option string) :
  keeps_folders (move_folder_to_completed e tm fid fname comp).
Proof. unfold move_folder_to_completed. kf. Qed.

Lemma kf_delete_loop (e : env) (tm : bool) (files : list file_info) :
  forall c b, keeps_folders (delete_loop e tm files c b).
Proof.
  induction files as [| f rest IH]; intros c b; cbn [delete_loop].
  - kf.
  - destruct tm; [apply IH |]. kf; apply IH.
Qed.

Lemma kf_delete_data_files (e : env) (tm : bool) (files : list file_info) :
  keeps_folders (delete_data_files e tm files).
Proof. unfold delete_data_files. kf. apply kf_delete_loop. Qed.

Lemma kf_confirm (e : env) (tm auto_confirm : bool) (n : nat) :
  keeps_folders (confirm e tm auto_confirm n).
Proof. unfold confirm. kf. Qed.

Lemma kf_archive (e : env) (tm : bool) :
  keeps_folders (get_or_create_completed_folder e tm).
Proof. unfold get_or_create_completed_folder. kf. Qed.

Lemma kf_check_all (e : env) (skip_jira : bool) (cases : list case_ref) :
  forall ready printed, keeps_folders (check_all e skip_jira cases ready printed).
Proof.
  induction cases as [| [[fid fname] cn] rest IH]; intros ready printed;
    cbn [check_all].
  - kf.
  - apply kf_bind; [apply kf_check_jira | intros status; apply IH].
Qed.

Ltac counters_done :=
  try (intros ? ->);
  repeat match goal with
         | H : _ /\ _ |- _ => destruct H
         end;
  cbn [st_stats st_calls fst snd folders_found folders_checked folders_ready
       folders_moved add_folders_checked add_folders_ready add_folders_moved
       add_errors set_folders_found initial_state initial_stats] in *;
  repeat split; lia.

Lemma counts_process_case_folder (e : env) (tm skip_jira : bool)
      (fid fname cn : string) (comp : option string) :
  counts_one_case (process_case_folder e tm skip_jira fid fname cn comp).
Proof.
  intros s. cbv zeta.
  remember (process_case_folder e tm skip_jira fid fname cn comp s) as r eqn:Hr.
  revert r Hr. unfold process_case_folder.
  unfold bind at 1. unfold update_stats at 1. cbn [fst snd].
  unfold bind at 1.
  pose proof (kf_check_jira e skip_jira cn false
                (mkState (add_folders_checked 1 (st_stats s)) (st_calls s)))
    as K1.
  destruct (check_jira_purge_status e skip_jira cn false _)
    as [[status | msg | code] s2]; [| counters_done | counters_done].
  destruct (negb (fst status)); [unfold ret; counters_done |].
  unfold bind at 1. unfold update_stats at 1. cbn [fst snd].
  unfold bind at 1.
  pose proof (kf_classify e fid
                (mkState (add_folders_ready 1 (st_stats s2)) (st_calls s2)))
    as K2.
  destruct (classify_files_recursive e fid _)
    as [[files | msg | code] s3]; [| counters_done | counters_done].
  unfold bind at 1.
  pose proof (kf_move e tm fid fname comp s3) as K3.
  destruct (move_folder_to_completed e tm fid fname comp s3)
    as [[ok | msg | code] s4]; [| counters_done | counters_done].
  destruct (negb ok); [unfold ret; counters_done |].
  unfold bind at 1. unfold update_stats at 1. cbn [fst snd].
  destruct (fst files) as [| f rest]; [unfold ret; counters_done |].
  unfold bind at 1.
  pose proof (kf_delete_data_files e tm (f :: rest)
                (mkState (add_folders_moved 1 (st_stats s4)) (st_calls s4)))
    as K4.
  destruct (delete_data_files e tm (f :: rest) _)
    as [[n | msg | code] s5]; unfold ret; counters_done.
Qed.

Lemma counts_process_all (e : env) (tm skip_jira : bool)
      (comp : option string) (cases : list case_ref) (s : state) :
  let before := st_stats s in
  let after := st_stats (snd (process_all e tm skip_jira comp cases s)) in
  folders_found after = folders_found before
  /\ folders_moved before <= folders_moved after
  /\ folders_moved after - folders_moved before
     <= folders_ready after - folders_ready before
  /\ folders_ready after - folders_ready before
     <= folders_checked after - folders_checked before
  /\ folders_checked after - folders_checked before
     <= Z.of_nat (List.length cases).
Proof.
  revert s. induction cases as [| [[fid fname] cn] rest IH]; intros s;
    cbn [process_all List.length].
  - cbn. repeat split; lia.
  - cbv zeta.
    remember (bind _ _ s) as r eqn:Hr. revert r Hr.
    unfold bind at 1. unfold try_count_error. unfold bind at 1.
    pose proof (counts_process_case_folder e tm skip_jira fid fname cn comp s)
      as K.
    cbv zeta in K.
    destruct (process_case_folder e tm skip_jira fid fname cn comp s)
      as [[ok | msg | code] s1]; cbn [fst snd ret] in *.
    + specialize (IH s1). cbv zeta in IH.
      destruct (process_all e tm skip_jira comp rest s1) as [o s2].
      counters_done.
    + specialize (IH (mkState (add_errors 1 (st_stats s1)) (st_calls s1))).
      cbv zeta in IH.
      destruct (process_all e tm skip_jira comp rest _) as [o s2].
      counters_done.
    + counters_done.
Qed.

Lemma counts_run (e : env) (tm skip_jira : bool) (sc : option string)
      (auto_confirm : bool) :
  counts_consistent
    (st_stats (snd (run e tm skip_jira sc auto_confirm initial_state))).
Proof.
  unfold counts_consistent.
  remember (run e tm skip_jira sc auto_confirm initial_state) as r eqn:Hr.
  revert r Hr. unfold run.
  destruct (negb skip_jira && negb (helper_exists e));
    [intros r ->; cbn; repeat split; lia |].
  unfold bind at 1. unfold find_case_folders.
  unfold bind at 1. unfold emit at 1. cbn [fst snd].
  destruct (get_items e (root_folder_id e)) as [items |];
    [| intros r ->; cbn; repeat split; lia].
  unfold bind at 1. unfold update_stats at 1, ret at 1. cbn [fst snd].
  rewrite <- (sort_by_key_length (select_case_folders sc items)).
  destruct (sort_by_key (select_case_folders sc items)) as [| c rest].
  { intros r ->. cbn. repeat split; lia. }
  set (cases := c :: rest).
  unfold bind at 1.
  pose proof (kf_confirm e tm auto_confirm (List.length cases)
                (mkState (set_folders_found (Z.of_nat (List.length cases))
                                            (st_stats initial_state))
                         (st_calls initial_state ++ [GetItems (root_folder_id e)])))
    as K1.
  destruct (confirm e tm auto_confirm (List.length cases) _)
    as [[go | msg | code] s1]; [| counters_done | counters_done].
  destruct (negb go); [unfold ret; counters_done |].
  unfold bind at 1.
  pose proof (kf_archive e tm s1) as K2.
  destruct (get_or_create_completed_folder e tm s1)
    as [[comp | msg | code] s2]; [| counters_done | counters_done].
  pose proof (counts_process_all e tm skip_jira comp cases s2) as K3.
  cbv zeta in K3.
  destruct (process_all e tm skip_jira comp cases s2) as [o s3].
  counters_done.
Qed.

Lemma counts_list_cases (e : env) (skip_jira : bool) (sc : option string) :
  counts_consistent
    (st_stats (snd (list_cases e skip_jira sc initial_state))).
Proof.
  unfold counts_consistent.
  remember (list_cases e skip_jira sc initial_state) as r eqn:Hr.
  revert r Hr. unfold list_cases.
  unfold bind at 1. unfold find_case_folders.
  unfold bind at 1. unfold emit at 1. cbn [fst snd].
  destruct (get_items e (root_folder_id e)) as [items |];
    [| intros r ->; cbn; repeat split; lia].
  unfold bind at 1. unfold update_stats at 1, ret at 1. cbn [fst snd].
  destruct (sort_by_key (select_case_folders sc items)) as [| c rest].
  { intros r ->. cbn. repeat split; lia. }
  unfold bind at 1.
  pose proof (kf_check_all e skip_jira (c :: rest) 0 []
                (mkState (set_folders_found
                            (Z.of_nat (List.length (select_case_folders sc items)))
                            (st_stats initial_state))
                         (st_calls initial_state ++ [GetItems (root_folder_id e)])))
    as K.
  destruct (check_all e skip_jira (c :: rest) 0 [] _)
    as [[r | msg | code] s1]; unfold ret; counters_done.
Qed.

(** X13. Whatever happens in [main], the folder counters the summary
    shows at the end hang together: no more folders are moved than were
    found ready, no more are ready than were checked, and no more are
    checked than were found. *)
Theorem summary_counts_hang_together (e : env) (a : args) :
  counts_consistent (st_stats (snd (main e a))).
Proof.
  unfold main. destruct (case_rejected a).
  { cbn. unfold counts_consistent. cbn. repeat split; lia. }
  unfold exit_on_exception. destruct (arg_list a).
  - pose proof (counts_list_cases e (arg_skip_jira_check a) (arg_case a)) as K.
    unfold bind.
    destruct (list_cases e (arg_skip_jira_check a) (arg_case a) initial_state)
      as [[r | msg | code] s1]; exact K.
  - pose proof (counts_run e (arg_test a) (arg_skip_jira_check a) (arg_case a)
                           (arg_yes a)) as K.
    destruct (run e (arg_test a) (arg_skip_jira_check a) (arg_case a)
                  (arg_yes a) initial_state)
      as [[r | msg | code] s1]; exact K.
Qed.

End Counters.

(* ================================================================== *)
(** ** The command line of the cleanup *)

Section CleanupMain.
Import PyStr Eff Box Cleanup Cli CleanupCli.



















Lemma select_empty_case (items : list box_item) :
  select_case_folders (Some "") items = select_case_folders None items.
Proof.
  induction items as [| [id name size | id name contents | id name] rest IH];
    cbn [select_case_folders]; try assumption; [reflexivity |].
  destruct (case_pattern_match name) as [cn |]; [| assumption].
  cbn [other_case truthy String.eqb negb andb]. now rewrite IH.
Qed.

(** X15. An empty case number on the command line is no restriction:
    [main] lets it through without a look at its digits, and the run
    treats every case folder as it does when no case number is given. *)
Theorem empty_case_number_selects_every_case (e : env)
        (test list yes skip_jira_check : bool) :
  main e (mkArgs test list (Some "") yes skip_jira_check)
  = main e (mkArgs test list None yes skip_jira_check).
Proof.
  unfold main, case_rejected. cbn [arg_case arg_list arg_test arg_yes
                                     arg_skip_jira_check truthy String.eqb
                                     negb andb].
  assert (Hfind : find_case_folders e (Some "") = find_case_folders e None).
  { unfold find_case_folders.
    destruct (get_items e (root_folder_id e)) as [items |]; [| reflexivity].
    now rewrite select_empty_case. }
  destruct list.
  - unfold list_cases. now rewrite Hfind.
  - unfold run. now rewrite Hfind.
Qed.

(** X16. A case number given to [find_case_folders] selects by the text
    of the digits, not by their value: every folder it returns has
    exactly the digits asked for after the prefix. *)
Theorem single_case_is_selected_by_text (e : env) (specific_case : string)
        (s : state) (cases : list case_ref) (c : case_ref) :
  truthy specific_case = true ->
  fst (find_case_folders e (Some specific_case) s) = Ret cases ->
  In c cases ->
  case_number_of c = specific_case.
Proof.
  intros Hsc Hrun Hin. unfold find_case_folders in Hrun.
  unfold bind, emit, update_stats, ret, sys_exit in Hrun. cbn [fst snd] in Hrun.
  destruct (get_items e (root_folder_id e)) as [items |];
    cbn [fst snd] in Hrun; [| discriminate].
  injection Hrun as <-.
  apply (Permutation_in _ (sort_by_key_perm _)) in Hin.
  destruct c as [[id name] cn].
  apply select_case_folders_In in Hin as (_ & _ & Hother).
  unfold other_case in Hother. rewrite Hsc in Hother. cbn [andb] in Hother.
  apply negb_false_iff, String.eqb_eq in Hother. exact Hother.
Qed.

Lemma single_case_is_selected_by_text_witness :
  case_number_of ("104321", "aearep-4321", "4321") = "4321".
Proof.
  apply (single_case_is_selected_by_text
           (sample_env (ApiOk tt)) "4321" initial_state
           [("104321", "aearep-4321", "4321")]);
    [reflexivity | reflexivity | now left].
Defined.

Lemma declined_run_state (e : env) (skip_jira : bool)
      (specific_case : option string) (items : list box_item) (s : state) :
  negb skip_jira && negb (helper_exists e) = false ->
  get_items e (root_folder_id e) = Some items ->
  let n := List.length (select_case_folders specific_case items) in
  1 < Z.of_nat n ->
  mem (lower (input e (confirm_prompt n))) ["y"; "yes"] = false ->
  run e false skip_jira specific_case false s
  = (Ret tt,
     mkState (set_folders_found (Z.of_nat n) (st_stats s))
             (st_calls s ++ [GetItems (root_folder_id e);
                             Input (confirm_prompt n)])).
Proof.
  intros Hhelper Hitems n Hn Hanswer. unfold run. rewrite Hhelper.
  unfold find_case_folders. unfold bind at 1. unfold bind at 1.
  unfold emit at 1. cbn [fst snd]. rewrite Hitems.
  unfold bind at 1. unfold update_stats at 1, ret at 1. cbn [fst snd].
  pose proof (sort_by_key_length (select_case_folders specific_case items))
    as Hlen. fold n in Hlen.
  destruct (sort_by_key (select_case_folders specific_case items))
    as [| c rest] eqn:Ec.
  { cbn in Hlen. lia. }
  rewrite Hlen. unfold confirm. cbn [negb andb].
  apply Z.ltb_lt in Hn. rewrite Hn.
  unfold bind at 1. unfold bind at 1. unfold emit at 1, ret at 1.
  cbn [fst snd]. rewrite Hanswer. cbn [negb]. unfold ret.
  fold n. cbn [st_stats st_calls]. now rewrite <- app_assoc.
Qed.

(** X17. When a live run without the flag that answers for the user
    finds more than one case folder and the answer to its question is
    neither [y] nor [yes], in whatever case, the run returns there: of
    the counters only the number of folders found is set, the question
    was asked once, the root folder was listed once and nothing else
    was, no case was checked with the helper, and nothing was created,
    moved or deleted. *)
Theorem declined_run_stops_at_the_question (e : env) (skip_jira : bool)
        (specific_case : option string) (items : list box_item) (s : state) :
  negb skip_jira && negb (helper_exists e) = false ->
  get_items e (root_folder_id e) = Some items ->
  let n := List.length (select_case_folders specific_case items) in
  1 < Z.of_nat n ->
  mem (lower (input e (confirm_prompt n))) ["y"; "yes"] = false ->
  let r := run e false skip_jira specific_case false s in
  let calls := new_calls (run e false skip_jira specific_case false) s in
  fst r = Ret tt
  /\ st_stats (snd r) = set_folders_found (Z.of_nat n) (st_stats s)
  /\ filter is_input calls = [Input (confirm_prompt n)]
  /\ filter is_listing calls = [GetItems (root_folder_id e)]
  /\ existsb works_on_case calls = false.
Proof.
  intros Hhelper Hitems n Hn Hanswer r calls.
  pose proof (declined_run_state e skip_jira specific_case items s Hhelper
                                 Hitems Hn Hanswer) as Hrun.
  fold n in Hrun.
  assert (Hcalls : calls = [GetItems (root_folder_id e);
                            Input (confirm_prompt n)]).
  { apply new_calls_app. now rewrite Hrun. }
  subst r. rewrite Hrun, Hcalls. repeat split.
Qed.

Lemma declined_run_stops_at_the_question_witness :
  let r := run (sample_env_f4 (ApiOk tt)) false false None false
               initial_state in
  let calls := new_calls (run (sample_env_f4 (ApiOk tt)) false false None
                              false) initial_state in
  fst r = Ret tt
  /\ st_stats (snd r) = mkStats 2 0 0 0 0 0 0
  /\ filter is_input calls = [Input "Continue? [y/N]: "]
  /\ filter is_listing calls = [GetItems "0"]
  /\ existsb works_on_case calls = false.
Proof.
  apply (declined_run_stops_at_the_question
           (sample_env_f4 (ApiOk tt)) false None sample_root initial_state);
    reflexivity.
Defined.

End CleanupMain.

(* ================================================================== *)
(** ** The filter of the recovery and its name matcher *)

Section RecoveryFilter.
Import PyStr Eff Box Recovery Cli RecoveryCli.

Lemma date_skips_monotone (fromisoformat : string -> option datetime)
      (cutoff wider : Z) (item : trashed_item) :
  wider <= cutoff ->
  date_skips fromisoformat wider item = true ->
  date_skips fromisoformat cutoff item = true.
Proof.
  intros Hle. unfold date_skips.
  destruct (it_trashed_at item) as [trashed_at_str |]; [| discriminate].
  destruct (negb (truthy trashed_at_str)); [discriminate |].
  destruct (fromisoformat (replace "Z" "+00:00" trashed_at_str))
    as [trashed_at |]; [| discriminate].
  unfold datetime_lt, replace_tzinfo, utc_instant.
  destruct (tzinfo trashed_at) as [tz |]; cbn [tzinfo wall];
    rewrite !Z.ltb_lt; lia.
Qed.

(** X18. A cutoff further back never loses an item: whatever
    [filter_trashed_items] keeps with one cutoff date, it keeps with
    every earlier one. *)
Theorem earlier_cutoff_keeps_more (fromisoformat : string -> option datetime)
        (cutoff wider : Z) (items : list trashed_item)
        (folder_id folder_name : option string) (user_filter : string)
        (item : trashed_item) :
  wider <= cutoff ->
  In item (filter_trashed_items fromisoformat cutoff items
                                folder_id folder_name user_filter) ->
  In item (filter_trashed_items fromisoformat wider items
                                folder_id folder_name user_filter).
Proof.
  intros Hle Hin. apply filter_trashed_items_In.
  apply filter_trashed_items_In in Hin as (Hitem & Hdate & Huser & Hfolder).
  repeat split; try assumption.
  destruct (date_skips fromisoformat wider item) eqn:Hskip; [| reflexivity].
  rewrite (date_skips_monotone fromisoformat cutoff wider item Hle Hskip)
    in Hdate.
  discriminate.
Qed.

Lemma earlier_cutoff_keeps_more_witness :
  In item_by_automation
     (filter_trashed_items read_iso (sample_cutoff - 86400000000)
                           [item_before_cutoff; item_by_automation]
                           (Some "555") (Some "aearep-7712") "aeadata").
Proof.
  apply (earlier_cutoff_keeps_more read_iso sample_cutoff
           (sample_cutoff - 86400000000)
           [item_before_cutoff; item_by_automation]
           (Some "555") (Some "aearep-7712") "aeadata" item_by_automation).
  - vm_compute. discriminate.
  - vm_compute. tauto.
Defined.

Lemma prefix_split (p h : string) :
  prefix p h = true -> exists rest, h = p ++ rest.
Proof.
  revert h. induction p as [| a p IH]; intros h Hp.
  - now exists h.
  - destruct h as [| b h]; [discriminate |]. cbn in Hp.
    destruct (ascii_dec a b) as [<- | Hne]; [| discriminate].
    destruct (IH h Hp) as (rest & ->). now exists rest.
Qed.

Lemma str_in_split (needle hay : string) :
  str_in needle hay = true -> exists before after, hay = before ++ needle ++ after.
Proof.
  induction hay as [| c hay IH]; cbn [str_in]; intros H;
    apply orb_true_iff in H as [H | H].
  - apply prefix_split in H as (rest & ->). now exists "", rest.
  - discriminate.
  - apply prefix_split in H as (rest & ->). now exists "", rest.
  - destruct (IH H) as (before & after & ->).
    now exists (String c before), after.
Qed.

(** What holds a text holds every end of it. *)
Lemma str_in_tail (a b hay : string) :
  str_in (a ++ b) hay = true -> str_in b hay = true.
Proof.
  intros H. apply str_in_split in H as (before & after & ->).
  rewrite append_assoc, <- (append_assoc before a). apply str_in_append.
Qed.

Lemma eqb_str_in (a b : string) : (a =? b)%string = true -> str_in b a = true.
Proof. intros H. apply String.eqb_eq in H as ->. apply str_in_refl. Qed.

(** X19. [_matches_folder_name] comes down to two tests on the names in
    lower case: the item name holds the expected name, or the expected
    name starts with [aearep-] and the item name holds what is left of
    it once every [aearep-] is taken out.  The test for equality and the
    test for the expected name with [aearep-] put before it add
    nothing. *)
Theorem matcher_is_two_containments (item_name expected_name : string) :
  _matches_folder_name item_name expected_name
  = str_in (lower expected_name) (lower item_name)
    || (startswith "aearep-" (lower expected_name)
        && str_in (replace "aearep-" "" (lower expected_name))
                  (lower item_name)).
Proof.
  unfold _matches_folder_name.
  destruct (lower item_name =? lower expected_name)%string eqn:Heq.
  { now rewrite (eqb_str_in _ _ Heq). }
  destruct (str_in (lower expected_name) (lower item_name)) eqn:Hin;
    [reflexivity |].
  destruct (lower item_name =? "aearep-" ++ lower expected_name)%string
    eqn:Heq2.
  { apply eqb_str_in, str_in_tail in Heq2. congruence. }
  destruct (str_in ("aearep-" ++ lower expected_name) (lower item_name))
    eqn:Hin2.
  { apply str_in_tail in Hin2. congruence. }
  cbn [orb].
  destruct (startswith "aearep-" (lower expected_name)); [| reflexivity].
  cbn [andb].
  destruct (lower item_name =? replace "aearep-" "" (lower expected_name))%string
    eqn:Heq3.
  { now rewrite (eqb_str_in _ _ Heq3). }
  cbn [orb].
  now destruct (str_in (replace "aearep-" "" (lower expected_name))
                       (lower item_name)).
Qed.

Lemma lower_char_idempotent (c : ascii) :
  lower_char (lower_char c) = lower_char c.
Proof.
  destruct c as [[] [] [] [] [] [] [] []]; reflexivity.
Qed.

Lemma lower_idempotent (s : string) : lower (lower s) = lower s.
Proof.
  induction s as [| c s IH]; cbn [lower]; [reflexivity |].
  now rewrite lower_char_idempotent, IH.
Qed.

(** X20. [_matches_folder_name] does not look at the case of either
    name. *)
Theorem matcher_ignores_case (item_name expected_name : string) :
  _matches_folder_name (lower item_name) (lower expected_name)
  = _matches_folder_name item_name expected_name.
Proof.
  unfold _matches_folder_name. now rewrite !lower_idempotent.
Qed.

Lemma box_info_shape (fields : list (string * string))
      (values : string -> jira_value) :
  box_info fields values = (None, None)
  \/ exists id, fst (box_info fields values) = Some id /\ truthy id = true.
Proof.
  unfold box_info.
  destruct (field_map_get "Restricted data Box ID" fields) as [fid |];
    [| now left].
  destruct (negb (truthy fid)); [now left |].
  destruct (negb (jira_truthy (values fid))); [now left |].
  destruct (_clean_jira_numeric_field (values fid)) as [[id |] | msg | code];
    try (now left).
  cbn [truthy_opt]. destruct (truthy id) eqn:Hid; cbn [negb]; [| now left].
  destruct (folder_name_of fields values) as [name | msg | code];
    try (now left).
  right. now exists id.
Qed.

(** X21. [get_box_info_from_jira] always returns, whatever the issue
    tracker does, and what it returns is a pair of nothing and nothing,
    or starts with a folder id that is not empty: a folder name never
    comes without a folder id. *)
Theorem box_info_has_id_or_nothing (e : env) (case_number : string)
        (s : state) :
  exists info,
    fst (get_box_info_from_jira e case_number s) = Ret info
    /\ (info = (None, None)
        \/ exists id, fst info = Some id /\ truthy id = true).
Proof.
  unfold get_box_info_from_jira, bind, emit, ret. cbn [fst snd].
  destruct (jira_issue e ("aearep-" ++ case_number)) as [values |];
    cbn [fst snd]; [| exists (None, None); now split; [| left]].
  destruct (jira_fields e) as [fields |];
    cbn [fst snd]; [| exists (None, None); now split; [| left]].
  exists (box_info fields values). split; [reflexivity |].
  apply box_info_shape.
Qed.

End RecoveryFilter.

(* ================================================================== *)
(** ** What a recovery run calls and counts *)

Section RecoveryRun.
Import PyStr Eff Box Recovery Cli RecoveryCli.

Lemma rn_ret {A} (a : A) : restores_nothing (ret a).
Proof. intros s. cbn. repeat split. exists []. now rewrite app_nil_r. Qed.

Lemma rn_raise {A} (msg : string) : restores_nothing (@raise stats call A msg).
Proof. intros s. cbn. repeat split. exists []. now rewrite app_nil_r. Qed.

Lemma rn_exit {A} (code : Z) : restores_nothing (@sys_exit stats call A code).
Proof. intros s. cbn. repeat split. exists []. now rewrite app_nil_r. Qed.

Lemma rn_emit (c : call) : not_mutation c = true -> restores_nothing (emit c).
Proof. intros H s. cbn. repeat split. exists [c]. cbn. now rewrite H. Qed.

Lemma rn_found (n : Z) : restores_nothing (update_stats (set_items_found n)).
Proof. intros s. cbn. repeat split. exists []. now rewrite app_nil_r. Qed.

Lemma rn_bind {A B} (m : M A) (k : A -> M B) :
  restores_nothing m -> (forall a, restores_nothing (k a)) ->
  restores_nothing (bind m k).
Proof.
  intros Hm Hk s. unfold bind.
  destruct (Hm s) as (R1 & E1 & cs1 & C1 & N1).
  destruct (m s) as [[a | msg | code] s1]; cbn [fst snd] in *;
    try (repeat split; try assumption; now exists cs1).
  destruct (Hk a s1) as (R2 & E2 & cs2 & C2 & N2).
  repeat split; try congruence.
  exists (cs1 ++ cs2)%list. rewrite C2, C1, <- app_assoc, forallb_app, N1, N2.
  now split.
Qed.

Ltac rn :=
  repeat first
    [ apply rn_ret | apply rn_raise | apply rn_exit | apply rn_found
    | apply rn_emit; reflexivity
    | apply rn_bind; [| intros ?]
    | match goal with
      | |- restores_nothing (if ?b then _ else _) => destruct b
      | |- restores_nothing (match ?x with _ => _ end) => destruct x
      end ].

Lemma rn_box_info (e : env) (cn : string) :
  restores_nothing (get_box_info_from_jira e cn).
Proof. unfold get_box_info_from_jira. rn. Qed.

Lemma rn_archive_dry (e : env) :
  restores_nothing (get_or_create_completed_folder e true).
Proof.
  unfold get_or_create_completed_folder. cbn [negb].
  apply rn_bind; [rn | intros _].
  destruct (get_items e (root_folder_id e)) as [items |]; [| rn].
  destruct (find is_completed_folder items); rn.
Qed.

Lemma rn_find_target_dry (e : env) (name : option string) :
  restores_nothing (find_target_folder e true name).
Proof.
  unfold find_target_folder, find_case_folder_in_completed.
  destruct name as [name |]; [| apply rn_archive_dry].
  destruct (truthy name); [| apply rn_archive_dry].
  apply rn_bind.
  - apply rn_bind; [apply rn_archive_dry | intros comp]. rn.
  - intros target. destruct (negb (truthy_opt target));
      [apply rn_archive_dry | rn].
Qed.

Lemma rn_restore_all_dry (e : env) (items : list trashed_item)
      (target : option string) :
  restores_nothing (restore_all e true items target).
Proof.
  induction items as [| item rest IH]; cbn [restore_all]; [rn |].
  apply rn_bind; [unfold restore_item; rn | intros _; exact IH].
Qed.

Lemma rn_run_dry (e : env) (cutoff : Z) (cn : string)
      (list_only auto_confirm : bool) :
  restores_nothing (run e true cutoff cn list_only auto_confirm).
Proof.
  unfold run.
  apply rn_bind; [apply rn_box_info | intros info].
  destruct (negb (truthy_opt (fst info))); [rn |].
  apply rn_bind; [unfold get_trashed_items; rn | intros trashed].
  apply rn_bind; [rn | intros _].
  destruct list_only; [rn |].
  destruct (filter_trashed_items _ _ _ _ _ _) as [| item rest]; [rn |].
  unfold confirm. cbn [negb]. rewrite andb_false_r.
  apply rn_bind; [rn | intros go].
  destruct (negb go); [rn |].
  apply rn_bind; [apply rn_find_target_dry | intros target].
  destruct (negb (truthy_opt target)); [rn |].
  apply rn_restore_all_dry.
Qed.

(** X22. A dry run of the recovery, in any world, makes no call that
    changes the storage service, neither a restore nor the creation of
    the archive folder, and leaves the counters of restored items and
    of errors as they were. *)
Theorem recovery_dry_run_restores_nothing (e : env) (cutoff_date : Z)
        (case_number : string) (list_only auto_confirm : bool) (s : state) :
  let r := run e true cutoff_date case_number list_only auto_confirm s in
  forallb not_mutation
          (new_calls (run e true cutoff_date case_number list_only
                          auto_confirm) s) = true
  /\ items_restored (st_stats (snd r)) = items_restored (st_stats s)
  /\ errors (st_stats (snd r)) = errors (st_stats s).
Proof.
  destruct (rn_run_dry e cutoff_date case_number list_only auto_confirm s)
    as (R & E & cs & C & N).
  cbv zeta. rewrite (new_calls_app _ s cs C). repeat split; assumption.
Qed.





(** X24. When the issue gives no folder id, because the issue or the
    list of fields cannot be read, the field is not there or is empty,
    the run ends with exit status 1 right after the look-ups in the
    issue tracker: the trash is not read, no folder is listed or
    created, nothing is restored, the user is not asked, and no counter
    moves. *)
Theorem unresolved_folder_ends_run (e : env) (test_mode : bool)
        (cutoff_date : Z) (case_number : string)
        (list_only auto_confirm : bool) (s : state) :
  folder_resolved e case_number = false ->
  let r := run e test_mode cutoff_date case_number list_only auto_confirm s in
  fst r = Exit 1
  /\ st_stats (snd r) = st_stats s
  /\ existsb uses_folder
             (new_calls (run e test_mode cutoff_date case_number list_only
                             auto_confirm) s) = false.
Proof.
  intros Hres. cbv zeta.
  assert (Hrun : exists cs,
             run e test_mode cutoff_date case_number list_only auto_confirm s
             = (Exit 1, mkState (st_stats s) (st_calls s ++ cs))
             /\ existsb uses_folder cs = false).
  { unfold folder_resolved in Hres.
    unfold run, get_box_info_from_jira, bind, emit, ret, sys_exit.
    cbn [fst snd].
    destruct (jira_issue e ("aearep-" ++ case_number)) as [values |];
      cbn [fst snd truthy_opt negb];
      [| exists [JiraIssue ("aearep-" ++ case_number)]; now split].
    destruct (jira_fields e) as [fields |];
      cbn [fst snd truthy_opt negb].
    - rewrite Hres. cbn [negb].
      exists [JiraIssue ("aearep-" ++ case_number); JiraFields].
      cbn [st_stats st_calls]. now rewrite <- app_assoc.
    - exists [JiraIssue ("aearep-" ++ case_number); JiraFields].
      cbn [st_stats st_calls]. now rewrite <- app_assoc. }
  destruct Hrun as (cs & Hrun & Hcs).
  rewrite (new_calls_app _ s cs); rewrite Hrun; cbn [fst snd st_stats st_calls];
    repeat split; assumption.
Qed.

Lemma unresolved_folder_ends_run_witness :
  let r := run (sample_env [item_by_automation]) false sample_cutoff "1"
               false true initial_state in
  fst r = Exit 1
  /\ st_stats (snd r) = st_stats initial_state
  /\ existsb uses_folder
             (new_calls (run (sample_env [item_by_automation]) false
                             sample_cutoff "1" false true) initial_state)
     = false.
Proof.
  apply (unresolved_folder_ends_run (sample_env [item_by_automation]) false
                                    sample_cutoff "1" false true initial_state).
  reflexivity.
Defined.

(** The loop over the items in a live run with a target folder. *)
Lemma restore_all_live (e : env) (target : string) (items : list trashed_item) :
  truthy target = true ->
  forall s,
    restore_all e false items (Some target) s
    = (Ret tt,
       mkState
         (mkStats (items_found (st_stats s))
                  (items_restored (st_stats s)
                   + count (restore_done e target) items)
                  (errors (st_stats s)
                   + count (restore_counted_error e target) items))
         (st_calls s ++ map (restore_call target) items)).
Proof.
  intros Ht. unfold count.
  induction items as [| item rest IH]; intros s.
  - cbn. rewrite !Z.add_0_r, app_nil_r. now destruct s as [[] ?].
  - cbn [restore_all]. unfold bind at 1. unfold restore_item. rewrite Ht.
    cbn [negb]. unfold bind at 1. unfold emit at 1. cbn [fst snd].
    cbn [map filter]. unfold restore_call at 2.
    unfold restore_done at 1, restore_counted_error at 1.
    destruct (restore e (it_type item) (it_id item) target) as [u | msg | msg].
    + unfold bind, update_stats, ret. cbn [fst snd].
      rewrite IH. cbn [st_stats st_calls items_found items_restored errors
                       add_items_restored List.length].
      rewrite <- app_assoc. cbn [app]. f_equal. f_equal. f_equal; lia.
    + destruct (str_in "item_name_in_use" (lower msg)); cbn [negb].
      * unfold ret. cbn [fst snd]. rewrite IH. cbn [st_stats st_calls].
        rewrite <- app_assoc. reflexivity.
      * unfold bind, update_stats, ret. cbn [fst snd].
        rewrite IH. cbn [st_stats st_calls items_found items_restored errors
                         Recovery.add_errors List.length].
        rewrite <- app_assoc. cbn [app]. f_equal. f_equal. f_equal; lia.
    + unfold bind, update_stats, ret. cbn [fst snd].
      rewrite IH. cbn [st_stats st_calls items_found items_restored errors
                       Recovery.add_errors List.length].
      rewrite <- app_assoc. cbn [app]. f_equal. f_equal. f_equal; lia.
Qed.

(** X25. In a live run with a target folder, the loop of [run] over the
    items asks the storage service to restore every item, once and in
    order, whatever the answers: no failure stops it.  The counter of
    restored items grows by the number of restores that went through,
    and the error counter by the number of failures other than a name
    that is already in use in the target folder. *)
Theorem restore_loop_tries_every_item (e : env) (target : string)
        (items : list trashed_item) (s : state) :
  truthy target = true ->
  let r := restore_all e false items (Some target) s in
  fst r = Ret tt
  /\ new_calls (restore_all e false items (Some target)) s
     = map (restore_call target) items
  /\ items_restored (st_stats (snd r))
     = items_restored (st_stats s) + count (restore_done e target) items
  /\ errors (st_stats (snd r))
     = errors (st_stats s) + count (restore_counted_error e target) items
  /\ items_found (st_stats (snd r)) = items_found (st_stats s).
Proof.
  intros Ht. cbv zeta.
  rewrite (new_calls_app _ s (map (restore_call target) items));
    rewrite (restore_all_live e target items Ht s); repeat split.
Qed.

Lemma restore_loop_tries_every_item_witness :
  let e := sample_env_9004 (OtherException "connection reset") in
  let r := restore_all e false (trash e) (Some "555") initial_state in
  fst r = Ret tt
  /\ new_calls (restore_all e false (trash e) (Some "555")) initial_state
     = [Restore "file" "9001" "555"; Restore "file" "9004" "555"]
  /\ items_restored (st_stats (snd r)) = 1
  /\ errors (st_stats (snd r)) = 1
  /\ items_found (st_stats (snd r)) = 0.
Proof.
  apply (restore_loop_tries_every_item
           (sample_env_9004 (OtherException "connection reset")) "555"
           [item_by_automation; item_without_metadata] initial_state).
  reflexivity.
Defined.

End RecoveryRun.

(* ================================================================== *)
(** ** The command line of the recovery *)

Section RecoveryMain.
Import PyStr Eff Box Recovery Cli RecoveryCli.


















(** A window of a billion days is out of the range of [timedelta]
    itself, and one of three thousand years reaches before the year 1;
    a week is fine. *)
Example cutoff_date_of_windows :
  (exists msg, cutoff_date_of 1700000000000000 1000000000 = Raise msg)
  /\ (exists msg, cutoff_date_of 1700000000000000 1095000 = Raise msg)
  /\ cutoff_date_of 1700000000000000 7 = Ret 1699395200000000.
Proof. repeat split; eexists; reflexivity. Qed.

End RecoveryMain.

(* ================================================================== *)
(** ** Logging in *)

Section LoggingIn.
Import PyStr Eff Auth.

(** X27. [authenticate_box] returns only with a root folder id that is
    set in the environment and not empty, whichever way it logs in. *)
Theorem box_login_needs_root_folder (o : os_env) (root_folder_id : string)
        (login : box_login) :
  authenticate_box o = Ret (root_folder_id, login) ->
  environ o "BOX_FOLDER_PRIVATE" = Some root_folder_id
  /\ truthy root_folder_id = true.
Proof.
  unfold authenticate_box, authenticate_with_file.
  destruct (environ o "BOX_FOLDER_PRIVATE") as [root |]; [| discriminate].
  destruct (truthy root) eqn:Hroot; cbn [negb]; [| discriminate].
  intros H.
  assert (Hr : root = root_folder_id).
  { destruct (environ o "BOX_PRIVATE_JSON") as [blob |].
    - destruct (truthy blob).
      + destruct (login_with_json o blob); [now injection H | discriminate].
      + destruct (environ o "BOX_CONFIG_PATH"); [| discriminate].
        destruct (environ o "BOX_PRIVATE_KEY_ID"); [| discriminate].
        destruct (environ o "BOX_ENTERPRISE_ID"); [| discriminate].
        destruct (_ && _); [| discriminate].
        destruct (negb _); [discriminate |].
        destruct (login_with_file _ _); [now injection H | discriminate].
    - destruct (environ o "BOX_CONFIG_PATH"); [| discriminate].
      destruct (environ o "BOX_PRIVATE_KEY_ID"); [| discriminate].
      destruct (environ o "BOX_ENTERPRISE_ID"); [| discriminate].
      destruct (_ && _); [| discriminate].
      destruct (negb _); [discriminate |].
      destruct (login_with_file _ _); [now injection H | discriminate]. }
  subst root. now split.
Qed.

Lemma box_login_needs_root_folder_witness :
  environ sample_os "BOX_FOLDER_PRIVATE" = Some "0" /\ truthy "0" = true.
Proof.
  apply (box_login_needs_root_folder
           sample_os "0" (WithFile "/etc/box/e9_k1_config.json")).
  reflexivity.
Defined.

(** X28. A blob of settings in the environment is the only way in once
    it is there: when the login with it fails, [authenticate_box] ends
    with exit status 1 and does not turn to the file of settings, however
    good that file is. *)
Theorem json_login_has_no_fallback (o : os_env) (blob : string) :
  truthy_opt (environ o "BOX_FOLDER_PRIVATE") = true ->
  environ o "BOX_PRIVATE_JSON" = Some blob ->
  truthy blob = true ->
  login_with_json o blob = false ->
  authenticate_box o = Exit 1.
Proof.
  intros Hroot Hblob Htruthy Hlogin. unfold authenticate_box.
  destruct (environ o "BOX_FOLDER_PRIVATE") as [root |]; [| reflexivity].
  cbn [truthy_opt] in Hroot. rewrite Hroot. cbn [negb].
  now rewrite Hblob, Htruthy, Hlogin.
Qed.

Lemma json_login_has_no_fallback_witness :
  authenticate_box sample_os_json = Exit 1
  /\ authenticate_with_file sample_os_json "0"
     = Ret ("0", WithFile "/etc/box/e9_k1_config.json").
Proof.
  split; [| reflexivity].
  apply (json_login_has_no_fallback sample_os_json "e30="); reflexivity.
Defined.

(** X29. [authenticate_jira] returns only with a user name and a key
    that are set and not empty, and with the server the environment
    names whenever it names one, be it the empty text: the default
    stands in only for a variable that is not set. *)
Theorem jira_login_needs_both_credentials (o : os_env)
        (server username : string) :
  authenticate_jira o = Ret (server, username) ->
  environ o "JIRA_USERNAME" = Some username
  /\ truthy username = true
  /\ truthy_opt (environ o "JIRA_API_KEY") = true
  /\ (forall named, environ o "JIRA_SERVER" = Some named -> server = named)
  /\ (environ o "JIRA_SERVER" = None -> server = JIRA_DEFAULT_SERVER).
Proof.
  unfold authenticate_jira, jira_server.
  destruct (environ o "JIRA_USERNAME") as [user |]; [| discriminate].
  destruct (environ o "JIRA_API_KEY") as [key |]; [| discriminate].
  destruct (truthy user) eqn:Huser; cbn [andb]; [| discriminate].
  destruct (truthy key) eqn:Hkey; [| discriminate].
  destruct (jira_login o _ user key); [| discriminate].
  intros [= <- <-]. repeat split; try assumption.
  - intros named ->. reflexivity.
  - intros ->. reflexivity.
Qed.

Lemma jira_login_needs_both_credentials_witness :
  environ sample_os "JIRA_USERNAME" = Some "me@example.org"
  /\ truthy "me@example.org" = true
  /\ truthy_opt (environ sample_os "JIRA_API_KEY") = true
  /\ (forall named,
         environ sample_os "JIRA_SERVER" = Some named ->
         JIRA_DEFAULT_SERVER = named)
  /\ (environ sample_os "JIRA_SERVER" = None ->
      JIRA_DEFAULT_SERVER = JIRA_DEFAULT_SERVER).
Proof.
  apply (jira_login_needs_both_credentials
           sample_os JIRA_DEFAULT_SERVER "me@example.org").
  reflexivity.
Defined.

End LoggingIn.

(* ================================================================== *)
(** ** The order of the case folders *)

Section CaseOrder.
Import PyStr Eff Box Cleanup Cli CleanupCli.

(** X30. When the root folder can be listed, [find_case_folders] returns
    the case folders it selected, each once, in ascending order of the
    case number read as a number, and sets the counter of found folders
    to their number. *)
Theorem case_folders_come_in_numeric_order (e : env)
        (specific_case : option string) (items : list box_item) (s : state) :
  get_items e (root_folder_id e) = Some items ->
  exists cases,
    fst (find_case_folders e specific_case s) = Ret cases
    /\ Sorted key_le cases
    /\ Permutation cases (select_case_folders specific_case items)
    /\ folders_found (st_stats (snd (find_case_folders e specific_case s)))
       = Z.of_nat (List.length cases).
Proof.
  intros Hitems.
  exists (sort_by_key (select_case_folders specific_case items)).
  unfold find_case_folders, bind, emit, update_stats, ret. cbn [fst snd].
  rewrite Hitems. cbn [fst snd st_stats folders_found set_folders_found].
  repeat split.
  - apply sort_by_key_sorted.
  - apply sort_by_key_perm.
  - now rewrite sort_by_key_length.
Qed.

Lemma case_folders_come_in_numeric_order_witness :
  exists cases,
    fst (find_case_folders (sample_env (ApiOk tt)) None initial_state)
    = Ret cases
    /\ Sorted key_le cases
    /\ Permutation cases (select_case_folders None sample_root)
    /\ folders_found
         (st_stats (snd (find_case_folders (sample_env (ApiOk tt)) None
                                           initial_state)))
       = Z.of_nat (List.length cases).
Proof.
  apply (case_folders_come_in_numeric_order
           (sample_env (ApiOk tt)) None sample_root initial_state).
  reflexivity.
Defined.

End CaseOrder.
